(** * torch-molecule: the graph-diffusion generator and the context-prediction
    encoder, embedded as state-passing functions.

    Sources embedded here:
    - [torch_molecule/generator/graph_dit/modeling_graph_dit.py]
      (class [GraphDITMolecularGenerator]);
    - [torch_molecule/encoder/contextpred/modeling_contextpred.py]
      (class [ContextPredMolecularEncoder]).

    Python floats are modelled by exact rationals ([Q]); the results of
    [np.mean] and of a loss, which may be [nan] or infinite, by [npfloat].
    Exceptions are values of [exn]; a method is a function into the monad
    [M], which threads the random generator and the log of the calls made to
    the network and to the optimizer. *)

From Stdlib Require Import QArith Qround ZArith List String Bool Lia.
From stdpp Require Import base gmap strings list.

Set Warnings "-register-all".
Set Default Proof Using "Type".

Local Open Scope string_scope.
Local Open Scope list_scope.

(** ** Python values, exceptions and name spaces *)

Module Py.

(** The exceptions the two modules can raise. *)
Inductive exn : Type :=
| NameError (name : string)
| UnboundLocalError (name : string)
| AttributeError (attr : string)
| KeyError (key : string)
| IndexError
| TypeError
| ValueError (msg : string)
| AssertionError
| RuntimeError (msg : string).

Inductive result (A : Type) : Type :=
| Ok (a : A)
| Raise (e : exn).
Arguments Ok {A} a.
Arguments Raise {A} e.

(** A tensor held as a Python value: its device, its shape and its entries
    in storage order. *)
Record tensor : Type := mkTensor {
  t_device : string;
  t_shape : list nat;
  t_data : list Q
}.

(** The values stored in checkpoints, in [dataset_info] and in a module's
    global name space. *)
Inductive pyval : Type :=
| PNone
| PBool (b : bool)
| PInt (z : Z)
| PFloat (q : Q)
| PStr (s : string)
| PList (l : list pyval)
| PDict (d : gmap string pyval)
| PTensor (t : tensor)
| PNodeDist (probs : list Q)
| PCallable (name : string).

Definition is_ok {A} (r : result A) : bool :=
  match r with Ok _ => true | Raise _ => false end.

(** [d[k]] on a dict. *)
Definition getitem (d : gmap string pyval) (k : string) : result pyval :=
  match d !! k with
  | Some v => Ok v
  | None => Raise (KeyError k)
  end.

(** [v[k]] on any value: only dicts are subscriptable by a string. *)
Definition subscript (v : pyval) (k : string) : result pyval :=
  match v with
  | PDict d => getitem d k
  | _ => Raise TypeError
  end.

(** [v.device]: tensors have a device, the other values do not. *)
Definition attr_device (v : pyval) : result string :=
  match v with
  | PTensor t => Ok (t_device t)
  | _ => Raise (AttributeError "device")
  end.

(** Loading a name that is not local to the running function: the
    module's global name space is searched (no builtin is called
    [text_embedding], the only name looked up this way below). *)
Definition load_global (globals : gmap string pyval) (name : string)
  : result pyval :=
  match globals !! name with
  | Some v => Ok v
  | None => Raise (NameError name)
  end.

(** [v.get(k, dflt)]: a method of dicts only. *)
Definition dict_get (v : pyval) (k : string) (dflt : pyval) : result pyval :=
  match v with
  | PDict d => Ok (default dflt (d !! k))
  | _ => Raise (AttributeError "get")
  end.

(** ** The world a method runs in

    [Rng] is the stream of raw draws of the global random generator.
    The log records, in order, the calls made to the collaborators whose
    order the training loop and the sampler fix: the network, autograd and
    the optimizer. *)
Definition Rng : Type := nat -> Z.

Definition draw (r : Rng) : Z * Rng := (r 0%nat, fun n => r (S n)).

Inductive event : Type :=
| EvForward (unconditioned : bool)   (* self.model(noisy_data, unconditioned=..) *)
| EvZeroGrad                         (* optimizer.zero_grad() *)
| EvComputeLoss                      (* self.model.compute_loss(..) *)
| EvBackward                         (* loss.backward() *)
| EvClipGradNorm (max_norm : Q)      (* torch.nn.utils.clip_grad_norm_(.., max_norm) *)
| EvOptimizerStep                    (* optimizer.step() *)
| EvSchedulerStep.                   (* scheduler.step(..) *)

Record World : Type := mkWorld { w_rng : Rng; w_log : list event }.

Definition M (A : Type) : Type := World -> result A * World.

Definition ret {A} (a : A) : M A := fun w => (Ok a, w).
Definition raise {A} (e : exn) : M A := fun w => (Raise e, w).
Definition bind {A B} (m : M A) (k : A -> M B) : M B :=
  fun w => match m w with
           | (Ok a, w') => k a w'
           | (Raise e, w') => (Raise e, w')
           end.
Definition lift {A} (r : result A) : M A := fun w => (r, w).
Definition emit (e : event) : M unit :=
  fun w => (Ok tt, mkWorld (w_rng w) (w_log w ++ [e])).
(** A collaborator that consumes randomness. *)
Definition with_rng {A} (f : Rng -> result A * Rng) : M A :=
  fun w => let '(r, g) := f (w_rng w) in (r, mkWorld g (w_log w)).
(** [assert c]. *)
Definition assert (c : bool) : M unit :=
  if c then ret tt else raise AssertionError.

(** [for x in xs: acc = body(acc, x)], stopping at the first exception. *)
Fixpoint for_each {A S} (xs : list A) (body : S -> A -> M S) (acc : S) : M S :=
  match xs with
  | [] => ret acc
  | x :: xs' => bind (body acc x) (for_each xs' body)
  end.

(** [range(lo, hi)]. *)
Definition range (lo hi : Z) : list Z :=
  map (fun i => (lo + Z.of_nat i)%Z) (seq 0 (Z.to_nat (hi - lo))).

(** A float that is either finite (and then modelled exactly) or one of
    [nan], [inf], [-inf]. *)
Inductive npfloat : Type :=
| Finite (q : Q)
| NonFinite.


Definition npadd (x y : npfloat) : npfloat :=
  match x, y with
  | Finite a, Finite b => Finite (a + b)
  | _, _ => NonFinite
  end.

(** [np.mean] of a list of floats: the sum over the length; [nan] (with a
    warning, no exception) on the empty list. *)
Definition np_mean (xs : list npfloat) : npfloat :=
  match xs with
  | [] => NonFinite
  | _ => match fold_right npadd (Finite 0) xs with
         | Finite s => Finite (s / inject_Z (Z.of_nat (length xs)))
         | NonFinite => NonFinite
         end
  end.

End Py.

#[global] Instance result_ret : MRet Py.result := @Py.Ok.
#[global] Instance result_bind : MBind Py.result :=
  fun A B k r => match r with Py.Ok a => k a | Py.Raise e => Py.Raise e end.
#[global] Instance M_ret : MRet Py.M := @Py.ret.
#[global] Instance M_bind : MBind Py.M := fun A B k m => Py.bind m k.

Import Py.

(** ** Dense tensors

    A tensor of floats of shape [(bs, n, d)] is a list of [bs] lists of [n]
    rows; one of shape [(bs, n, n, d)] has one more level.  A [(bs, 1)]
    column is a list of [bs] numbers. *)

Module Tensor.

Local Open Scope Q_scope.

Definition row : Type := list Q.
Definition XT : Type := list (list row).
Definition ET : Type := list (list (list row)).
Definition column : Type := list Q.
Definition NodeMask : Type := list (list bool).

(** [torch.sum(r, dim=-1)] on one row. *)
Definition sum_row (r : row) : Q := fold_right Qplus 0 r.

(** [x.clamp_min(c)]. *)
Definition clamp_min (c x : Q) : Q := if Qle_bool c x then x else c.

(** The literal [1e-5]. *)
Definition eps : Q := 1 # 100000.

(** [F.one_hot(k, num_classes)] for one index: an index outside
    [0 .. num_classes - 1] is an error of the tensor library. *)
Definition one_hot (num_classes : nat) (k : Z) : result row :=
  if (0 <=? k)%Z && (k <? Z.of_nat num_classes)%Z
  then Ok (map (fun c => if (Z.of_nat c =? k)%Z then 1 else 0) (seq 0%nat num_classes))
  else Raise (RuntimeError "Class values must be non-negative and smaller than num_classes.").

(** [mapM] in [result]. *)
Fixpoint traverse {A B} (f : A -> result B) (xs : list A) : result (list B) :=
  match xs with
  | [] => Ok []
  | x :: xs' =>
      match f x with
      | Raise e => Raise e
      | Ok y => match traverse f xs' with
                | Raise e => Raise e
                | Ok ys => Ok (y :: ys)
                end
      end
  end.

Definition one_hot_X (d : nat) (idx : list (list Z)) : result XT :=
  traverse (traverse (one_hot d)) idx.
Definition one_hot_E (d : nat) (idx : list (list (list Z))) : result ET :=
  traverse (traverse (traverse (one_hot d))) idx.

(** Elementwise [==] followed by [.all()]. *)
Fixpoint all_eq {A} (eqb : A -> A -> bool) (xs ys : list A) : bool :=
  match xs, ys with
  | [], [] => true
  | x :: xs', y :: ys' => eqb x y && all_eq eqb xs' ys'
  | _, _ => false
  end.

Definition row_eqb : row -> row -> bool := all_eq Qeq_bool.

(** [torch.transpose(E, 1, 2)] on one batch element, an [n x m] grid of
    rows: entry [(j, i)] of the result is entry [(i, j)] of the grid. *)
Definition transpose (g : list (list row)) : list (list row) :=
  map (fun j => map (fun r => nth j r []) g) (seq 0%nat (length (hd [] g))).

(** [(E == torch.transpose(E, 1, 2)).all()]. *)
Definition is_symmetric (E : ET) : bool :=
  all_eq (all_eq (all_eq row_eqb)) E (map transpose E).

(** [E[b, i, j]] for the grid [g = E[b]] (the empty row out of range), and
    the symmetry of an edge tensor: [E[b, i, j] == E[b, j, i]] entry by
    entry, for every graph [b] and all nodes [i], [j]. *)
Definition entry (g : list (list row)) (i j : nat) : row := nth j (nth i g []) [].
Definition Symmetric (E : ET) : Prop :=
  forall g, g ∈ E ->
  forall i j, (i < length g)%nat -> (j < length g)%nat ->
              Forall2 Qeq (entry g i j) (entry g j i).

(** The shapes compared by [X_t.shape == X_s.shape]. *)
Definition shape_X (X : XT) : nat * nat * nat :=
  (length X, length (hd [] X), length (hd [] (hd [] X))).
Definition shape_E (E : ET) : nat * nat * nat * nat :=
  (length E, length (hd [] E), length (hd [] (hd [] E)),
   length (hd [] (hd [] (hd [] E)))).

Definition shape_X_eqb (a b : nat * nat * nat) : bool :=
  let '(a1, a2, a3) := a in let '(b1, b2, b3) := b in
  (a1 =? b1)%nat && (a2 =? b2)%nat && (a3 =? b3)%nat.
Definition shape_E_eqb (a b : nat * nat * nat * nat) : bool :=
  let '(a1, a2, a3, a4) := a in let '(b1, b2, b3, b4) := b in
  (a1 =? b1)%nat && (a2 =? b2)%nat && (a3 =? b3)%nat && (a4 =? b4)%nat.

(** [count] consecutive pieces of [size] entries. *)
Fixpoint pieces {A} (count size : nat) (l : list A) : list (list A) :=
  match count with
  | O => []
  | S c => take size l :: pieces c size (drop size l)
  end.

(** [t.reshape(.., count, -1)] on one flat list: the last dimension is
    inferred as the length divided by [count]. *)
Definition split_into {A} (count : nat) (l : list A) : list (list A) :=
  pieces count (length l / count)%nat l.

(** [E.reshape(bs, n, -1)]: the rows of each node are laid end to end. *)
Definition flatten_E (E : ET) : XT := map (map (@concat Q)) E.

(** [torch.cat([A, B], dim=-1)]. *)
Definition cat_last (A B : XT) : XT := zip_with (zip_with (@app Q)) A B.

(** [A[:, :, :k]] and [A[:, :, k:]]. *)
Definition take_last (k : nat) (A : XT) : XT := map (map (take k)) A.
Definition drop_last (k : nat) (A : XT) : XT := map (map (drop k)) A.

(** [A.reshape(bs, n * n, -1)] for [A] of shape [(bs, n, n * d)]. *)
Definition rows_of_pairs (n : nat) (A : XT) : XT :=
  map (fun g => split_into (n * n)%nat (concat g)) A.

(** [A.reshape(bs, n, n, d)] for [A] of shape [(bs, n * n, d)]. *)
Definition grid_of_rows (n : nat) (A : XT) : ET :=
  map (fun g => pieces n n g) A.

(** [A.reshape(bs, n, n, -1)] for [A] of shape [(bs, n, n * d)]. *)
Definition grid_of_flat (n : nat) (A : XT) : ET :=
  map (map (split_into n)) A.

(** [v @ Q] for a row vector and a matrix given by its rows. *)
Definition vec_mat (v : row) (m : list row) : row :=
  map (fun j => sum_row (zip_with (fun x r => x * nth j r 0) v m))
      (seq 0%nat (length (hd [] m))).

(** [A @ Q] batched: [(bs, n, D) @ (bs, D, D)]. *)
Definition matmul (A : XT) (Qs : list (list row)) : XT :=
  zip_with (fun g m => map (fun v => vec_mat v m) g) A Qs.

End Tensor.
Import Tensor.

(** ** Collaborators shared by both estimators

    The network, autograd, the optimizer and the data pipeline are used
    through their contracts only.  [Net] is the network with its gradient
    buffers, [Batch] a mini-batch of graphs, [Loss] the loss tensor returned
    by [compute_loss]. *)

Record Optimizer (OptState : Type) : Type := mkOptimizer {
  param_groups : list (gmap string pyval);
  opt_state : OptState
}.
Arguments mkOptimizer {OptState} _ _.
Arguments param_groups {OptState} _.
Arguments opt_state {OptState} _.

(** [group.setdefault(k, v)]. *)
Definition setdefault (k : string) (v : pyval) (group : gmap string pyval)
  : gmap string pyval :=
  match group !! k with
  | Some _ => group
  | None => <[k := v]> group
  end.

(** The scheduler object built by [ReduceLROnPlateau]. *)
Record Scheduler : Type := mkScheduler {
  sched_factor : Q;
  sched_patience : Z
}.

(** ** [ContextPredMolecularEncoder] *)

Module ContextPred.

(** The dataclass fields the embedded methods read but never assign. *)
Record Config : Type := mkConfig {
  num_task : option Z;
  num_layer : Z;
  hidden_size : Z;
  drop_ratio : Q;
  norm_layer : string;
  encoder_type : string;
  readout : string;
  mode : string;
  csize : Z;
  neg_samples : Z;
  batch_size : Z;
  epochs : Z;
  learning_rate : Q;
  grad_clip_value : option Q;
  weight_decay : Q;
  use_lr_scheduler : bool;
  scheduler_factor : Q;
  scheduler_patience : Z;
  verbose : bool
}.

(** The estimator object [self]: its configuration and the attributes
    that [fit] assigns.  [model = None] stands for a network that was
    never built. *)
Record Encoder (Net : Type) : Type := mkEncoder {
  config : Config;
  model : option Net;
  fitting_loss : list npfloat;
  fitting_epoch : Z;
  is_fitted_ : bool
}.
Arguments mkEncoder {Net} _ _ _ _ _.
Arguments config {Net} _.
Arguments model {Net} _.
Arguments fitting_loss {Net} _.
Arguments fitting_epoch {Net} _.
Arguments is_fitted_ {Net} _.

(** The collaborators of the encoder: the base class
    ([_initialize_model], [_validate_inputs]), the featurizer, the data
    loader, the GNN and the optimizer. *)
Record Backend : Type := mkBackend {
  Net : Type;
  OptState : Type;
  Mol : Type;
  Graph : Type;
  Batch : Type;
  Loss : Type;
  (* self._initialize_model(self.model_class); self.model.initialize_parameters() *)
  initialize_model : Encoder Net -> Rng -> result Net * Rng;
  (* torch.optim.Adam(self.model.parameters(), lr=.., weight_decay=..) *)
  adam_state : Net -> OptState;
  (* self._validate_inputs(X_train, return_rdkit_mol=True, num_task=..) *)
  validate_inputs : list string -> option Z -> result (list Mol);
  (* graph_from_smiles(mol, None), wrapped in a Data object *)
  to_graph : Mol -> result Graph;
  (* one pass over DataLoader(dataset, batch_size=.., shuffle=True) *)
  data_loader : list Graph -> Z -> result (Rng -> list Batch * Rng);
  zero_grad : Net -> Net;
  compute_loss : Net -> Batch -> Rng -> Loss * Rng;
  backward : Net -> Loss -> Net;
  clip_grad_norm_ : Net -> Q -> Net;
  optimizer_step : Net -> Optimizer OptState -> Net * Optimizer OptState;
  loss_item : Loss -> npfloat;
  scheduler_step : Scheduler -> npfloat -> Optimizer OptState -> Optimizer OptState
}.

Section WithBackend.
Context (B : Backend).

Abbreviation Self := (Encoder (Net B)).
Abbreviation Opt := (Optimizer (OptState B)).

(** [_get_model_params(self, checkpoint=None)]. *)
Definition _get_model_params (self : Self)
    (checkpoint : option (gmap string pyval)) : result (gmap string pyval) :=
  let c := config self in
  let own : list (string * pyval) :=
    [ ("num_layer", PInt (num_layer c));
      ("hidden_size", PInt (hidden_size c));
      ("num_task", match num_task c with Some z => PInt z | None => PNone end);
      ("drop_ratio", PFloat (drop_ratio c));
      ("norm_layer", PStr (norm_layer c));
      ("readout", PStr (readout c));
      ("encoder_type", PStr (encoder_type c));
      ("mode", PStr (mode c));
      ("csize", PInt (csize c));
      ("neg_samples", PInt (neg_samples c)) ] in
  match checkpoint with
  | Some ckpt =>
      match ckpt !! "hyperparameters" with
      | None => Raise (ValueError "Checkpoint missing 'hyperparameters' key")
      | Some hyperparameters =>
          match traverse (fun '(k, dflt) =>
                            match dict_get hyperparameters k dflt with
                            | Ok v => Ok (k, v)
                            | Raise e => Raise e
                            end) own with
          | Ok kvs => Ok (list_to_map kvs)
          | Raise e => Raise e
          end
      end
  | None => Ok (list_to_map own)
  end.

(** [_setup_optimizers(self)]. *)
Definition _setup_optimizers (self : Self) : M (Opt * option Scheduler) :=
  let c := config self in
  match model self with
  | None => raise (AttributeError "parameters")
  | Some net =>
      let groups :=
        [ {[ "lr" := PFloat (learning_rate c);
             "weight_decay" := PFloat (weight_decay c) ]} ] in
      let groups :=
        match grad_clip_value c with
        | Some v =>
            map (fun group =>
                   setdefault "norm_type" (PFloat 2)
                     (setdefault "max_norm" (PFloat v) group)) groups
        | None => groups
        end in
      let optimizer := mkOptimizer groups (adam_state B net) in
      let scheduler :=
        if use_lr_scheduler c
        then Some (mkScheduler (scheduler_factor c) (scheduler_patience c))
        else None in
      mret (optimizer, scheduler)
  end.

(** One iteration of the loop of [_train_epoch] (lines 262-270). *)
Definition train_step (self : Self) (st : Net B * Opt * list npfloat)
    (batch : Batch B) : M (Net B * Opt * list npfloat) :=
  let '(net, optimizer, losses) := st in
  _ ← emit EvZeroGrad;
  let net := zero_grad B net in
  _ ← emit EvComputeLoss;
  loss ← with_rng (fun g => let '(l, g') := compute_loss B net batch g in (Ok l, g'));
  _ ← emit EvBackward;
  let net := backward B net loss in
  net ← match grad_clip_value (config self) with
        | Some v => _ ← emit (EvClipGradNorm v); mret (clip_grad_norm_ B net v)
        | None => mret net
        end;
  _ ← emit EvOptimizerStep;
  let '(net, optimizer) := optimizer_step B net optimizer in
  mret (net, optimizer, losses ++ [loss_item B loss]).

(** [_train_epoch(self, train_loader, optimizer)]: the per-batch losses,
    with the updated network and optimizer. *)
Definition _train_epoch (self : Self)
    (train_loader : Rng -> list (Batch B) * Rng) (optimizer : Opt)
  : M (Net B * Opt * list npfloat) :=
  match model self with
  | None => raise (AttributeError "train")
  | Some net =>
      batches ← with_rng (fun g => let '(bs, g') := train_loader g in (Ok bs, g'));
      for_each batches (train_step self) (net, optimizer, [])
  end.

(** The body of [for epoch in range(self.epochs)] in [fit]. *)
Definition fit_epoch (train_loader : Rng -> list (Batch B) * Rng)
    (scheduler : option Scheduler)
    (st : Self * Opt * option Z) (epoch : Z) : M (Self * Opt * option Z) :=
  let '(self, optimizer, _) := st in
  '(net, optimizer, train_losses) ← _train_epoch self train_loader optimizer;
  let self := mkEncoder (config self) (Some net)
                (fitting_loss self ++ [np_mean train_losses])
                (fitting_epoch self) (is_fitted_ self) in
  optimizer ← match scheduler with
              | Some sch =>
                  _ ← emit EvSchedulerStep;
                  mret (scheduler_step B sch (np_mean train_losses) optimizer)
              | None => mret optimizer
              end;
  mret (self, optimizer, Some epoch).

(** Lines 217-230 of [fit]: the network, the optimizer, the data loader and
    the empty loss history. *)
Definition fit_prepare (self : Self) (X_train : list string)
  : M (Self * Opt * option Scheduler * (Rng -> list (Batch B) * Rng)) :=
  net ← with_rng (initialize_model B self);
  let self := mkEncoder (config self) (Some net) (fitting_loss self)
                (fitting_epoch self) (is_fitted_ self) in
  '(optimizer, scheduler) ← _setup_optimizers self;
  X_train ← lift (validate_inputs B X_train (num_task (config self)));
  train_dataset ← lift (traverse (to_graph B) X_train);
  train_loader ← lift (data_loader B train_dataset (batch_size (config self)));
  let self := mkEncoder (config self) (model self) [] (fitting_epoch self)
                (is_fitted_ self) in
  mret (self, optimizer, scheduler, train_loader).

(** [fit(self, X_train)].  After the loop [epoch] is the last value the
    loop bound; it is unbound when the loop body never ran. *)
Definition fit (self : Self) (X_train : list string) : M Self :=
  '(self, optimizer, scheduler, train_loader) ← fit_prepare self X_train;
  '(self, _, last) ← for_each (range 0 (epochs (config self)))
                       (fit_epoch train_loader scheduler) (self, optimizer, None);
  match last with
  | None => raise (UnboundLocalError "epoch")
  | Some epoch =>
      mret (mkEncoder (config self) (model self) (fitting_loss self) epoch true)
  end.

End WithBackend.

End ContextPred.

(** ** [GraphDITMolecularGenerator] *)

Module GraphDIT.

Local Open Scope Q_scope.

(** The dataclass fields the embedded methods read but never assign. *)
Record Config : Type := mkConfig {
  num_layer : Z;
  hidden_size : Z;
  dropout : Q;
  drop_condition : Q;
  num_head : Z;
  mlp_ratio : Q;
  X_dim : nat;
  E_dim : nat;
  y_dim : Z;
  task_type : list string;
  batch_size : Z;
  epochs : Z;
  learning_rate : Q;
  grad_clip_value : option Q;
  weight_decay : Q;
  weight_X : Q;
  weight_E : Q;
  use_lr_scheduler : bool;
  scheduler_factor : Q;
  scheduler_patience : Z;
  guide_scale : option Q;
  verbose : bool
}.

(** [PlaceHolder(X=.., E=.., y=..)] of dense one-hot tensors. *)
Record PlaceHolder : Type := mkPlaceHolder {
  ph_X : XT;
  ph_E : ET;
  ph_y : list (list Q)
}.

(** The same after [mask(.., collapse=True)]: class indices. *)
Record Collapsed : Type := mkCollapsed {
  cl_X : list (list Z);
  cl_E : list (list (list Z));
  cl_y : list (list Q)
}.

(** [PlaceHolder(X=x_limit, E=e_limit, y=None)]. *)
Record LimitDist : Type := mkLimitDist { ld_X : tensor; ld_E : tensor }.

(** The estimator object [self].  An attribute that the class creates
    only in some method is an [option]: [None] stands for an attribute
    that is absent (or holds [None]).  No statement of the class assigns
    [atom_decoder]; the field is there for [generate], which tests it. *)
Record Generator (Net TM : Type) : Type := mkGenerator {
  config : Config;
  timesteps : Z;
  max_node : Z;
  dataset_info : gmap string pyval;
  model : option Net;
  transition_model : option TM;
  limit_dist : option LimitDist;
  noise_schedule : option Z;    (* NoiseScheduleDiscrete(timesteps=..) *)
  atom_decoder : option pyval;
  fitting_loss : list npfloat;
  fitting_epoch : Z;
  is_fitted_ : bool
}.
Arguments mkGenerator {Net TM} _ _ _ _ _ _ _ _ _ _ _ _.
Arguments config {Net TM} _.
Arguments timesteps {Net TM} _.
Arguments max_node {Net TM} _.
Arguments dataset_info {Net TM} _.
Arguments model {Net TM} _.
Arguments transition_model {Net TM} _.
Arguments limit_dist {Net TM} _.
Arguments noise_schedule {Net TM} _.
Arguments atom_decoder {Net TM} _.
Arguments fitting_loss {Net TM} _.
Arguments fitting_epoch {Net TM} _.
Arguments is_fitted_ {Net TM} _.

(** The dict handed to the network by the sampler. *)
Record NoisyData : Type := mkNoisyData {
  nd_X_t : XT;
  nd_E_t : ET;
  nd_y_t : list (list Q);
  nd_t : column;
  nd_node_mask : NodeMask
}.

(** The dict returned by [apply_noise]. *)
Record NoisedBatch : Type := mkNoisedBatch {
  nb_t_int : list Z;
  nb_t : column;
  nb_beta_t : column;
  nb_alpha_s_bar : column;
  nb_alpha_t_bar : column;
  nb_X_t : XT;
  nb_E_t : ET;
  nb_y_t : list (list Q);
  nb_node_mask : NodeMask
}.

(** What [fit] and [setup_diffusion_params] receive as [X]. *)
Inductive TrainInput : Type :=
| InputList (smiles : list string)
| InputDict (d : gmap string pyval).

(** The collaborators of the generator: the base class, the featurizer
    and the data loader, the transformer, the optimizer, and the modules
    [.diffusion] and [.utils]. *)
Record Backend : Type := mkBackend {
  Net : Type;
  TM : Type;
  OptState : Type;
  Graph : Type;
  Batch : Type;
  Loss : Type;
  (* self._initialize_model(self.model_class); self.model.initialize_parameters() *)
  initialize_model : Generator Net TM -> Rng -> result Net * Rng;
  (* self.device, a field of the base class *)
  device : string;
  (* torch.optim.Adam(self.model.parameters(), lr=.., weight_decay=..) *)
  adam_state : Net -> OptState;
  (* self._validate_inputs(X_train, y_train) *)
  validate_inputs : TrainInput -> option (list (list Q))
                    -> result (list string * option (list (list Q)));
  (* graph_from_smiles(smiles, property), wrapped in a Data object *)
  to_graph : string -> option (list Q) -> result Graph;
  (* one pass over DataLoader(dataset, batch_size=.., shuffle=True) *)
  data_loader : list Graph -> Z -> result (Rng -> list Batch * Rng);
  (* lines 295-299: one-hot features, to_dense and the node mask *)
  to_dense : Batch -> pyval -> Z -> result (XT * ET * list (list Q) * NodeMask);
  zero_grad : Net -> Net;
  compute_loss : Net -> NoisedBatch -> XT -> ET -> Q -> Q -> Rng -> Loss * Rng;
  backward : Net -> Loss -> Net;
  optimizer_step : Net -> Optimizer OptState -> Net * Optimizer OptState;
  loss_item : Loss -> npfloat;
  scheduler_step : Scheduler -> npfloat -> Optimizer OptState -> Optimizer OptState;
  (* lines 200-204: the conditional tables cut out of xe_conditions *)
  conditions : pyval -> pyval -> result (tensor * tensor);
  (* MarginalTransition(x_limit, e_limit, xe_conditions, ex_conditions, y_dim, max_node) *)
  MarginalTransition : tensor -> tensor -> tensor -> tensor -> Z -> Z -> TM;
  (* NoiseScheduleDiscrete(timesteps)(t_normalized=..) and .get_alpha_bar(t_normalized=..) *)
  noise_beta : Z -> column -> column;
  get_alpha_bar : Z -> column -> column;
  (* transition_model.get_Qt_bar(alpha_bar, device).X and .get_Qt(beta, device).X *)
  get_Qt_bar : TM -> column -> string -> list (list row);
  get_Qt : TM -> column -> string -> list (list row);
  reverse_diffusion : XT -> XT -> list (list row) -> list (list row)
                      -> list (list row) -> XT;
  sample_discrete_features : XT -> ET -> NodeMask -> Rng
                             -> (list (list Z) * list (list (list Z))) * Rng;
  sample_discrete_feature_noise : LimitDist -> NodeMask -> Rng -> (XT * ET) * Rng;
  (* node_dist.sample_n(batch_size, device) *)
  sample_n : list Q -> nat -> Rng -> list Z * Rng;
  (* self.model(noisy_data, unconditioned=..): the logits pred.X, pred.E *)
  forward : Net -> NoisyData -> bool -> XT * ET;
  (* F.softmax(.., dim=-1) on one row *)
  softmax : row -> row;
  (* the elementwise power x ** g *)
  pow : Q -> Q -> Q;
  graph_to_smiles : list (list Z * list (list Z)) -> pyval -> list string
}.

(** The names bound at module level by [modeling_graph_dit.py]: its
    imports and the class it defines. *)
Definition module_globals : gmap string pyval :=
  list_to_map
    (map (fun n => (n, PCallable n))
       [ "np"; "tqdm"; "Optional"; "Union"; "Dict"; "Any"; "Tuple"; "List";
         "Type"; "dataclass"; "field"; "torch"; "F"; "DataLoader"; "Data";
         "Transformer"; "PlaceHolder"; "to_dense"; "NoiseScheduleDiscrete";
         "MarginalTransition"; "sample_discrete_features";
         "sample_discrete_feature_noise"; "reverse_diffusion";
         "BaseMolecularGenerator"; "graph_from_smiles"; "graph_to_smiles";
         "GraphDITMolecularGenerator" ]).

(** Modelled from the spec: [PlaceHolder.mask(node_mask)] of [.utils],
    whose source is absent.  The spec's data model says that node positions
    beyond the true node count are masked to zero: a node row is kept where
    the mask is set, an edge row where both end points are valid. *)
Definition valid (mb : list bool) (i : nat) : bool := nth i mb false.
Definition zero_like (r : row) : row := map (fun _ => 0) r.
Definition mask_X (node_mask : NodeMask) (X : XT) : XT :=
  zip_with (fun mb g => imap (fun i r => if valid mb i then r else zero_like r) g)
           node_mask X.
Definition mask_E (node_mask : NodeMask) (E : ET) : ET :=
  zip_with (fun mb g =>
              imap (fun i ri =>
                      imap (fun j r => if valid mb i && valid mb j then r
                                       else zero_like r) ri) g)
           node_mask E.
Definition mask (node_mask : NodeMask) (z : PlaceHolder) : PlaceHolder :=
  mkPlaceHolder (mask_X node_mask (ph_X z)) (mask_E node_mask (ph_E z)) (ph_y z).

(** [torch.argmax(r, dim=-1)] on one row (the first maximal entry). *)
Fixpoint argmax_from (best : Q) (best_i i : nat) (r : row) : nat :=
  match r with
  | [] => best_i
  | x :: r' => if Qle_bool x best then argmax_from best best_i (S i) r'
               else argmax_from x i (S i) r'
  end.
Definition argmax (r : row) : Z :=
  match r with
  | [] => 0%Z
  | x :: r' => Z.of_nat (argmax_from x 0%nat 1%nat r')
  end.

(** Modelled from the spec: [PlaceHolder.mask(node_mask, collapse=True)]
    of [.utils], whose source is absent.  The spec's reverse sampler
    collapses to a hard discrete assignment by argmax and masks to the
    valid nodes; padded positions carry [-1] here, a value [generate]
    never reads, since it slices every graph to its valid nodes. *)
Definition mask_collapse (node_mask : NodeMask) (z : PlaceHolder) : Collapsed :=
  mkCollapsed
    (zip_with (fun mb g => imap (fun i r => if valid mb i then argmax r else (-1)%Z) g)
              node_mask (ph_X z))
    (zip_with (fun mb g =>
                 imap (fun i ri =>
                         imap (fun j r => if valid mb i && valid mb j then argmax r
                                          else (-1)%Z) ri) g)
              node_mask (ph_E z))
    (ph_y z).

Section WithBackend.
Context (B : Backend).

Abbreviation Self := (Generator (Net B) (TM B)).
Abbreviation Opt := (Optimizer (OptState B)).

(** Reading an attribute that may be absent. *)
Definition attribute {A} (name : string) (o : option A) : M A :=
  match o with
  | Some a => mret a
  | None => raise (AttributeError name)
  end.

(** *** Reverse sampling *)

(** Line 480 / 481: every row whose entries sum to zero is overwritten
    with [1e-5]. *)
Definition floor_zero_row (r : row) : row :=
  if Qeq_bool (sum_row r) 0 then map (fun _ => eps) r else r.
Definition floor_zero_rows (A : XT) : XT := map (map floor_zero_row) A.

(** Lines 483-488: every row is divided by its sum. *)
Definition normalize_row (r : row) : row := map (fun x => x / sum_row r) r.
Definition normalize_rows (A : XT) : XT := map (map normalize_row) A.

(** Lines 456-478 of the local function [get_prob] of
    [sample_p_zs_given_zt]: the network pass and the unnormalized posterior
    over node types and over edge types.  The variables taken from the
    enclosing call are [X_t], [E_t] and the three schedule values. *)
Definition unnormalized_posterior (self : Self) (X_t : XT) (E_t : ET)
    (beta_t alpha_s_bar alpha_t_bar : column)
    (noisy_data : NoisyData) (text_embedding : pyval) (unconditioned : bool)
  : M (XT * XT) :=
  let n := length (hd [] X_t) in
  net ← attribute "model" (model self);
  _ ← emit (EvForward unconditioned);
  let '(pred_X, pred_E) := forward B net noisy_data unconditioned in
  let pred_X := map (map (softmax B)) pred_X in
  let pred_E := map (map (map (softmax B))) pred_E in
  device ← lift (attr_device text_embedding);
  tm ← attribute "transition_model" (transition_model self);
  let Qtb := get_Qt_bar B tm alpha_t_bar device in
  let Qsb := get_Qt_bar B tm alpha_s_bar device in
  let Qt := get_Qt B tm beta_t device in
  let Xt_all := cat_last X_t (flatten_E E_t) in
  let predX_all := cat_last pred_X (flatten_E pred_E) in
  let unnormalized_probX_all := reverse_diffusion B predX_all Xt_all Qt Qsb Qtb in
  let unnormalized_prob_X := take_last (X_dim (config self)) unnormalized_probX_all in
  let unnormalized_prob_E :=
    rows_of_pairs n (drop_last (X_dim (config self)) unnormalized_probX_all) in
  mret (unnormalized_prob_X, unnormalized_prob_E).

(** The local function [get_prob]: lines 456-478, then the floor of lines
    480-481, the normalization of lines 483-488 and the reshape of line
    489. *)
Definition get_prob (self : Self) (X_t : XT) (E_t : ET)
    (beta_t alpha_s_bar alpha_t_bar : column)
    (noisy_data : NoisyData) (text_embedding : pyval) (unconditioned : bool)
  : M (XT * ET) :=
  let n := length (hd [] X_t) in
  '(unnormalized_prob_X, unnormalized_prob_E) ←
    unnormalized_posterior self X_t E_t beta_t alpha_s_bar alpha_t_bar
      noisy_data text_embedding unconditioned;
  let unnormalized_prob_X := floor_zero_rows unnormalized_prob_X in
  let unnormalized_prob_E := floor_zero_rows unnormalized_prob_E in
  let prob_X := normalize_rows unnormalized_prob_X in
  let prob_E := normalize_rows unnormalized_prob_E in
  let prob_E := grid_of_rows n prob_E in
  mret (prob_X, prob_E).

(** Lines 500-509 on one row: the reweighting, then the division by the
    clamped sum. *)
Definition reweigh_row (g : Q) (uncon prob : row) : row :=
  zip_with (fun u p => u * pow B (p / clamp_min eps u) g) uncon prob.
Definition renormalize_row (r : row) : row :=
  map (fun x => x / clamp_min eps (sum_row r)) r.
Definition guide_row (g : Q) (uncon prob : row) : row :=
  renormalize_row (reweigh_row g uncon prob).

(** [self.guide_scale is not None and self.guide_scale != 1]. *)
Definition guided (self : Self) : bool :=
  match guide_scale (config self) with
  | Some g => negb (Qeq_bool g 1)
  | None => false
  end.

(** Lines 495-509: the guidance block.  [uncon] is the second call of
    [get_prob], with [unconditioned=True]. *)
Definition guidance (self : Self) (uncon : M (XT * ET)) (prob : XT * ET)
  : M (XT * ET) :=
  let '(prob_X, prob_E) := prob in
  match guide_scale (config self) with
  | Some g =>
      if Qeq_bool g 1 then mret (prob_X, prob_E)
      else
        '(uncon_prob_X, uncon_prob_E) ← uncon;
        mret (zip_with (zip_with (guide_row g)) uncon_prob_X prob_X,
              zip_with (zip_with (zip_with (guide_row g))) uncon_prob_E prob_E)
  | None => mret (prob_X, prob_E)
  end.

(** [sample_p_zs_given_zt(self, s, t, X_t, E_t, properties, node_mask)],
    run with the module name space [globals]. *)
Definition sample_p_zs_given_zt (globals : gmap string pyval) (self : Self)
    (s t : column) (X_t : XT) (E_t : ET) (properties : list (list Q))
    (node_mask : NodeMask) : M PlaceHolder :=
  T ← attribute "noise_schedule" (noise_schedule self);
  let beta_t := noise_beta B T t in
  let alpha_s_bar := get_alpha_bar B T s in
  let alpha_t_bar := get_alpha_bar B T t in
  let noisy_data := mkNoisyData X_t E_t properties t node_mask in
  let get_prob := get_prob self X_t E_t beta_t alpha_s_bar alpha_t_bar in
  text_embedding ← lift (load_global globals "text_embedding");
  prob ← get_prob noisy_data text_embedding false;
  '(prob_X, prob_E) ← guidance self
                        (text_embedding ← lift (load_global globals "text_embedding");
                         get_prob noisy_data text_embedding true)
                        prob;
  '(sampled_X, sampled_E) ←
    with_rng (fun g => let '(z, g') :=
                         sample_discrete_features B prob_X prob_E node_mask g in
                       (Ok z, g'));
  X_s ← lift (one_hot_X (X_dim (config self)) sampled_X);
  E_s ← lift (one_hot_E (E_dim (config self)) sampled_E);
  _ ← assert (is_symmetric E_s);
  _ ← assert (shape_X_eqb (shape_X X_t) (shape_X X_s)
              && shape_E_eqb (shape_E E_t) (shape_E E_s));
  let out_one_hot := mkPlaceHolder X_s E_s properties in
  mret (mask node_mask out_one_hot).

(** *** [generate] *)

(** [t.unsqueeze(-1)] on a 1-D tensor. *)
Definition unsqueeze {A} (v : list A) : list (list A) := map (fun x => [x]) v.

(** [arange < num_node], with [arange] of shape [(batch_size, max_node)]:
    a row of [num_node] of width 1 is broadcast, one of width [max_node]
    is compared entry by entry, any other width is refused. *)
Definition node_mask_of (max_node : Z) (num_node : list (list Z))
  : result NodeMask :=
  if (max_node <? 0)%Z
  then Raise (RuntimeError "arange: upper bound inconsistent with step sign")
  else
    let arange := range 0 max_node in
    traverse (fun r =>
                match r with
                | [c] => Ok (map (fun j => (j <? c)%Z) arange)
                | _ => if (length r =? length arange)%nat
                       then Ok (zip_with Z.ltb arange r)
                       else Raise (RuntimeError "shapes cannot be broadcast")
                end) num_node.

(** [l[:n]] for a Python integer [n]. *)
Definition slice_to {A} (n : Z) (l : list A) : list A :=
  if (0 <=? n)%Z then take (Z.to_nat n) l
  else take (length l - Z.to_nat (- n))%nat l.

(** [l[i]] for an index of [range(len(..))]. *)
Definition item {A} (l : list A) (i : nat) : result A :=
  match l !! i with
  | Some x => Ok x
  | None => Raise IndexError
  end.

(** One pass of the loop of lines 412-420.  The fourth component is the
    variable [sampled_s], unbound until the body has run once. *)
Definition generate_step (globals : gmap string pyval) (self : Self)
    (batch_size : nat) (node_mask : NodeMask)
    (st : XT * ET * list (list Q) * option PlaceHolder) (s_int : Z)
  : M (XT * ET * list (list Q) * option PlaceHolder) :=
  let '(X, E, y, _) := st in
  let s_array := repeat (inject_Z s_int) batch_size in
  let t_array := map (fun x => x + 1) s_array in
  let s_norm := map (fun x => x / inject_Z (timesteps self)) s_array in
  let t_norm := map (fun x => x / inject_Z (timesteps self)) t_array in
  sampled_s ← sample_p_zs_given_zt globals self s_norm t_norm X E y node_mask;
  mret (ph_X sampled_s, ph_E sampled_s, ph_y sampled_s, Some sampled_s).

(** Lines 371-396 of [generate]: the conversions of the arguments and the
    node mask.  [labels] and [num_node] are given as 1-D or 2-D data
    ([inl] / [inr]).  The result is [(labels, num_node, node_mask)]. *)
Definition generate_prepare (self : Self)
    (labels : list Q + list (list Q))
    (num_node : option (list Z + list (list Z)))
  : M (list (list Q) * list (list Z) * NodeMask) :=
  let labels := match labels with inl v => unsqueeze v | inr m => m end in
  let batch_size := length labels in
  num_node ← match num_node with
             | None =>
                 node_dist ← lift (getitem (dataset_info self) "node_dist");
                 match node_dist with
                 | PNodeDist probs =>
                     v ← with_rng (fun g => let '(v, g') :=
                                              sample_n B probs batch_size g in
                                            (Ok v, g'));
                     mret (unsqueeze v)
                 | _ => raise (AttributeError "sample_n")
                 end
             | Some (inl v) => mret (unsqueeze v)
             | Some (inr m) => mret m
             end;
  _ ← assert (length num_node =? batch_size)%nat;
  node_mask ← lift (node_mask_of (max_node self) num_node);
  mret (labels, num_node, node_mask).

(** Lines 398-408: the two configuration checks and the initial sample
    from the limit distribution. *)
Definition generate_noise (self : Self) (node_mask : NodeMask) : M (XT * ET) :=
  limit_dist ←
    match limit_dist self with
    | None => raise (ValueError
        "Limit distribution not found. Please call setup_diffusion_params first.")
    | Some l => mret l
    end;
  _ ← match atom_decoder self with
      | None => raise (ValueError
          "Atom decoder not found. Please call setup_diffusion_params first.")
      | Some _ => mret tt
      end;
  '(X, E) ← with_rng (fun g => let '(z, g') :=
                                 sample_discrete_feature_noise B limit_dist node_mask g in
                               (Ok z, g'));
  _ ← assert (is_symmetric E);
  mret (X, E).

(** Lines 411-420: the loop over [reversed(range(0, self.timesteps))]. *)
Definition generate_loop (globals : gmap string pyval) (self : Self)
    (batch_size : nat) (node_mask : NodeMask)
    (X : XT) (E : ET) (y : list (list Q))
  : M (XT * ET * list (list Q) * option PlaceHolder) :=
  for_each (rev (range 0 (timesteps self)))
           (generate_step globals self batch_size node_mask) (X, E, y, None).

(** Lines 422-434: the collapse of the last sample and the decoding. *)
Definition generate_finish (self : Self) (batch_size : nat)
    (num_node : list (list Z)) (node_mask : NodeMask)
    (sampled_s : option PlaceHolder) : M (list string) :=
  sampled_s ← match sampled_s with
              | None => raise (UnboundLocalError "sampled_s")
              | Some z => mret z
              end;
  let sampled_s := mask_collapse node_mask sampled_s in
  let X := cl_X sampled_s in
  let E := cl_E sampled_s in
  molecule_list ←
    lift (traverse (fun i =>
                      match item num_node i with
                      | Raise e => Raise e
                      | Ok r =>
                          match item r 0%nat, item X i, item E i with
                          | Ok n, Ok Xi, Ok Ei =>
                              Ok (slice_to n Xi, map (slice_to n) (slice_to n Ei))
                          | Raise e, _, _ => Raise e
                          | _, Raise e, _ => Raise e
                          | _, _, Raise e => Raise e
                          end
                      end) (seq 0%nat batch_size));
  atom_decoder ← lift (getitem (dataset_info self) "atom_decoder");
  mret (graph_to_smiles B molecule_list atom_decoder).

(** [generate(self, labels, num_node=None)], run with the module name
    space [globals]. *)
Definition generate (globals : gmap string pyval) (self : Self)
    (labels : list Q + list (list Q))
    (num_node : option (list Z + list (list Z))) : M (list string) :=
  '(labels, num_node, node_mask) ← generate_prepare self labels num_node;
  '(X, E) ← generate_noise self node_mask;
  '(_, _, _, sampled_s) ←
    generate_loop globals self (length labels) node_mask X E labels;
  generate_finish self (length labels) num_node node_mask sampled_s.

(** *** Configuration and set-up *)

(** [getattr(self, k)] for the names listed in [_get_model_params]. *)
Definition getattr (self : Self) (k : string) : result pyval :=
  let c := config self in
  if String.eqb k "max_node" then Ok (PInt (max_node self))
  else if String.eqb k "hidden_size" then Ok (PInt (hidden_size c))
  else if String.eqb k "num_layer" then Ok (PInt (num_layer c))
  else if String.eqb k "num_head" then Ok (PInt (num_head c))
  else if String.eqb k "mlp_ratio" then Ok (PFloat (mlp_ratio c))
  else if String.eqb k "dropout" then Ok (PFloat (dropout c))
  else if String.eqb k "drop_condition" then Ok (PFloat (drop_condition c))
  else if String.eqb k "X_dim" then Ok (PInt (Z.of_nat (X_dim c)))
  else if String.eqb k "E_dim" then Ok (PInt (Z.of_nat (E_dim c)))
  else if String.eqb k "y_dim" then Ok (PInt (y_dim c))
  else if String.eqb k "task_type" then Ok (PList (map PStr (task_type c)))
  else Raise (AttributeError k).

(** [_get_model_params(self, checkpoint=None)]. *)
Definition _get_model_params (self : Self)
    (checkpoint : option (gmap string pyval)) : result (gmap string pyval) :=
  let params := [ "max_node"; "hidden_size"; "num_layer"; "num_head"; "mlp_ratio";
                  "dropout"; "drop_condition"; "X_dim"; "E_dim"; "y_dim";
                  "task_type" ] in
  let collect (f : string -> result pyval) :=
    match traverse (fun k => match f k with
                             | Ok v => Ok (k, v)
                             | Raise e => Raise e
                             end) params with
    | Ok kvs => Ok (list_to_map kvs)
    | Raise e => Raise e
    end in
  match checkpoint with
  | Some ckpt =>
      match ckpt !! "hyperparameters" with
      | None => Raise (ValueError "Checkpoint missing 'hyperparameters' key")
      | Some hyperparameters => collect (subscript hyperparameters)
      end
  | None => collect (getattr self)
  end.

(** An integer read from a checkpoint. *)
Definition as_int (v : pyval) : result Z :=
  match v with
  | PInt z => Ok z
  | _ => Raise TypeError
  end.

(** [_get_diffusion_params(self, X)]: the object with [dataset_info]
    assigned, and the returned dict. *)
Definition _get_diffusion_params (self : Self) (X : TrainInput)
  : result (Self * gmap string pyval) :=
  let found :=
    match X with
    | InputDict d =>
        match getitem d "hyperparameters" with
        | Raise e => Raise e
        | Ok h =>
            match subscript h "dataset_info", subscript h "timesteps",
                  subscript h "max_node" with
            | Ok (PDict info), Ok t, Ok m => Ok (info, t, m)
            | Ok _, Ok _, Ok _ => Raise TypeError
            | Raise e, _, _ => Raise e
            | _, Raise e, _ => Raise e
            | _, _, Raise e => Raise e
            end
        end
    | InputList _ =>
        Ok (list_to_map [ ("active_index", PNone); ("x_margins", PNone);
                          ("e_margins", PNone); ("xe_conditions", PNone);
                          ("atom_decoder", PNone); ("node_dist", PNone) ],
            PInt (timesteps self), PInt (max_node self))
    end in
  match found with
  | Raise e => Raise e
  | Ok (info, t, m) =>
      let self := mkGenerator (config self) (timesteps self) (max_node self) info
                    (model self) (transition_model self) (limit_dist self)
                    (noise_schedule self) (atom_decoder self) (fitting_loss self)
                    (fitting_epoch self) (is_fitted_ self) in
      match traverse (fun k => match getitem info k with
                               | Ok v => Ok (k, v)
                               | Raise e => Raise e
                               end)
              [ "active_index"; "x_margins"; "e_margins"; "xe_conditions";
                "atom_decoder"; "node_dist" ] with
      | Raise e => Raise e
      | Ok kvs => Ok (self, <["timesteps" := t]> (<["max_node" := m]> (list_to_map kvs)))
      end
  end.

(** [m / m.sum()] for a value read from the dict: only a tensor has the
    method [sum]. *)
Definition normalized (m : pyval) : result tensor :=
  match m with
  | PTensor t =>
      Ok (mkTensor (t_device t) (t_shape t)
            (map (fun x => x / sum_row (t_data t)) (t_data t)))
  | _ => Raise (AttributeError "sum")
  end.

(** [setup_diffusion_params(self, X)].  The integers [timesteps] and
    [max_node] are checked when they are stored. *)
Definition setup_diffusion_params (self : Self) (X : TrainInput) : result Self :=
  '(self, diffusion_params) ← _get_diffusion_params self X;
  T ← getitem diffusion_params "timesteps" ≫= as_int;
  N ← getitem diffusion_params "max_node" ≫= as_int;
  active_index ← getitem diffusion_params "active_index";
  x_limit ← getitem diffusion_params "x_margins" ≫= normalized;
  e_limit ← getitem diffusion_params "e_margins" ≫= normalized;
  xe_conditions ← getitem diffusion_params "xe_conditions";
  '(xe_conditions, ex_conditions) ← conditions B xe_conditions active_index;
  let tm := MarginalTransition B x_limit e_limit xe_conditions ex_conditions
              (y_dim (config self)) N in
  mret (mkGenerator (config self) T N (dataset_info self) (model self)
          (Some tm) (Some (mkLimitDist x_limit e_limit)) (Some T)
          (atom_decoder self) (fitting_loss self) (fitting_epoch self)
          (is_fitted_ self)).

(** [_setup_optimizers(self)]. *)
Definition _setup_optimizers (self : Self) : M (Opt * option Scheduler) :=
  let c := config self in
  net ← attribute "parameters" (model self);
  let groups :=
    [ {[ "lr" := PFloat (learning_rate c);
         "weight_decay" := PFloat (weight_decay c) ]} ] in
  let groups :=
    match grad_clip_value c with
    | Some v =>
        map (fun group =>
               setdefault "norm_type" (PFloat 2)
                 (setdefault "max_norm" (PFloat v) group)) groups
    | None => groups
    end in
  let optimizer := mkOptimizer groups (adam_state B net) in
  let scheduler :=
    if use_lr_scheduler c
    then Some (mkScheduler (scheduler_factor c) (scheduler_patience c))
    else None in
  mret (optimizer, scheduler).

(** *** Training *)

(** [n] raw draws of the generator. *)
Fixpoint draws (n : nat) (g : Rng) : list Z * Rng :=
  match n with
  | O => ([], g)
  | S n' => let '(z, g1) := draw g in
            let '(zs, g2) := draws n' g1 in
            (z :: zs, g2)
  end.

(** [torch.randint(lo, hi, size=(size, 1))]: integers of [lo .. hi - 1];
    an empty interval is an error of the tensor library. *)
Definition randint (lo hi : Z) (size : nat) : M (list Z) :=
  if (hi <=? lo)%Z
  then raise (RuntimeError "random_ expects 'from' to be less than 'to'")
  else with_rng (fun g => let '(zs, g') := draws size g in
                          (Ok (map (fun z => (lo + z mod (hi - lo))%Z) zs), g')).

(** [apply_noise(self, X, E, y, node_mask)]. *)
Definition apply_noise (self : Self) (X : XT) (E : ET) (y : list (list Q))
    (node_mask : NodeMask) : M NoisedBatch :=
  t_int ← randint 0 (timesteps self + 1) (length X);
  let s_int := map (fun t => (t - 1)%Z) t_int in
  let t_float := map (fun t => inject_Z t / inject_Z (timesteps self)) t_int in
  let s_float := map (fun s => inject_Z s / inject_Z (timesteps self)) s_int in
  T ← attribute "noise_schedule" (noise_schedule self);
  let beta_t := noise_beta B T t_float in
  let alpha_s_bar := get_alpha_bar B T s_float in
  let alpha_t_bar := get_alpha_bar B T t_float in
  tm ← attribute "transition_model" (transition_model self);
  let Qtb := get_Qt_bar B tm alpha_t_bar (device B) in
  let n := length (hd [] X) in
  let X_all := cat_last X (flatten_E E) in
  let prob_all := matmul X_all Qtb in
  let probX := take_last (X_dim (config self)) prob_all in
  let probE := grid_of_flat n (drop_last (X_dim (config self)) prob_all) in
  '(sampled_X, sampled_E) ←
    with_rng (fun g => let '(z, g') :=
                         sample_discrete_features B probX probE node_mask g in
                       (Ok z, g'));
  X_t ← lift (one_hot_X (X_dim (config self)) sampled_X);
  E_t ← lift (one_hot_E (E_dim (config self)) sampled_E);
  _ ← assert (shape_X_eqb (shape_X X) (shape_X X_t)
              && shape_E_eqb (shape_E E) (shape_E E_t));
  let z_t := mask node_mask (mkPlaceHolder X_t E_t y) in
  mret (mkNoisedBatch t_int t_float beta_t alpha_s_bar alpha_t_bar
          (ph_X z_t) (ph_E z_t) (ph_y z_t) node_mask).

(** One iteration of the loop of [_train_epoch] (lines 291-306). *)
Definition train_step (self : Self) (active_index : pyval)
    (st : Net B * Opt * list npfloat) (batched_data : Batch B)
  : M (Net B * Opt * list npfloat) :=
  let '(net, optimizer, losses) := st in
  _ ← emit EvZeroGrad;
  let net := zero_grad B net in
  '(X, E, y, node_mask) ← lift (to_dense B batched_data active_index (max_node self));
  noisy_data ← apply_noise self X E y node_mask;
  _ ← emit EvComputeLoss;
  loss ← with_rng (fun g => let '(l, g') :=
                              compute_loss B net noisy_data X E
                                (weight_X (config self)) (weight_E (config self)) g in
                            (Ok l, g'));
  _ ← emit EvBackward;
  let net := backward B net loss in
  _ ← emit EvOptimizerStep;
  let '(net, optimizer) := optimizer_step B net optimizer in
  mret (net, optimizer, losses ++ [loss_item B loss]).

(** [_train_epoch(self, train_loader, optimizer, epoch)]. *)
Definition _train_epoch (self : Self)
    (train_loader : Rng -> list (Batch B) * Rng) (optimizer : Opt) (epoch : Z)
  : M (Net B * Opt * list npfloat) :=
  net ← attribute "train" (model self);
  active_index ← lift (getitem (dataset_info self) "active_index");
  batches ← with_rng (fun g => let '(bs, g') := train_loader g in (Ok bs, g'));
  for_each batches (train_step self active_index) (net, optimizer, []).

(** The body of [for epoch in range(self.epochs)] in [fit]. *)
Definition fit_epoch (train_loader : Rng -> list (Batch B) * Rng)
    (scheduler : option Scheduler)
    (st : Self * Opt * option Z) (epoch : Z) : M (Self * Opt * option Z) :=
  let '(self, optimizer, _) := st in
  '(net, optimizer, train_losses) ← _train_epoch self train_loader optimizer epoch;
  let self := mkGenerator (config self) (timesteps self) (max_node self)
                (dataset_info self) (Some net) (transition_model self)
                (limit_dist self) (noise_schedule self) (atom_decoder self)
                (fitting_loss self ++ [np_mean train_losses])
                (fitting_epoch self) (is_fitted_ self) in
  optimizer ← match scheduler with
              | Some sch =>
                  _ ← emit EvSchedulerStep;
                  mret (scheduler_step B sch (np_mean train_losses) optimizer)
              | None => mret optimizer
              end;
  mret (self, optimizer, Some epoch).

(** [_convert_to_pytorch_data(self, X, y)]. *)
Definition _convert_to_pytorch_data (X : list string) (y : option (list (list Q)))
  : result (list (Graph B)) :=
  traverse (fun '(idx, smiles) =>
              match y with
              | Some ys => property ← item ys idx; to_graph B smiles (Some property)
              | None => to_graph B smiles None
              end) (imap pair X).

(** Lines 256-271 of [fit]: the network, the diffusion set-up, the optimizer,
    the data loader and the empty loss history. *)
Definition fit_prepare (self : Self) (X_train : TrainInput)
    (y_train : option (list (list Q)))
  : M (Self * Opt * option Scheduler * (Rng -> list (Batch B) * Rng)) :=
  net ← with_rng (initialize_model B self);
  let self := mkGenerator (config self) (timesteps self) (max_node self)
                (dataset_info self) (Some net) (transition_model self)
                (limit_dist self) (noise_schedule self) (atom_decoder self)
                (fitting_loss self) (fitting_epoch self) (is_fitted_ self) in
  self ← lift (setup_diffusion_params self X_train);
  '(optimizer, scheduler) ← _setup_optimizers self;
  '(X_train, y_train) ← lift (validate_inputs B X_train y_train);
  train_dataset ← lift (_convert_to_pytorch_data X_train y_train);
  train_loader ← lift (data_loader B train_dataset (batch_size (config self)));
  let self := mkGenerator (config self) (timesteps self) (max_node self)
                (dataset_info self) (model self) (transition_model self)
                (limit_dist self) (noise_schedule self) (atom_decoder self)
                [] 0%Z (is_fitted_ self) in
  mret (self, optimizer, scheduler, train_loader).

(** [fit(self, X_train, y_train=None)]. *)
Definition fit (self : Self) (X_train : TrainInput) (y_train : option (list (list Q)))
  : M Self :=
  '(self, optimizer, scheduler, train_loader) ← fit_prepare self X_train y_train;
  '(self, _, last) ← for_each (range 0 (epochs (config self)))
                       (fit_epoch train_loader scheduler) (self, optimizer, None);
  match last with
  | None => raise (UnboundLocalError "epoch")
  | Some epoch =>
      mret (mkGenerator (config self) (timesteps self) (max_node self)
              (dataset_info self) (model self) (transition_model self)
              (limit_dist self) (noise_schedule self) (atom_decoder self)
              (fitting_loss self) epoch true)
  end.

End WithBackend.

End GraphDIT.

(** ** Small instances of the collaborators

    The methods above run on any collaborators.  To run them on concrete
    inputs, this module fixes small ones: graphs of two nodes with one node
    type and two edge types, a schedule that returns its input, a network
    whose logits are zero, a loss read off the random generator. *)

Module Demo.

Local Open Scope Q_scope.

Definition w0 : World := mkWorld (fun n => Z.of_nat n) [].


(** One graph of two nodes joined by an edge of type 1. *)
Definition X1 : XT := [[[1]; [1]]].
Definition E1 : ET := [[[[1; 0]; [0; 1]]; [[0; 1]; [1; 0]]]].
Definition y1 : list (list Q) := [[1 # 2]].
Definition mask1 : NodeMask := [[true; true]].
Definition identity (n : nat) : list row :=
  map (fun i => map (fun j => if (i =? j)%nat then 1 else 0) (seq 0 n)) (seq 0 n).
Definition vec1 : tensor := mkTensor "cpu" [1%nat] [1].

(** [x ** g], exact when the exponent [g] is a whole number. *)
Definition int_pow (x g : Q) : Q := Qpower x (Qfloor g).

Definition one_batch_per_graph {G} (graphs : list G) (batch_size : Z)
  : result (Rng -> list unit * Rng) :=
  if (batch_size <=? 0)%Z
  then Raise (ValueError "batch_size should be a positive integer value")
  else Ok (fun g => (map (fun _ => tt) graphs, g)).

Definition loss_of_draw (g : Rng) : npfloat * Rng :=
  let '(z, g') := draw g in (Finite (inject_Z z), g').

Definition generator_backend : GraphDIT.Backend :=
  {| GraphDIT.Net := unit;
     GraphDIT.TM := unit;
     GraphDIT.OptState := unit;
     GraphDIT.Graph := unit;
     GraphDIT.Batch := unit;
     GraphDIT.Loss := npfloat;
     GraphDIT.initialize_model := fun _ g => (Ok tt, g);
     GraphDIT.device := "cpu";
     GraphDIT.adam_state := fun _ => tt;
     GraphDIT.validate_inputs := fun _ y => Ok (["C"; "C"], y);
     GraphDIT.to_graph := fun _ _ => Ok tt;
     GraphDIT.data_loader := one_batch_per_graph;
     GraphDIT.to_dense := fun _ _ _ => Ok (X1, E1, y1, mask1);
     GraphDIT.zero_grad := fun net => net;
     GraphDIT.compute_loss := fun _ _ _ _ _ _ g => loss_of_draw g;
     GraphDIT.backward := fun net _ => net;
     GraphDIT.optimizer_step := fun net opt => (net, opt);
     GraphDIT.loss_item := fun l => l;
     GraphDIT.scheduler_step := fun _ _ opt => opt;
     GraphDIT.conditions := fun _ _ => Ok (vec1, vec1);
     GraphDIT.MarginalTransition := fun _ _ _ _ _ _ => tt;
     GraphDIT.noise_beta := fun _ c => c;
     GraphDIT.get_alpha_bar := fun _ c => c;
     GraphDIT.get_Qt_bar := fun _ c _ => map (fun _ => identity 5) c;
     GraphDIT.get_Qt := fun _ c _ => map (fun _ => identity 5) c;
     GraphDIT.reverse_diffusion := fun pred _ _ _ _ => pred;
     GraphDIT.sample_discrete_features :=
       fun _ _ _ g => (([[0%Z; 0%Z]], [[[0%Z; 1%Z]; [1%Z; 0%Z]]]), g);
     GraphDIT.sample_discrete_feature_noise := fun _ _ g => ((X1, E1), g);
     GraphDIT.sample_n := fun _ n g => (repeat 1%Z n, g);
     GraphDIT.forward :=
       fun _ _ _ => ([[[0]; [0]]], [[[[0; 0]; [0; 0]]; [[0; 0]; [0; 0]]]]);
     GraphDIT.softmax := fun r => r;
     GraphDIT.pow := int_pow;
     GraphDIT.graph_to_smiles := fun mols _ => map (fun _ => "C") mols |}.

Definition generator_config (clip : option Q) : GraphDIT.Config :=
  {| GraphDIT.num_layer := 6; GraphDIT.hidden_size := 1152;
     GraphDIT.dropout := 0; GraphDIT.drop_condition := 0;
     GraphDIT.num_head := 16; GraphDIT.mlp_ratio := 4;
     GraphDIT.X_dim := 1; GraphDIT.E_dim := 2; GraphDIT.y_dim := 1;
     GraphDIT.task_type := [];
     GraphDIT.batch_size := 2; GraphDIT.epochs := 2;
     GraphDIT.learning_rate := 2 # 10000; GraphDIT.grad_clip_value := clip;
     GraphDIT.weight_decay := 0; GraphDIT.weight_X := 1; GraphDIT.weight_E := 10;
     GraphDIT.use_lr_scheduler := false; GraphDIT.scheduler_factor := 1 # 2;
     GraphDIT.scheduler_patience := 5; GraphDIT.guide_scale := Some 2;
     GraphDIT.verbose := false |}.

(** A freshly constructed generator: [dataset_info] is the empty dict and
    no late attribute exists. *)
Definition fresh_generator (clip : option Q) : GraphDIT.Generator unit unit :=
  GraphDIT.mkGenerator (generator_config clip) 500 50 ∅ None None None None None
    [] 0 false.

(** A checkpoint that carries complete dataset statistics. *)
Definition dataset_info1 : gmap string pyval :=
  list_to_map [ ("active_index", PList [PInt 5]);
                ("x_margins", PTensor vec1);
                ("e_margins", PTensor vec1);
                ("xe_conditions", PTensor vec1);
                ("atom_decoder", PList [PStr "C"]);
                ("node_dist", PNodeDist [0; 1]) ].
Definition checkpoint1 : gmap string pyval :=
  {[ "hyperparameters" :=
       PDict (list_to_map [ ("dataset_info", PDict dataset_info1);
                            ("timesteps", PInt 2);
                            ("max_node", PInt 2) ]) ]}.
(** A checkpoint without the key [hyperparameters]. *)
Definition checkpoint_without_hyperparameters : gmap string pyval :=
  {[ "model_state_dict" := PNone ]}.

(** The generator after [setup_diffusion_params] on [checkpoint1], with a
    network, and with [atom_decoder] assigned by hand. *)
Definition ready_generator : GraphDIT.Generator unit unit :=
  GraphDIT.mkGenerator (generator_config None) 2 2 dataset_info1 (Some tt) (Some tt)
    (Some (GraphDIT.mkLimitDist vec1 vec1)) (Some 2%Z) (Some (PList [PStr "C"]))
    [] 0 false.

(** The fresh generator after [setup_diffusion_params] on [checkpoint1]. *)
Definition generator_after_setup : GraphDIT.Generator unit unit :=
  GraphDIT.mkGenerator (generator_config None) 2 2 dataset_info1 None (Some tt)
    (Some (GraphDIT.mkLimitDist vec1 vec1)) (Some 2%Z) None [] 0 false.


(** A generator ready for training, with gradient clipping requested. *)
Definition clipping_generator : GraphDIT.Generator unit unit :=
  GraphDIT.mkGenerator (generator_config (Some 1)) 2 2 dataset_info1 (Some tt)
    (Some tt) (Some (GraphDIT.mkLimitDist vec1 vec1)) (Some 2%Z) None [] 0 false.

(** The module name space with [text_embedding] bound to a tensor. *)
Definition patched_globals : gmap string pyval :=
  <["text_embedding" := PTensor vec1]> GraphDIT.module_globals.

Definition encoder_backend : ContextPred.Backend :=
  {| ContextPred.Net := unit;
     ContextPred.OptState := unit;
     ContextPred.Mol := string;
     ContextPred.Graph := unit;
     ContextPred.Batch := unit;
     ContextPred.Loss := npfloat;
     ContextPred.initialize_model := fun _ g => (Ok tt, g);
     ContextPred.adam_state := fun _ => tt;
     ContextPred.validate_inputs := fun X _ => Ok X;
     ContextPred.to_graph := fun _ => Ok tt;
     ContextPred.data_loader := one_batch_per_graph;
     ContextPred.zero_grad := fun net => net;
     ContextPred.compute_loss := fun _ _ g => loss_of_draw g;
     ContextPred.backward := fun net _ => net;
     ContextPred.clip_grad_norm_ := fun net _ => net;
     ContextPred.optimizer_step := fun net opt => (net, opt);
     ContextPred.loss_item := fun l => l;
     ContextPred.scheduler_step := fun _ _ opt => opt |}.

Definition encoder_config (clip : option Q) : ContextPred.Config :=
  {| ContextPred.num_task := None; ContextPred.num_layer := 3;
     ContextPred.hidden_size := 300; ContextPred.drop_ratio := 1 # 2;
     ContextPred.norm_layer := "batch_norm";
     ContextPred.encoder_type := "gin-virtual"; ContextPred.readout := "sum";
     ContextPred.mode := "cbow"; ContextPred.csize := 2;
     ContextPred.neg_samples := 1;
     ContextPred.batch_size := 2; ContextPred.epochs := 2;
     ContextPred.learning_rate := 1 # 1000; ContextPred.grad_clip_value := clip;
     ContextPred.weight_decay := 0; ContextPred.use_lr_scheduler := false;
     ContextPred.scheduler_factor := 1 # 2; ContextPred.scheduler_patience := 5;
     ContextPred.verbose := false |}.

Definition fresh_encoder (clip : option Q) : ContextPred.Encoder unit :=
  ContextPred.mkEncoder (encoder_config clip) None [] 0 false.

(** What [fit_prepare] returns on the fresh estimators: the estimator with
    its network (and, for the generator, the diffusion set-up), the
    optimizer, and the loader of a data set of two graphs. *)
Definition prepared_generator : GraphDIT.Generator unit unit :=
  GraphDIT.mkGenerator (generator_config None) 2 2 dataset_info1 (Some tt) (Some tt)
    (Some (GraphDIT.mkLimitDist vec1 vec1)) (Some 2%Z) None [] 0 false.
Definition prepared_encoder : ContextPred.Encoder unit :=
  ContextPred.mkEncoder (encoder_config None) (Some tt) [] 0 false.
Definition generator_optimizer : Optimizer unit :=
  mkOptimizer [ {[ "lr" := PFloat (2 # 10000); "weight_decay" := PFloat 0 ]} ] tt.
Definition encoder_optimizer : Optimizer unit :=
  mkOptimizer [ {[ "lr" := PFloat (1 # 1000); "weight_decay" := PFloat 0 ]} ] tt.
Definition two_batches : Rng -> list unit * Rng := fun g => ([tt; tt], g).

(** The estimators after [fit]: two epochs of two batches each, the losses
    being the successive draws. *)
Definition fitted_generator : GraphDIT.Generator unit unit :=
  GraphDIT.mkGenerator (generator_config None) 2 2 dataset_info1 (Some tt) (Some tt)
    (Some (GraphDIT.mkLimitDist vec1 vec1)) (Some 2%Z) None
    [Finite (4 # 2); Finite (12 # 2)] 1 true.
Definition fitted_encoder : ContextPred.Encoder unit :=
  ContextPred.mkEncoder (encoder_config None) (Some tt)
    [Finite (1 # 2); Finite (5 # 2)] 1 true.

End Demo.

(** ** The remaining methods of [ContextPredMolecularEncoder]

    [__post_init__], [_get_param_names], [_convert_to_pytorch_data] with the
    featurizer's dict and the [Data] object spelled out, and [encode]. *)

Module ContextPredMethods.

Import ContextPred.

Local Open Scope Q_scope.

Definition ALLOWABLE_ENCODER_MODELS : list string :=
  [ "gin-virtual"; "gcn-virtual"; "gin"; "gcn" ].
Definition ALLOWABLE_ENCODER_READOUTS : list string := [ "sum"; "mean"; "max" ].

(** [x in l] for a list of strings. *)
Definition contains (x : string) (l : list string) : bool :=
  existsb (String.eqb x) l.

(** What an f-string prints for a list of strings that hold neither quotes
    nor escapes. *)
Definition repr_list (l : list string) : string :=
  String.append "["
    (String.append (String.concat ", "
                      (map (fun s => String.append "'" (String.append s "'")) l))
       "]").

Definition invalid (what value : string) (allowed : list string) : exn :=
  ValueError
    (String.append "Invalid "
       (String.append what
          (String.append ": "
             (String.append value
                (String.append ". Currently only "
                   (String.append (repr_list allowed) " are supported.")))))).

(** [__post_init__(self)]; [super_post_init] is the outcome of the base
    class's [__post_init__]. *)
Definition __post_init__ (super_post_init : result unit) (c : Config)
  : result unit :=
  _ ← super_post_init;
  if negb (contains (encoder_type c) ALLOWABLE_ENCODER_MODELS)
  then Raise (invalid "encoder_model" (encoder_type c) ALLOWABLE_ENCODER_MODELS)
  else if negb (contains (readout c) ALLOWABLE_ENCODER_READOUTS)
  then Raise (invalid "encoder_readout" (readout c) ALLOWABLE_ENCODER_READOUTS)
  else Ok tt.

(** [_get_param_names()]. *)
Definition _get_param_names : list string :=
  [ "num_task";
    "encoder_type"; "readout"; "num_layer"; "hidden_size"; "drop_ratio";
    "norm_layer"; "mode"; "csize"; "neg_samples";
    "batch_size"; "epochs"; "learning_rate"; "weight_decay"; "grad_clip_value";
    "use_lr_scheduler"; "scheduler_factor"; "scheduler_patience";
    "fitting_epoch"; "fitting_loss"; "device"; "verbose"; "mode"; "csize";
    "neg_samples"; "model_name" ].

(** [torch.from_numpy(v)]: only an array is accepted. *)
Definition from_numpy (v : pyval) : result pyval :=
  match v with
  | PTensor t => Ok (PTensor t)
  | _ => Raise TypeError
  end.

(** [v is not None]. *)
Definition is_not_none (v : pyval) : bool :=
  match v with PNone => false | _ => true end.

(** Lines 157-170: the [Data] object built from the dict [graph] of the
    featurizer, given by the attributes assigned to it. *)
Definition to_data (graph : gmap string pyval) : result (gmap string pyval) :=
  let g : gmap string pyval := ∅ in
  num_nodes ← getitem graph "num_nodes";
  let g := <["num_nodes" := num_nodes]> g in
  edge_index ← getitem graph "edge_index" ≫= from_numpy;
  let g := <["edge_index" := edge_index]> g in
  let graph := delete "num_nodes" graph in
  let graph := delete "edge_index" graph in
  edge_feat ← getitem graph "edge_feat";
  '(g, graph) ← (if is_not_none edge_feat
                 then edge_attr ← from_numpy edge_feat;
                      mret (<["edge_attr" := edge_attr]> g, delete "edge_feat" graph)
                 else mret (g, graph));
  node_feat ← getitem graph "node_feat";
  '(g, graph) ← (if is_not_none node_feat
                 then x ← from_numpy node_feat;
                      mret (<["x" := x]> g, delete "node_feat" graph)
                 else mret (g, graph));
  mret g.

(** [_convert_to_pytorch_data(self, X)], over the featurizer
    [graph_from_smiles(mol, None)]. *)
Definition _convert_to_pytorch_data {Mol : Type}
    (graph_from_smiles : Mol -> result (gmap string pyval)) (X : list Mol)
  : result (list (gmap string pyval)) :=
  traverse (fun smiles_or_mol => graph_from_smiles smiles_or_mol ≫= to_data) X.

(** What [encode] returns: a tensor, or the array [encodings.numpy()]. *)
Inductive Encodings : Type :=
| AsTensor (rows : list row)
| AsArray (rows : list row).

(** [torch.cat(tensors, dim=0)] for matrices given by their rows: the list
    must not be empty and the rows must agree in width. *)
Definition torch_cat (tensors : list (list row)) : result (list row) :=
  match tensors with
  | [] => Raise (RuntimeError "torch.cat(): expected a non-empty list of Tensors")
  | _ =>
      let rows := concat tensors in
      if forallb (fun r => (length r =? length (hd [] rows))%nat) rows
      then Ok rows
      else Raise (RuntimeError "Sizes of tensors must match except in dimension 0")
  end.

(** The collaborators that only [encode] uses. *)
Record Inference (B : Backend) : Type := mkInference {
  (* self._check_is_fitted(), of the base class *)
  _check_is_fitted : Encoder (Net B) -> result unit;
  (* self._validate_inputs(X, return_rdkit_mol=True) *)
  validate_smiles : list string -> result (list (Mol B));
  (* one pass over DataLoader(dataset, batch_size=.., shuffle=False) *)
  ordered_loader : list (Graph B) -> Z -> result (list (Batch B));
  (* self.model.to(self.device), then self.model.eval() *)
  eval_mode : Net B -> Net B;
  (* self.model(batch)["graph"].cpu() *)
  graph_encoding : Net B -> Batch B -> result (list row)
}.
Arguments _check_is_fitted {B} _ _.
Arguments validate_smiles {B} _ _.
Arguments ordered_loader {B} _ _ _.
Arguments eval_mode {B} _ _.
Arguments graph_encoding {B} _ _ _.

(** [encode(self, X, return_type="pt")]: the estimator, whose network is
    now in evaluation mode, and the encodings. *)
Definition encode (B : Backend) (I : Inference B) (self : Encoder (Net B))
    (X : list string) (return_type : string)
  : result (Encoder (Net B) * Encodings) :=
  _ ← _check_is_fitted I self;
  X ← validate_smiles I X;
  dataset ← traverse (to_graph B) X;
  loader ← ordered_loader I dataset (batch_size (config self));
  match model self with
  | None => Raise (RuntimeError "Model not initialized")
  | Some net =>
      let net := eval_mode I net in
      let self := mkEncoder (config self) (Some net) (fitting_loss self)
                    (fitting_epoch self) (is_fitted_ self) in
      encodings ← traverse (graph_encoding I net) loader;
      encodings ← torch_cat encodings;
      mret (self, if String.eqb return_type "pt" then AsTensor encodings
                  else AsArray encodings)
  end.

End ContextPredMethods.

(** ** The remaining methods of [GraphDITMolecularGenerator]

    [_get_param_names], and [_convert_to_pytorch_data] with the
    featurizer's dict and the [Data] object spelled out. *)

Module GraphDITMethods.

Import GraphDIT.

(** [_get_param_names()]. *)
Definition _get_param_names : list string :=
  [ "generator_type"; "max_node"; "hidden_size"; "num_layer"; "num_head";
    "mlp_ratio"; "dropout"; "drop_condition"; "X_dim"; "E_dim"; "y_dim";
    "task_type";
    "timesteps"; "dataset_info";
    "batch_size"; "epochs"; "learning_rate"; "grad_clip_value"; "weight_decay";
    "weight_X"; "weight_E";
    "use_lr_scheduler"; "scheduler_factor"; "scheduler_patience";
    "guide_scale";
    "fitting_epoch"; "fitting_loss"; "device"; "verbose"; "model_name" ].

(** The eleven names listed in [_get_model_params]. *)
Definition params : list string :=
  [ "max_node"; "hidden_size"; "num_layer"; "num_head"; "mlp_ratio";
    "dropout"; "drop_condition"; "X_dim"; "E_dim"; "y_dim"; "task_type" ].

(** Lines 147-156: the [Data] object built from the dict [graph] of the
    featurizer, given by the attributes assigned to it. *)
Definition to_data (graph : gmap string pyval) : result (gmap string pyval) :=
  let g : gmap string pyval := ∅ in
  x ← getitem graph "node_feat" ≫= ContextPredMethods.from_numpy;
  let g := <["x" := x]> g in
  let graph := delete "node_feat" graph in
  edge_index ← getitem graph "edge_index" ≫= ContextPredMethods.from_numpy;
  let g := <["edge_index" := edge_index]> g in
  let graph := delete "edge_index" graph in
  y ← getitem graph "y" ≫= ContextPredMethods.from_numpy;
  let g := <["y" := y]> g in
  let graph := delete "y" graph in
  mret g.

(** [_convert_to_pytorch_data(self, X, y=None)], over the featurizer
    [graph_from_smiles(smiles, property)]. *)
Definition _convert_to_pytorch_data
    (graph_from_smiles : string -> option (list Q) -> result (gmap string pyval))
    (X : list string) (y : option (list (list Q)))
  : result (list (gmap string pyval)) :=
  traverse (fun '(idx, smiles_or_mol) =>
              property ← match y with
                         | Some ys => p ← item ys idx; mret (Some p)
                         | None => mret None
                         end;
              graph_from_smiles smiles_or_mol property ≫= to_data)
           (imap pair X).

End GraphDITMethods.

(** ** Further concrete inputs

    Estimators and checkpoints for the edge cases of the methods: no
    epochs, no time steps, a checkpoint with a statistic missing, and the
    collaborators of [encode]. *)

Module Cases.

Local Open Scope Q_scope.

(** The dict [_get_model_params()] returns for the fresh estimators, and a
    checkpoint that stores it. *)
Definition generator_params : gmap string pyval :=
  list_to_map [ ("max_node", PInt 50); ("hidden_size", PInt 1152);
                ("num_layer", PInt 6); ("num_head", PInt 16);
                ("mlp_ratio", PFloat 4); ("dropout", PFloat 0);
                ("drop_condition", PFloat 0); ("X_dim", PInt 1);
                ("E_dim", PInt 2); ("y_dim", PInt 1); ("task_type", PList []) ].
Definition encoder_params : gmap string pyval :=
  list_to_map [ ("num_layer", PInt 3); ("hidden_size", PInt 300);
                ("num_task", PNone); ("drop_ratio", PFloat (1 # 2));
                ("norm_layer", PStr "batch_norm"); ("readout", PStr "sum");
                ("encoder_type", PStr "gin-virtual"); ("mode", PStr "cbow");
                ("csize", PInt 2); ("neg_samples", PInt 1) ].
Definition generator_checkpoint : gmap string pyval :=
  {[ "hyperparameters" := PDict generator_params ]}.
Definition encoder_checkpoint : gmap string pyval :=
  {[ "hyperparameters" := PDict encoder_params ]}.

(** The hyperparameters of [Demo.checkpoint1]: they hold [max_node] but no
    other name of [_get_model_params]. *)
Definition hyperparameters1 : gmap string pyval :=
  list_to_map [ ("dataset_info", PDict Demo.dataset_info1);
                ("timesteps", PInt 2);
                ("max_node", PInt 2) ].

(** A checkpoint that overrides one hyperparameter of the encoder. *)
Definition deeper_hyperparameters : gmap string pyval := {[ "num_layer" := PInt 5 ]}.
Definition deeper_checkpoint : gmap string pyval :=
  {[ "hyperparameters" := PDict deeper_hyperparameters ]}.

(** A checkpoint whose dataset statistics lack [node_dist]. *)
Definition dataset_info_without_node_dist : gmap string pyval :=
  list_to_map [ ("active_index", PList [PInt 5]);
                ("x_margins", PTensor Demo.vec1);
                ("e_margins", PTensor Demo.vec1);
                ("xe_conditions", PTensor Demo.vec1);
                ("atom_decoder", PList [PStr "C"]) ].
Definition hyperparameters_without_node_dist : gmap string pyval :=
  list_to_map [ ("dataset_info", PDict dataset_info_without_node_dist);
                ("timesteps", PInt 2);
                ("max_node", PInt 2) ].
Definition checkpoint_without_node_dist : gmap string pyval :=
  {[ "hyperparameters" := PDict hyperparameters_without_node_dist ]}.


(** The configurations of [Demo] with another number of epochs, and with or
    without the learning-rate scheduler. *)
Definition generator_config_with (n : Z) (scheduled : bool) : GraphDIT.Config :=
  let c := Demo.generator_config None in
  {| GraphDIT.num_layer := GraphDIT.num_layer c;
     GraphDIT.hidden_size := GraphDIT.hidden_size c;
     GraphDIT.dropout := GraphDIT.dropout c;
     GraphDIT.drop_condition := GraphDIT.drop_condition c;
     GraphDIT.num_head := GraphDIT.num_head c;
     GraphDIT.mlp_ratio := GraphDIT.mlp_ratio c;
     GraphDIT.X_dim := GraphDIT.X_dim c; GraphDIT.E_dim := GraphDIT.E_dim c;
     GraphDIT.y_dim := GraphDIT.y_dim c; GraphDIT.task_type := GraphDIT.task_type c;
     GraphDIT.batch_size := GraphDIT.batch_size c; GraphDIT.epochs := n;
     GraphDIT.learning_rate := GraphDIT.learning_rate c;
     GraphDIT.grad_clip_value := GraphDIT.grad_clip_value c;
     GraphDIT.weight_decay := GraphDIT.weight_decay c;
     GraphDIT.weight_X := GraphDIT.weight_X c; GraphDIT.weight_E := GraphDIT.weight_E c;
     GraphDIT.use_lr_scheduler := scheduled;
     GraphDIT.scheduler_factor := GraphDIT.scheduler_factor c;
     GraphDIT.scheduler_patience := GraphDIT.scheduler_patience c;
     GraphDIT.guide_scale := GraphDIT.guide_scale c;
     GraphDIT.verbose := GraphDIT.verbose c |}.
Definition encoder_config_with (n : Z) (scheduled : bool) : ContextPred.Config :=
  let c := Demo.encoder_config None in
  {| ContextPred.num_task := ContextPred.num_task c;
     ContextPred.num_layer := ContextPred.num_layer c;
     ContextPred.hidden_size := ContextPred.hidden_size c;
     ContextPred.drop_ratio := ContextPred.drop_ratio c;
     ContextPred.norm_layer := ContextPred.norm_layer c;
     ContextPred.encoder_type := ContextPred.encoder_type c;
     ContextPred.readout := ContextPred.readout c;
     ContextPred.mode := ContextPred.mode c; ContextPred.csize := ContextPred.csize c;
     ContextPred.neg_samples := ContextPred.neg_samples c;
     ContextPred.batch_size := ContextPred.batch_size c; ContextPred.epochs := n;
     ContextPred.learning_rate := ContextPred.learning_rate c;
     ContextPred.grad_clip_value := ContextPred.grad_clip_value c;
     ContextPred.weight_decay := ContextPred.weight_decay c;
     ContextPred.use_lr_scheduler := scheduled;
     ContextPred.scheduler_factor := ContextPred.scheduler_factor c;
     ContextPred.scheduler_patience := ContextPred.scheduler_patience c;
     ContextPred.verbose := ContextPred.verbose c |}.

(** Fresh estimators asked for no epoch at all, and what [fit_prepare]
    returns on them. *)
Definition generator_without_epochs : GraphDIT.Generator unit unit :=
  GraphDIT.mkGenerator (generator_config_with 0 false) 500 50 ∅ None None None None None
    [] 0 false.
Definition encoder_without_epochs : ContextPred.Encoder unit :=
  ContextPred.mkEncoder (encoder_config_with 0 false) None [] 0 false.
Definition prepared_generator_without_epochs : GraphDIT.Generator unit unit :=
  GraphDIT.mkGenerator (generator_config_with 0 false) 2 2 Demo.dataset_info1 (Some tt)
    (Some tt) (Some (GraphDIT.mkLimitDist Demo.vec1 Demo.vec1)) (Some 2%Z) None
    [] 0 false.
Definition prepared_encoder_without_epochs : ContextPred.Encoder unit :=
  ContextPred.mkEncoder (encoder_config_with 0 false) (Some tt) [] 0 false.

(** Fresh estimators with the learning-rate scheduler switched on, and the
    same after [fit]: two epochs of two batches each. *)
Definition scheduled_generator : GraphDIT.Generator unit unit :=
  GraphDIT.mkGenerator (generator_config_with 2 true) 500 50 ∅ None None None None None
    [] 0 false.
Definition scheduled_encoder : ContextPred.Encoder unit :=
  ContextPred.mkEncoder (encoder_config_with 2 true) None [] 0 false.
Definition fitted_scheduled_generator : GraphDIT.Generator unit unit :=
  GraphDIT.mkGenerator (generator_config_with 2 true) 2 2 Demo.dataset_info1 (Some tt)
    (Some tt) (Some (GraphDIT.mkLimitDist Demo.vec1 Demo.vec1)) (Some 2%Z) None
    [Finite (4 # 2); Finite (12 # 2)] 1 true.
Definition fitted_scheduled_encoder : ContextPred.Encoder unit :=
  ContextPred.mkEncoder (encoder_config_with 2 true) (Some tt)
    [Finite (1 # 2); Finite (5 # 2)] 1 true.

(** A generator that is set up, with [atom_decoder] assigned by hand, and
    no time step. *)
Definition generator_without_timesteps : GraphDIT.Generator unit unit :=
  GraphDIT.mkGenerator (Demo.generator_config None) 0 2 Demo.dataset_info1 (Some tt)
    (Some tt) (Some (GraphDIT.mkLimitDist Demo.vec1 Demo.vec1)) (Some 0%Z)
    (Some (PList [PStr "C"])) [] 0 false.

(** The node mask of one graph with one node, for [max_node = 50]. *)
Definition mask_one_of_fifty : NodeMask := [ true :: repeat false 49 ].

(** The collaborators of [encode]: every graph is its own batch, and the
    network maps a batch to the one-row encoding [[1; 0]]. *)
Definition encoder_inference : ContextPredMethods.Inference Demo.encoder_backend :=
  ContextPredMethods.mkInference Demo.encoder_backend
    (fun self => if ContextPred.is_fitted_ self then Ok tt
                 else Raise (AttributeError "is_fitted_"))
    (fun X => Ok X)
    (fun dataset batch_size =>
       if (batch_size <=? 0)%Z
       then Raise (ValueError "batch_size should be a positive integer value")
       else Ok (map (fun _ => tt) dataset))
    (fun net => net)
    (fun _ _ => Ok [[1; 0]]).

(** A fitted encoder that has lost its network. *)
Definition fitted_encoder_without_model : ContextPred.Encoder unit :=
  ContextPred.mkEncoder (Demo.encoder_config None) None
    [Finite (1 # 2); Finite (5 # 2)] 1 true.

End Cases.

(** * Properties *)

(** ** The monad *)

Section MonadFacts.
Context {A B : Type}.

Lemma bind_ok (m : M A) (k : A -> M B) w a w1 :
  m w = (Ok a, w1) -> (m ≫= k) w = k a w1.
Proof. intros H. unfold mbind, M_bind, bind. now rewrite H. Qed.

Lemma bind_raise (m : M A) (k : A -> M B) w e w1 :
  m w = (Raise e, w1) -> (m ≫= k) w = (Raise e, w1).
Proof. intros H. unfold mbind, M_bind, bind. now rewrite H. Qed.

Lemma bind_inv_ok (m : M A) (k : A -> M B) w b w2 :
  (m ≫= k) w = (Ok b, w2) ->
  exists a w1, m w = (Ok a, w1) /\ k a w1 = (Ok b, w2).
Proof.
  unfold mbind, M_bind, bind. destruct (m w) as [[a|e] w1]; intros H.
  - now exists a, w1.
  - discriminate.
Qed.
End MonadFacts.

(** ** Checkpoints without hyper-parameters *)

(** C10. [_get_model_params], given a checkpoint mapping that lacks the key
    ['hyperparameters'], raises [ValueError] at once, in the generator and in
    the encoder alike. *)
Theorem get_model_params_missing_hyperparameters
    (Bg : GraphDIT.Backend) (Be : ContextPred.Backend)
    (g : GraphDIT.Generator (GraphDIT.Net Bg) (GraphDIT.TM Bg))
    (e : ContextPred.Encoder (ContextPred.Net Be))
    (checkpoint : gmap string pyval) :
  checkpoint !! "hyperparameters" = None ->
  GraphDIT._get_model_params Bg g (Some checkpoint)
    = Raise (ValueError "Checkpoint missing 'hyperparameters' key")
  /\ ContextPred._get_model_params Be e (Some checkpoint)
    = Raise (ValueError "Checkpoint missing 'hyperparameters' key").
Proof.
  intros Hmiss. split.
  - unfold GraphDIT._get_model_params. now rewrite Hmiss.
  - unfold ContextPred._get_model_params. now rewrite Hmiss.
Qed.

Lemma get_model_params_missing_hyperparameters_witness :
  Demo.checkpoint_without_hyperparameters !! "hyperparameters" = None
  /\ GraphDIT._get_model_params Demo.generator_backend (Demo.fresh_generator None)
       (Some Demo.checkpoint_without_hyperparameters)
     = Raise (ValueError "Checkpoint missing 'hyperparameters' key")
  /\ ContextPred._get_model_params Demo.encoder_backend (Demo.fresh_encoder None)
       (Some Demo.checkpoint_without_hyperparameters)
     = Raise (ValueError "Checkpoint missing 'hyperparameters' key").
Proof.
  split; [reflexivity |].
  apply (get_model_params_missing_hyperparameters Demo.generator_backend
           Demo.encoder_backend (Demo.fresh_generator None) (Demo.fresh_encoder None)
           Demo.checkpoint_without_hyperparameters).
  reflexivity.
Defined.

(** ** The reverse sampler and the free name [text_embedding] *)

Section ReverseSampler.
Context (B : GraphDIT.Backend).
Implicit Types self : GraphDIT.Generator (GraphDIT.Net B) (GraphDIT.TM B).

(** No statement of the module binds [text_embedding]. *)
Lemma text_embedding_unbound :
  load_global GraphDIT.module_globals "text_embedding"
  = Raise (NameError "text_embedding").
Proof. reflexivity. Qed.

(** The outcome of a call of [sample_p_zs_given_zt] in the module as it is
    written. *)
Lemma sample_step_outcome self s t X_t E_t properties node_mask w :
  GraphDIT.sample_p_zs_given_zt B GraphDIT.module_globals self s t X_t E_t
    properties node_mask w
  = (Raise (match GraphDIT.noise_schedule self with
            | Some _ => NameError "text_embedding"
            | None => AttributeError "noise_schedule"
            end), w).
Proof.
  unfold GraphDIT.sample_p_zs_given_zt.
  destruct (GraphDIT.noise_schedule self) as [T|]; [|reflexivity].
  cbn [GraphDIT.attribute].
  unfold mbind, M_bind, bind, mret, M_ret, ret, lift.
  now rewrite text_embedding_unbound.
Qed.

(** [reversed(range(0, T))] runs through [T - 1, ..., 0]. *)
Lemma reversed_range (T : Z) :
  rev (range 0 T) = map (fun k => (T - 1 - Z.of_nat k)%Z) (seq 0 (Z.to_nat T)).
Proof.
  unfold range. rewrite Z.sub_0_r.
  assert (Hgen : forall n,
             rev (map (fun i => (0 + Z.of_nat i)%Z) (seq 0 n))
             = map (fun k => (Z.of_nat n - 1 - Z.of_nat k)%Z) (seq 0 n)).
  { induction n as [|n IH].
    - reflexivity.
    - rewrite seq_S at 1. rewrite map_app, rev_app_distr. cbn [map rev app].
      rewrite IH. cbn [seq map]. f_equal; [lia|].
      rewrite <- seq_shift, map_map. apply map_ext. intros k. lia. }
  destruct (Z_le_gt_dec 0 T) as [Hpos|Hneg].
  - rewrite Hgen. rewrite Z2Nat.id by lia. reflexivity.
  - replace (Z.to_nat T) with 0%nat by lia. reflexivity.
Qed.

(** With [timesteps >= 1] the loop of [generate] stops in its first pass. *)
Lemma generate_loop_stops self batch_size node_mask X E y w :
  (1 <= GraphDIT.timesteps self)%Z ->
  GraphDIT.generate_loop B GraphDIT.module_globals self batch_size node_mask X E y w
  = (Raise (match GraphDIT.noise_schedule self with
            | Some _ => NameError "text_embedding"
            | None => AttributeError "noise_schedule"
            end), w).
Proof.
  intros HT. unfold GraphDIT.generate_loop. rewrite reversed_range.
  destruct (Z.to_nat (GraphDIT.timesteps self)) as [|n] eqn:Hn; [lia|].
  cbn [seq map for_each].
  apply bind_raise. unfold GraphDIT.generate_step.
  apply bind_raise. apply sample_step_outcome.
Qed.

(** What [setup_diffusion_params] assigns and what it leaves alone. *)
Lemma get_diffusion_params_attributes self X self' d :
  GraphDIT._get_diffusion_params B self X = Ok (self', d) ->
  GraphDIT.atom_decoder self' = GraphDIT.atom_decoder self
  /\ GraphDIT.config self' = GraphDIT.config self.
Proof.
  unfold GraphDIT._get_diffusion_params. intros H.
  repeat match type of H with
         | match ?x with _ => _ end = _ => destruct x eqn:?; try discriminate
         end.
  all: now inversion H.
Qed.

Lemma setup_attributes self X self' :
  GraphDIT.setup_diffusion_params B self X = Ok self' ->
  GraphDIT.atom_decoder self' = GraphDIT.atom_decoder self
  /\ is_Some (GraphDIT.limit_dist self')
  /\ GraphDIT.noise_schedule self' = Some (GraphDIT.timesteps self')
  /\ GraphDIT.config self' = GraphDIT.config self.
Proof.
  unfold GraphDIT.setup_diffusion_params, mbind, result_bind, mret, result_ret.
  intros H.
  destruct (GraphDIT._get_diffusion_params B self X) as [[s1 d]|] eqn:Hd;
    [|discriminate].
  apply get_diffusion_params_attributes in Hd as [Hd Hc].
  repeat match type of H with
         | match ?x with _ => _ end = _ => destruct x eqn:?; try discriminate
         end.
  inversion H; subst; cbn. split; [exact Hd|]. split; [eexists; reflexivity|].
  split; [reflexivity | exact Hc].
Qed.

End ReverseSampler.



(** C1 (the code departs from the claim).  With [timesteps >= 1], [generate]
    never returns: once the arguments are prepared and the initial noise is
    drawn, the first pass of the loop (t = T, s = T - 1) calls
    [sample_p_zs_given_zt], which raises; no denoising step completes and
    the collapse of line 423 is not reached. *)
Theorem generate_stops_in_first_step
    (B : GraphDIT.Backend)
    (self : GraphDIT.Generator (GraphDIT.Net B) (GraphDIT.TM B))
    (labels : list Q + list (list Q))
    (num_node : option (list Z + list (list Z))) (w : World) :
  (1 <= GraphDIT.timesteps self)%Z ->
  GraphDIT.generate B GraphDIT.module_globals self labels num_node w
  = match GraphDIT.generate_prepare B self labels num_node w with
    | (Raise e, w1) => (Raise e, w1)
    | (Ok (_, _, node_mask), w1) =>
        match GraphDIT.generate_noise B self node_mask w1 with
        | (Raise e, w2) => (Raise e, w2)
        | (Ok _, w2) =>
            (Raise (match GraphDIT.noise_schedule self with
                    | Some _ => NameError "text_embedding"
                    | None => AttributeError "noise_schedule"
                    end), w2)
        end
    end.
Proof.
  intros HT. unfold GraphDIT.generate.
  destruct (GraphDIT.generate_prepare B self labels num_node w)
    as [[[[labels' nn] node_mask]|e] w1] eqn:Hprep.
  - erewrite bind_ok by exact Hprep.
    destruct (GraphDIT.generate_noise B self node_mask w1) as [[[X E]|e] w2] eqn:Hnoise.
    + erewrite bind_ok by exact Hnoise.
      pose proof (generate_loop_stops B self (length labels') node_mask X E labels'
                    w2 HT) as Hloop.
      cbn beta iota. erewrite bind_raise by exact Hloop. reflexivity.
    + erewrite bind_raise by exact Hnoise. reflexivity.
  - erewrite bind_raise by exact Hprep. reflexivity.
Qed.

Lemma generate_stops_in_first_step_witness :
  (1 <= GraphDIT.timesteps Demo.ready_generator)%Z
  /\ GraphDIT.generate Demo.generator_backend GraphDIT.module_globals
       Demo.ready_generator (inl [(1 # 2)%Q]) (Some (inl [1%Z])) Demo.w0
     = (Raise (NameError "text_embedding"), Demo.w0).
Proof.
  split; [cbn; lia |].
  rewrite (generate_stops_in_first_step Demo.generator_backend Demo.ready_generator
             (inl [(1 # 2)%Q]) (Some (inl [1%Z])) Demo.w0); [reflexivity | cbn; lia].
Defined.

(** C4 (the code departs from the claim).  [setup_diffusion_params] stores
    the limit distribution but never assigns [self.atom_decoder] (the decoder
    table stays in [self.dataset_info]).  So on an estimator on which nothing
    else assigned that attribute, [generate] called after a completed
    set-up still raises the configuration error of line 401 as soon as its
    arguments are prepared. *)
Theorem generate_after_setup_raises
    (B : GraphDIT.Backend) (globals : gmap string pyval)
    (self self' : GraphDIT.Generator (GraphDIT.Net B) (GraphDIT.TM B))
    (X : GraphDIT.TrainInput)
    (labels : list Q + list (list Q))
    (num_node : option (list Z + list (list Z)))
    (w w1 : World) (prepared : list (list Q) * list (list Z) * NodeMask) :
  GraphDIT.atom_decoder self = None ->
  GraphDIT.setup_diffusion_params B self X = Ok self' ->
  GraphDIT.generate_prepare B self' labels num_node w = (Ok prepared, w1) ->
  GraphDIT.generate B globals self' labels num_node w
  = (Raise (ValueError
       "Atom decoder not found. Please call setup_diffusion_params first."), w1).
Proof.
  intros Hnone Hsetup Hprep.
  destruct (setup_attributes B self X self' Hsetup) as (Hdec & [l Hl] & _ & _).
  rewrite Hnone in Hdec.
  unfold GraphDIT.generate. erewrite bind_ok by exact Hprep.
  destruct prepared as [[labels' nn] node_mask].
  apply bind_raise. unfold GraphDIT.generate_noise. rewrite Hl, Hdec. reflexivity.
Qed.

Lemma generate_after_setup_raises_witness :
  GraphDIT.atom_decoder (Demo.fresh_generator None) = None
  /\ GraphDIT.setup_diffusion_params Demo.generator_backend
       (Demo.fresh_generator None) (GraphDIT.InputDict Demo.checkpoint1)
     = Ok Demo.generator_after_setup
  /\ GraphDIT.generate Demo.generator_backend GraphDIT.module_globals
       Demo.generator_after_setup (inl [(1 # 2)%Q]) (Some (inl [1%Z])) Demo.w0
     = (Raise (ValueError
          "Atom decoder not found. Please call setup_diffusion_params first."),
        Demo.w0).
Proof.
  split; [reflexivity |]. split; [vm_compute; reflexivity |].
  apply (generate_after_setup_raises Demo.generator_backend GraphDIT.module_globals
           (Demo.fresh_generator None) Demo.generator_after_setup
           (GraphDIT.InputDict Demo.checkpoint1) (inl [(1 # 2)%Q]) (Some (inl [1%Z]))
           Demo.w0 Demo.w0 ([[(1 # 2)%Q]], [[1%Z]], [[true; false]])).
  - reflexivity.
  - vm_compute. reflexivity.
  - vm_compute. reflexivity.
Defined.

(** ** Symmetry of the edge tensor *)

Section Symmetry.

Lemma all_eq_nth {A} (eqb : A -> A -> bool) (d : A) xs ys :
  all_eq eqb xs ys = true ->
  length xs = length ys
  /\ forall i, (i < length xs)%nat -> eqb (nth i xs d) (nth i ys d) = true.
Proof.
  revert ys. induction xs as [|x xs IH]; intros [|y ys] H; cbn in H; try discriminate.
  - split; [reflexivity | cbn; lia].
  - apply andb_true_iff in H as [Hxy Hrest].
    destruct (IH ys Hrest) as [Hlen Hnth]. split; [cbn; lia |].
    intros [|i] Hi; cbn; [exact Hxy | apply Hnth; cbn in Hi; lia].
Qed.

Lemma all_eq_map {A} (f : A -> A -> bool) (h : A -> A) xs :
  all_eq f xs (map h xs) = true -> forall x, x ∈ xs -> f x (h x) = true.
Proof.
  induction xs as [|x0 xs IH]; cbn; intros H x Hx.
  - inversion Hx.
  - apply andb_true_iff in H as [H0 Hrest].
    apply elem_of_cons in Hx as [-> | Hx]; [exact H0 | now apply IH].
Qed.

Lemma row_eqb_Forall2 (a b : row) : row_eqb a b = true -> Forall2 Qeq a b.
Proof.
  unfold row_eqb. revert b.
  induction a as [|x a IH]; intros [|y b] H; cbn in H; try discriminate.
  - constructor.
  - apply andb_true_iff in H as [Hxy Hrest]. constructor.
    + now apply Qeq_bool_iff.
    + now apply IH.
Qed.

Lemma nth_transpose (g : list (list row)) i :
  (i < length (hd [] g))%nat ->
  nth i (transpose g) [] = map (fun r => nth i r []) g.
Proof.
  intros Hi. unfold transpose.
  rewrite nth_lookup. change (map ?f ?l) with (f <$> l).
  rewrite list_lookup_fmap, lookup_seq_lt by exact Hi. reflexivity.
Qed.

(** The test of lines 408 and 516 implies symmetry entry by entry. *)
Lemma is_symmetric_sound (E : ET) : is_symmetric E = true -> Symmetric E.
Proof.
  unfold is_symmetric. intros H g Hg i j Hi Hj.
  pose proof (all_eq_map _ _ _ H g Hg) as Hgrid.
  destruct (all_eq_nth _ [] _ _ Hgrid) as [Hlen Hrows].
  unfold transpose in Hlen. rewrite length_map, length_seq in Hlen.
  specialize (Hrows i Hi). rewrite nth_transpose in Hrows by lia.
  destruct (all_eq_nth _ [] _ _ Hrows) as [Hlen_i Hcols].
  rewrite length_map in Hlen_i.
  specialize (Hcols j). rewrite Hlen_i in Hcols. specialize (Hcols Hj).
  apply row_eqb_Forall2 in Hcols. unfold entry.
  rewrite (nth_lookup (map _ g)) in Hcols.
  change (map ?f ?l) with (f <$> l) in Hcols.
  rewrite list_lookup_fmap in Hcols. rewrite (nth_lookup g j).
  unfold row in *.
  destruct (g !! j); cbn in *; [exact Hcols |].
  now destruct i.
Qed.

Lemma entry_mask (mb : list bool) (g : list (list row)) i j :
  entry (imap (fun i ri =>
                 imap (fun j r => if GraphDIT.valid mb i && GraphDIT.valid mb j
                                  then r else GraphDIT.zero_like r) ri) g) i j
  = if GraphDIT.valid mb i && GraphDIT.valid mb j then entry g i j
    else GraphDIT.zero_like (entry g i j).
Proof.
  unfold entry. rewrite (nth_lookup _ i), (nth_lookup g i), list_lookup_imap.
  destruct (g !! i) as [ri|];
    cbn [fmap option_fmap option_map default from_option id].
  - rewrite (nth_lookup _ j), (nth_lookup ri j), list_lookup_imap.
    destruct (ri !! j); cbn; [reflexivity|].
    now destruct (_ && _).
  - destruct j; cbn; now destruct (_ && _).
Qed.

Lemma zero_like_Forall2 (a b : row) :
  Forall2 Qeq a b -> Forall2 Qeq (GraphDIT.zero_like a) (GraphDIT.zero_like b).
Proof.
  induction 1; cbn; constructor; [reflexivity | assumption].
Qed.

(** Masking keeps an edge tensor symmetric. *)
Lemma mask_E_symmetric (node_mask : NodeMask) (E : ET) :
  Symmetric E -> Symmetric (GraphDIT.mask_E node_mask E).
Proof.
  intros Hsym g' Hg' i j Hi Hj.
  unfold GraphDIT.mask_E in Hg'.
  apply elem_of_zip_with in Hg' as (mb & g & -> & _ & Hg).
  rewrite length_imap in Hi, Hj.
  rewrite !entry_mask. rewrite (andb_comm (GraphDIT.valid mb j)).
  specialize (Hsym g Hg i j Hi Hj).
  destruct (_ && _); [exact Hsym | now apply zero_like_Forall2].
Qed.

End Symmetry.

(** ** Runs of the sampler *)

(** Inversion of a completed bind. *)
Tactic Notation "inv_bind_as" hyp(H) ident(a) ident(w) ident(H1) :=
  apply bind_inv_ok in H as (a & w & H1 & H).

Lemma assert_inv (c : bool) w w' : assert c w = (Ok tt, w') -> c = true /\ w' = w.
Proof. destruct c; cbn; intros H; inversion H; auto. Qed.

Lemma attribute_inv {A} name (o : option A) w a w' :
  GraphDIT.attribute name o w = (Ok a, w') -> o = Some a /\ w' = w.
Proof. destruct o; cbn; intros H; inversion H; auto. Qed.

Lemma lift_inv {A} (r : result A) w a w' :
  lift r w = (Ok a, w') -> r = Ok a /\ w' = w.
Proof. unfold lift. intros H; inversion H; auto. Qed.

Lemma with_rng_log {A} (f : Rng -> result A * Rng) w r w' :
  with_rng f w = (r, w') -> w_log w' = w_log w.
Proof.
  unfold with_rng. destruct (f (w_rng w)) as [r0 g]. intros H. now inversion H.
Qed.

Lemma emit_inv e w u w' :
  emit e w = (Ok u, w') -> w_log w' = w_log w ++ [e].
Proof. unfold emit. intros H. now inversion H. Qed.

Lemma range_length (lo hi : Z) : length (range lo hi) = Z.to_nat (hi - lo).
Proof. unfold range. now rewrite length_map, length_seq. Qed.

Lemma for_each_invariant {A S} (P : S -> Prop) (body : S -> A -> M S) (xs : list A) :
  (forall acc x w acc' w', P acc -> body acc x w = (Ok acc', w') -> P acc') ->
  forall acc w acc' w',
    P acc -> for_each xs body acc w = (Ok acc', w') -> P acc'.
Proof.
  intros Hbody. induction xs as [|x xs IH]; intros acc w acc' w' Hacc Hrun.
  - cbn in Hrun. inversion Hrun; now subst.
  - cbn [for_each] in Hrun. inv_bind_as Hrun acc1 w1 Hstep. eauto.
Qed.

Section SamplerRuns.
Context (B : GraphDIT.Backend) (globals : gmap string pyval).
Implicit Types self : GraphDIT.Generator (GraphDIT.Net B) (GraphDIT.TM B).

(** A completed call of [sample_p_zs_given_zt] returns the masked one-hot
    sample, whose edge tensor passed the test of line 516. *)
Lemma sample_step_result self s t X_t E_t properties node_mask w out w' :
  GraphDIT.sample_p_zs_given_zt B globals self s t X_t E_t properties node_mask w
  = (Ok out, w') ->
  exists X_s E_s,
    is_symmetric E_s = true
    /\ out = GraphDIT.mask node_mask (GraphDIT.mkPlaceHolder X_s E_s properties).
Proof.
  unfold GraphDIT.sample_p_zs_given_zt. intros H.
  inv_bind_as H T w1 H1. inv_bind_as H emb w2 H2. inv_bind_as H prob w3 H3.
  inv_bind_as H prob' w4 H4. destruct prob' as [prob_X prob_E].
  inv_bind_as H sampled w5 H5. destruct sampled as [sampled_X sampled_E].
  inv_bind_as H X_s w6 H6. inv_bind_as H E_s w7 H7.
  inv_bind_as H u1 w8 H8. destruct u1. apply assert_inv in H8 as [Hsym _].
  inv_bind_as H u2 w9 H9.
  inversion H; subst. now exists X_s, E_s.
Qed.

Lemma sample_step_symmetric self s t X_t E_t properties node_mask w out w' :
  GraphDIT.sample_p_zs_given_zt B globals self s t X_t E_t properties node_mask w
  = (Ok out, w') ->
  Symmetric (GraphDIT.ph_E out).
Proof.
  intros H. apply sample_step_result in H as (X_s & E_s & Hsym & ->).
  cbn. apply mask_E_symmetric. now apply is_symmetric_sound.
Qed.

Lemma generate_noise_symmetric self node_mask w X E w' :
  GraphDIT.generate_noise B self node_mask w = (Ok (X, E), w') -> Symmetric E.
Proof.
  unfold GraphDIT.generate_noise. intros H.
  inv_bind_as H limit w1 H1. inv_bind_as H u1 w2 H2.
  inv_bind_as H z w3 H3. destruct z as [X0 E0].
  inv_bind_as H u2 w4 H4. destruct u2. apply assert_inv in H4 as [Hsym _].
  inversion H; subst. now apply is_symmetric_sound.
Qed.

Lemma generate_steps_symmetric self batch_size node_mask steps st w st' w' :
  Symmetric (snd (fst (fst st))) ->
  for_each steps (GraphDIT.generate_step B globals self batch_size node_mask) st w
  = (Ok st', w') ->
  Symmetric (snd (fst (fst st'))).
Proof.
  apply (for_each_invariant (fun st => Symmetric (snd (fst (fst st))))).
  clear. intros [[[X E] y] o] s_int w acc' w' _ Hstep.
  unfold GraphDIT.generate_step in Hstep. inv_bind_as Hstep sampled w1 H1.
  inversion Hstep; subst; cbn. eapply sample_step_symmetric; eassumption.
Qed.

End SamplerRuns.

(** C3. In a run of [generate], under any module name space, the edge tensor
    drawn from the limit distribution is symmetric, and so is the edge tensor
    carried forward after any number [k] of completed passes of the
    reverse-sampling loop: [E[i, j] == E[j, i]] for all nodes [i], [j] of
    every graph.  (The tests of lines 408 and 516 stop the run otherwise.) *)
Theorem generate_edges_symmetric
    (B : GraphDIT.Backend) (globals : gmap string pyval)
    (self : GraphDIT.Generator (GraphDIT.Net B) (GraphDIT.TM B))
    (labels : list Q + list (list Q))
    (num_node : option (list Z + list (list Z)))
    (w w1 w2 w3 : World) (y : list (list Q)) (nn : list (list Z))
    (node_mask : NodeMask) (X : XT) (E : ET) (k : nat)
    (X' : XT) (E' : ET) (y' : list (list Q)) (last : option GraphDIT.PlaceHolder) :
  GraphDIT.generate_prepare B self labels num_node w = (Ok (y, nn, node_mask), w1) ->
  GraphDIT.generate_noise B self node_mask w1 = (Ok (X, E), w2) ->
  for_each (take k (rev (range 0 (GraphDIT.timesteps self))))
    (GraphDIT.generate_step B globals self (length y) node_mask) (X, E, y, None) w2
  = (Ok (X', E', y', last), w3) ->
  Symmetric E /\ Symmetric E'.
Proof.
  intros _ Hnoise Hsteps.
  pose proof (generate_noise_symmetric B self node_mask w1 X E w2 Hnoise) as HE.
  split; [exact HE |].
  exact (generate_steps_symmetric B globals self (length y) node_mask _
           (X, E, y, None) w2 (X', E', y', last) w3 HE Hsteps).
Qed.

Lemma generate_edges_symmetric_witness :
  GraphDIT.generate_prepare Demo.generator_backend Demo.ready_generator
    (inl [(1 # 2)%Q]) (Some (inl [2%Z])) Demo.w0
  = (Ok (Demo.y1, [[2%Z]], Demo.mask1), Demo.w0)
  /\ GraphDIT.generate_noise Demo.generator_backend Demo.ready_generator Demo.mask1
       Demo.w0
     = (Ok (Demo.X1, Demo.E1), Demo.w0)
  /\ for_each (take 2 (rev (range 0 (GraphDIT.timesteps Demo.ready_generator))))
       (GraphDIT.generate_step Demo.generator_backend Demo.patched_globals
          Demo.ready_generator (length Demo.y1) Demo.mask1)
       (Demo.X1, Demo.E1, Demo.y1, None) Demo.w0
     = (Ok (Demo.X1, Demo.E1, Demo.y1,
            Some (GraphDIT.mkPlaceHolder Demo.X1 Demo.E1 Demo.y1)),
        mkWorld (w_rng Demo.w0)
          [EvForward false; EvForward true; EvForward false; EvForward true])
  /\ Symmetric Demo.E1 /\ Symmetric Demo.E1.
Proof.
  assert (H1 : GraphDIT.generate_prepare Demo.generator_backend Demo.ready_generator
                 (inl [(1 # 2)%Q]) (Some (inl [2%Z])) Demo.w0
               = (Ok (Demo.y1, [[2%Z]], Demo.mask1), Demo.w0))
    by (vm_compute; reflexivity).
  assert (H2 : GraphDIT.generate_noise Demo.generator_backend Demo.ready_generator
                 Demo.mask1 Demo.w0
               = (Ok (Demo.X1, Demo.E1), Demo.w0))
    by (vm_compute; reflexivity).
  assert (H3 : for_each
                 (take 2 (rev (range 0 (GraphDIT.timesteps Demo.ready_generator))))
                 (GraphDIT.generate_step Demo.generator_backend Demo.patched_globals
                    Demo.ready_generator (length Demo.y1) Demo.mask1)
                 (Demo.X1, Demo.E1, Demo.y1, None) Demo.w0
               = (Ok (Demo.X1, Demo.E1, Demo.y1,
                      Some (GraphDIT.mkPlaceHolder Demo.X1 Demo.E1 Demo.y1)),
                  mkWorld (w_rng Demo.w0)
                    [EvForward false; EvForward true; EvForward false; EvForward true]))
    by (vm_compute; reflexivity).
  split; [exact H1 |]. split; [exact H2 |]. split; [exact H3 |].
  exact (generate_edges_symmetric Demo.generator_backend Demo.patched_globals
           Demo.ready_generator (inl [(1 # 2)%Q]) (Some (inl [2%Z]))
           Demo.w0 Demo.w0 Demo.w0 _ Demo.y1 [[2%Z]] Demo.mask1 Demo.X1 Demo.E1 2
           Demo.X1 Demo.E1 Demo.y1 _ H1 H2 H3).
Defined.

(** ** The floor of zero-sum rows *)

Section Rows.
Local Open Scope Q_scope.





End Rows.



(** ** Classifier-free guidance *)

Section Guidance.
Local Open Scope Q_scope.
Context (B : GraphDIT.Backend).
Implicit Types self : GraphDIT.Generator (GraphDIT.Net B) (GraphDIT.TM B).




(** A completed call of [get_prob] ran the network once. *)
Lemma get_prob_log self X_t E_t beta_t alpha_s_bar alpha_t_bar noisy_data
    text_embedding unconditioned w p w' :
  GraphDIT.get_prob B self X_t E_t beta_t alpha_s_bar alpha_t_bar noisy_data
    text_embedding unconditioned w = (Ok p, w') ->
  w_log w' = w_log w ++ [EvForward unconditioned].
Proof.
  unfold GraphDIT.get_prob, GraphDIT.unnormalized_posterior. intros H.
  inv_bind_as H post w1 Hpost. destruct post as [uX uE].
  inv_bind_as Hpost net w2 H2. apply attribute_inv in H2 as [_ ->].
  inv_bind_as Hpost u w3 H3. apply emit_inv in H3.
  destruct (GraphDIT.forward B net noisy_data unconditioned) as [pred_X pred_E].
  inv_bind_as Hpost device w4 H4. apply lift_inv in H4 as [_ ->].
  inv_bind_as Hpost tm w5 H5. apply attribute_inv in H5 as [_ ->].
  inversion Hpost; subst. inversion H; subst. exact H3.
Qed.

(** The guidance block runs its second pass exactly when line 496 holds. *)
Lemma guidance_run self (uncon : M (XT * ET)) (prob_X : XT) (prob_E : ET) w :
  GraphDIT.guidance B self uncon (prob_X, prob_E) w
  = match GraphDIT.guide_scale (GraphDIT.config self) with
    | Some g =>
        if Qeq_bool g 1 then (Ok (prob_X, prob_E), w)
        else match uncon w with
             | (Ok (uncon_prob_X, uncon_prob_E), w1) =>
                 (Ok (zip_with (zip_with (GraphDIT.guide_row B g)) uncon_prob_X prob_X,
                      zip_with (zip_with (zip_with (GraphDIT.guide_row B g)))
                        uncon_prob_E prob_E), w1)
             | (Raise e, w1) => (Raise e, w1)
             end
    | None => (Ok (prob_X, prob_E), w)
    end.
Proof.
  unfold GraphDIT.guidance.
  destruct (GraphDIT.guide_scale (GraphDIT.config self)) as [g|]; [|reflexivity].
  destruct (Qeq_bool g 1); [reflexivity|].
  unfold mbind, M_bind, bind. destruct (uncon w) as [[[uX uE]|e] w1]; reflexivity.
Qed.

(** The network passes of a completed call of [sample_p_zs_given_zt]. *)
Lemma sample_step_log globals self s t X_t E_t properties node_mask w out w' :
  GraphDIT.sample_p_zs_given_zt B globals self s t X_t E_t properties node_mask w
  = (Ok out, w') ->
  w_log w' = w_log w ++ EvForward false
                          :: (if GraphDIT.guided B self then [EvForward true] else []).
Proof.
  unfold GraphDIT.sample_p_zs_given_zt. intros H.
  inv_bind_as H T w1 H1. apply attribute_inv in H1 as [_ ->].
  inv_bind_as H emb w2 H2. apply lift_inv in H2 as [_ ->].
  inv_bind_as H prob w3 H3. apply get_prob_log in H3.
  inv_bind_as H prob' w4 H4. destruct prob as [prob_X prob_E].
  destruct prob' as [prob_X' prob_E'].
  assert (Hguide : w_log w4 = w_log w3
                     ++ (if GraphDIT.guided B self then [EvForward true] else [])).
  { rewrite guidance_run in H4. unfold GraphDIT.guided.
    destruct (GraphDIT.guide_scale (GraphDIT.config self)) as [g|].
    - destruct (Qeq_bool g 1); cbn [negb].
      + inversion H4; subst. now rewrite app_nil_r.
      + match type of H4 with
        | match ?m with _ => _ end = _ => destruct m as [[[uX uE]|e] w5] eqn:Hun
        end; [|discriminate].
        inversion H4; subst.
        inv_bind_as Hun emb' w6 H6. apply lift_inv in H6 as [_ ->].
        now apply get_prob_log in Hun.
    - inversion H4; subst. now rewrite app_nil_r. }
  inv_bind_as H sampled w5 H5. destruct sampled as [sampled_X sampled_E].
  apply with_rng_log in H5.
  inv_bind_as H X_s w6 H6. apply lift_inv in H6 as [_ ->].
  inv_bind_as H E_s w7 H7. apply lift_inv in H7 as [_ ->].
  inv_bind_as H u1 w8 H8. destruct u1. apply assert_inv in H8 as [_ ->].
  inv_bind_as H u2 w9 H9. destruct u2. apply assert_inv in H9 as [_ ->].
  inversion H; subst.
  rewrite H5, Hguide, H3, <- app_assoc. reflexivity.
Qed.

End Guidance.

(** ** The passes of the sampling loop *)

Section LoopPasses.
Context (B : GraphDIT.Backend) (globals : gmap string pyval).
Implicit Types self : GraphDIT.Generator (GraphDIT.Net B) (GraphDIT.TM B).

Lemma for_each_log {A S} (body : S -> A -> M S) (events : list event) (xs : list A) :
  (forall acc x w acc' w',
      body acc x w = (Ok acc', w') -> w_log w' = w_log w ++ events) ->
  forall acc w acc' w',
    for_each xs body acc w = (Ok acc', w') ->
    w_log w' = w_log w ++ concat (repeat events (length xs)).
Proof.
  intros Hbody. induction xs as [|x xs IH]; intros acc w acc' w' Hrun.
  - cbn in Hrun. inversion Hrun; subst. cbn. now rewrite app_nil_r.
  - cbn [for_each] in Hrun. inv_bind_as Hrun acc1 w1 Hstep.
    rewrite (IH _ _ _ _ Hrun), (Hbody _ _ _ _ _ Hstep). cbn [length repeat concat].
    now rewrite <- app_assoc.
Qed.

(** Under a name space that lets the sampler run, a completed loop of
    [generate] made exactly [timesteps] passes, each one a call of
    [sample_p_zs_given_zt]. *)
Lemma generate_loop_passes self batch_size node_mask X E y w st w' :
  GraphDIT.generate_loop B globals self batch_size node_mask X E y w = (Ok st, w') ->
  w_log w' = w_log w
             ++ concat (repeat (EvForward false
                                  :: (if GraphDIT.guided B self then [EvForward true]
                                      else []))
                          (Z.to_nat (GraphDIT.timesteps self))).
Proof.
  unfold GraphDIT.generate_loop. intros Hrun.
  eapply for_each_log in Hrun.
  - rewrite length_rev, range_length, Z.sub_0_r in Hrun. exact Hrun.
  - clear. intros [[[X E] y] o] s_int w acc' w' Hstep.
    unfold GraphDIT.generate_step in Hstep. inv_bind_as Hstep sampled w1 H1.
    inversion Hstep; subst. eapply sample_step_log; eassumption.
Qed.

End LoopPasses.




(** ** The time steps of [apply_noise] *)

Section ForwardNoise.
Local Open Scope Q_scope.
Context (B : GraphDIT.Backend).
Implicit Types self : GraphDIT.Generator (GraphDIT.Net B) (GraphDIT.TM B).







End ForwardNoise.




(** ** The training step *)

Section TrainingStep.

Lemma apply_noise_log (B : GraphDIT.Backend)
    (self : GraphDIT.Generator (GraphDIT.Net B) (GraphDIT.TM B))
    X E y node_mask w noisy_data w' :
  GraphDIT.apply_noise B self X E y node_mask w = (Ok noisy_data, w') ->
  w_log w' = w_log w.
Proof.
  unfold GraphDIT.apply_noise. intros H.
  inv_bind_as H ts w1 H1.
  assert (Hw1 : w_log w1 = w_log w).
  { unfold GraphDIT.randint in H1. destruct (_ <=? _)%Z; [discriminate|].
    now apply with_rng_log in H1. }
  inv_bind_as H T w2 H2. apply attribute_inv in H2 as [_ ->].
  inv_bind_as H tm w3 H3. apply attribute_inv in H3 as [_ ->].
  inv_bind_as H sampled w4 H4. destruct sampled as [sampled_X sampled_E].
  apply with_rng_log in H4.
  inv_bind_as H X_t w5 H5. apply lift_inv in H5 as [_ ->].
  inv_bind_as H E_t w6 H6. apply lift_inv in H6 as [_ ->].
  inv_bind_as H u w7 H7. destruct u. apply assert_inv in H7 as [_ ->].
  inversion H; subst. congruence.
Qed.

(** The encoder clips between [loss.backward()] and [optimizer.step()]
    exactly when [grad_clip_value] is not [None]. *)
Lemma encoder_step_log (B : ContextPred.Backend)
    (self : ContextPred.Encoder (ContextPred.Net B)) st batch w st' w' :
  ContextPred.train_step B self st batch w = (Ok st', w') ->
  w_log w' = w_log w
             ++ [EvZeroGrad; EvComputeLoss; EvBackward]
             ++ match ContextPred.grad_clip_value (ContextPred.config self) with
                | Some v => [EvClipGradNorm v]
                | None => []
                end
             ++ [EvOptimizerStep].
Proof.
  unfold ContextPred.train_step. destruct st as [[net optimizer] losses]. intros H.
  inv_bind_as H u1 w1 H1. apply emit_inv in H1.
  inv_bind_as H u2 w2 H2. apply emit_inv in H2.
  inv_bind_as H loss w3 H3. apply with_rng_log in H3.
  inv_bind_as H u4 w4 H4. apply emit_inv in H4.
  inv_bind_as H net' w5 H5.
  assert (Hclip : w_log w5 = w_log w4
                    ++ match ContextPred.grad_clip_value (ContextPred.config self) with
                       | Some v => [EvClipGradNorm v]
                       | None => []
                       end).
  { destruct (ContextPred.grad_clip_value (ContextPred.config self)) as [v|].
    - inv_bind_as H5 u5 w6 H6. apply emit_inv in H6. inversion H5; subst. exact H6.
    - inversion H5; subst. now rewrite app_nil_r. }
  inv_bind_as H u6 w6 H6. apply emit_inv in H6.
  destruct (ContextPred.optimizer_step B net' optimizer) as [net'' optimizer'].
  inversion H; subst.
  rewrite H6, Hclip, H4, H3, H2, H1. rewrite <- !app_assoc. reflexivity.
Qed.

End TrainingStep.

(** C9 (the code departs from the claim).  A completed training step of the
    generator calls [zero_grad], [compute_loss], [backward] and
    [optimizer.step] and nothing else: whatever [grad_clip_value] is, the
    gradient norm is not clipped.  (The encoder clips, see
    [encoder_step_log].) *)
Theorem generator_step_never_clips
    (B : GraphDIT.Backend)
    (self : GraphDIT.Generator (GraphDIT.Net B) (GraphDIT.TM B))
    (active_index : pyval)
    (st st' : GraphDIT.Net B * Optimizer (GraphDIT.OptState B) * list npfloat)
    (batched_data : GraphDIT.Batch B) (w w' : World) :
  GraphDIT.train_step B self active_index st batched_data w = (Ok st', w') ->
  w_log w' = w_log w ++ [EvZeroGrad; EvComputeLoss; EvBackward; EvOptimizerStep].
Proof.
  unfold GraphDIT.train_step. destruct st as [[net optimizer] losses]. intros H.
  inv_bind_as H u1 w1 H1. apply emit_inv in H1.
  inv_bind_as H dense w2 H2. apply lift_inv in H2 as [_ ->].
  destruct dense as [[[X E] y] node_mask].
  inv_bind_as H noisy_data w3 H3. apply apply_noise_log in H3.
  inv_bind_as H u4 w4 H4. apply emit_inv in H4.
  inv_bind_as H loss w5 H5. apply with_rng_log in H5.
  inv_bind_as H u6 w6 H6. apply emit_inv in H6.
  inv_bind_as H u7 w7 H7. apply emit_inv in H7.
  destruct (GraphDIT.optimizer_step B _ optimizer) as [net'' optimizer'].
  inversion H; subst.
  rewrite H7, H6, H5, H4, H3, H1. rewrite <- !app_assoc. reflexivity.
Qed.

Lemma generator_step_never_clips_witness :
  GraphDIT.grad_clip_value (GraphDIT.config Demo.clipping_generator) = Some 1%Q
  /\ GraphDIT.train_step Demo.generator_backend Demo.clipping_generator
       (PList [PInt 5]) (tt, mkOptimizer [] tt, []) tt Demo.w0
     = (Ok (tt, mkOptimizer [] tt, [Finite 1]),
        mkWorld (fun n => w_rng Demo.w0 (S (S n)))
          [EvZeroGrad; EvComputeLoss; EvBackward; EvOptimizerStep])
  /\ w_log (mkWorld (fun n => w_rng Demo.w0 (S (S n)))
              [EvZeroGrad; EvComputeLoss; EvBackward; EvOptimizerStep])
     = w_log Demo.w0 ++ [EvZeroGrad; EvComputeLoss; EvBackward; EvOptimizerStep].
Proof.
  assert (H : GraphDIT.train_step Demo.generator_backend Demo.clipping_generator
                (PList [PInt 5]) (tt, mkOptimizer [] tt, []) tt Demo.w0
              = (Ok (tt, mkOptimizer [] tt, [Finite 1]),
                 mkWorld (fun n => w_rng Demo.w0 (S (S n)))
                   [EvZeroGrad; EvComputeLoss; EvBackward; EvOptimizerStep]))
    by (vm_compute; reflexivity).
  split; [reflexivity |]. split; [exact H |].
  exact (generator_step_never_clips Demo.generator_backend Demo.clipping_generator
           (PList [PInt 5]) (tt, mkOptimizer [] tt, []) _ tt Demo.w0 _ H).
Defined.

(** ** The loss history of [fit] *)

Section LossHistory.

Lemma for_each_app {A S} (body : S -> A -> M S) (xs ys : list A) acc w :
  for_each (xs ++ ys) body acc w
  = match for_each xs body acc w with
    | (Ok acc1, w1) => for_each ys body acc1 w1
    | (Raise e, w1) => (Raise e, w1)
    end.
Proof.
  revert acc w. induction xs as [|x xs IH]; intros acc w; [reflexivity|].
  cbn [app for_each]. unfold bind.
  destruct (body acc x w) as [[acc1|e] w1]; [apply IH | reflexivity].
Qed.



(** *** The encoder *)

Lemma encoder_prepare_inv (B : ContextPred.Backend)
    (self self0 : ContextPred.Encoder (ContextPred.Net B)) X w opt sch loader w0 :
  ContextPred.fit_prepare B self X w = (Ok (self0, opt, sch, loader), w0) ->
  ContextPred.fitting_loss self0 = []
  /\ ContextPred.config self0 = ContextPred.config self.
Proof.
  unfold ContextPred.fit_prepare. intros H.
  inv_bind_as H net w1 H1. inv_bind_as H os w2 H2. destruct os as [o sc].
  inv_bind_as H X' w3 H3. inv_bind_as H ds w4 H4. inv_bind_as H ld w5 H5.
  inversion H; subst. cbn. auto.
Qed.



(** *** The generator *)

Lemma generator_prepare_inv (B : GraphDIT.Backend)
    (self self0 : GraphDIT.Generator (GraphDIT.Net B) (GraphDIT.TM B))
    X y w opt sch loader w0 :
  GraphDIT.fit_prepare B self X y w = (Ok (self0, opt, sch, loader), w0) ->
  GraphDIT.fitting_loss self0 = []
  /\ GraphDIT.config self0 = GraphDIT.config self.
Proof.
  unfold GraphDIT.fit_prepare. intros H.
  inv_bind_as H net w1 H1. inv_bind_as H self1 w2 H2.
  apply lift_inv in H2 as [H2 ->]. apply setup_attributes in H2 as (_ & _ & _ & Hcfg).
  inv_bind_as H os w3 H3. destruct os as [o sc].
  inv_bind_as H Xy w4 H4. destruct Xy as [X' y'].
  inv_bind_as H ds w5 H5. inv_bind_as H ld w6 H6.
  inversion H; subst. cbn. split; [reflexivity | exact Hcfg].
Qed.



End LossHistory.



(** * Further properties of the two estimators *)

(** ** Traversals *)

Section Traverse.
Context {A B : Type} (f : A -> result B).

Lemma traverse_cons x xs :
  traverse f (x :: xs)
  = match f x with
    | Raise e => Raise e
    | Ok y => match traverse f xs with
              | Raise e => Raise e
              | Ok ys => Ok (y :: ys)
              end
    end.
Proof. reflexivity. Qed.

Lemma traverse_ok xs ys :
  traverse f xs = Ok ys <-> Forall2 (fun x y => f x = Ok y) xs ys.
Proof.
  revert ys. induction xs as [|x xs IH]; intros ys; cbn [traverse].
  - split; [intros [= <-]; constructor | intros H; now inversion H].
  - destruct (f x) as [y|e] eqn:Hx.
    + destruct (traverse f xs) as [ys'|e] eqn:Hxs.
      * split.
        -- intros [= <-]. constructor; [exact Hx | now apply IH].
        -- intros H. inversion H; subst. apply IH in H4. congruence.
      * split; [discriminate |].
        intros H. inversion H; subst. apply IH in H4. discriminate.
    + split; [discriminate | intros H; inversion H; congruence].
Qed.

Lemma traverse_length xs ys : traverse f xs = Ok ys -> length ys = length xs.
Proof. intros H. apply traverse_ok in H. symmetry. eapply Forall2_length, H. Qed.

(** The error of a traversal is the error of the first element that fails. *)
Lemma traverse_raise xs e :
  traverse f xs = Raise e <->
  exists pre x post, xs = pre ++ x :: post /\ f x = Raise e
                     /\ Forall (fun x' => is_ok (f x') = true) pre.
Proof.
  revert e. induction xs as [|x xs IH]; intros e.
  - cbn. split; [discriminate | intros (pre & x & post & H & _); now destruct pre].
  - rewrite traverse_cons. split.
    + destruct (f x) as [y|e'] eqn:Hx.
      * destruct (traverse f xs) as [ys'|e''] eqn:Hxs; [discriminate |].
        intros [= <-].
        destruct (proj1 (IH e'') eq_refl) as (pre & x' & post & -> & Hx' & Hpre).
        exists (x :: pre), x', post. split; [reflexivity |]. split; [exact Hx' |].
        constructor; [now rewrite Hx | exact Hpre].
      * intros [= <-]. exists [], x, xs. auto.
    + intros (pre & x' & post & Heq & Hx' & Hpre).
      destruct pre as [|p pre]; cbn in Heq; inversion Heq; subst.
      * now rewrite Hx'.
      * inversion Hpre; subst. destruct (f p); [|discriminate].
        assert (Hr : traverse f (pre ++ x' :: post) = Raise e)
          by (apply IH; exists pre, x', post; auto).
        now rewrite Hr.
Qed.

End Traverse.

(** ** The parameters handed to the network: [_get_model_params] *)

Section ModelParams.

(** Collecting [(k, f k)] over a list of names, as the dict comprehensions
    of [_get_model_params] and the dict display of [_get_diffusion_params]
    do: the dict holds [f k] at every listed name and nothing else. *)
Lemma collect_lookup (f : string -> result pyval) ks kvs :
  traverse (fun k => match f k with
                     | Ok v => Ok (k, v)
                     | Raise e => Raise e
                     end) ks = Ok kvs ->
  forall k, (list_to_map kvs : gmap string pyval) !! k
            = if bool_decide (k ∈ ks)
              then match f k with Ok v => Some v | Raise _ => None end
              else None.
Proof.
  intros H. apply traverse_ok in H.
  induction H as [|k0 kv ks kvs Hk _ IH]; intros k.
  - rewrite list_to_map_nil, lookup_empty.
    now rewrite bool_decide_eq_false_2 by apply not_elem_of_nil.
  - destruct kv as [k1 v]. destruct (f k0) as [v0|e] eqn:Hf; [|discriminate].
    inversion Hk; subst k1 v0. clear Hk.
    rewrite list_to_map_cons, lookup_insert.
    destruct (decide (k0 = k)) as [<- | Hne].
    + rewrite bool_decide_eq_true_2 by (apply elem_of_cons; now left). now rewrite Hf.
    + rewrite IH. apply (f_equal (fun b : bool => if b then _ else _)).
      apply bool_decide_ext. rewrite elem_of_cons.
      split; [now right | intros [?|?]; [congruence | assumption]].
Qed.

Lemma collect_raise (f : string -> result pyval) ks e :
  traverse (fun k => match f k with
                     | Ok v => Ok (k, v)
                     | Raise e => Raise e
                     end) ks = Raise e ->
  exists pre k post, ks = pre ++ k :: post /\ f k = Raise e
                     /\ Forall (fun k' => is_ok (f k') = true) pre.
Proof.
  intros H. apply traverse_raise in H as (pre & k & post & -> & Hk & Hpre).
  exists pre, k, post. split; [reflexivity |]. split.
  - cbn beta in Hk. destruct (f k); [discriminate | congruence].
  - eapply Forall_impl; [exact Hpre |]. intros k'. cbn. now destruct (f k').
Qed.

Lemma collect_present (h : gmap string pyval) ks kvs :
  traverse (fun k => match getitem h k with
                     | Ok v => Ok (k, v)
                     | Raise e => Raise e
                     end) ks = Ok kvs ->
  Forall (fun k => is_Some (h !! k)) ks.
Proof.
  intros H. apply traverse_ok in H.
  induction H as [|k kv ks kvs Hk _ IH]; constructor; [|exact IH].
  unfold getitem in Hk. destruct (h !! k); [eauto | discriminate].
Qed.

Lemma generator_own_params (B : GraphDIT.Backend)
    (self : GraphDIT.Generator (GraphDIT.Net B) (GraphDIT.TM B)) :
  GraphDIT._get_model_params B self None
  = Ok (list_to_map
          [ ("max_node", PInt (GraphDIT.max_node self));
            ("hidden_size", PInt (GraphDIT.hidden_size (GraphDIT.config self)));
            ("num_layer", PInt (GraphDIT.num_layer (GraphDIT.config self)));
            ("num_head", PInt (GraphDIT.num_head (GraphDIT.config self)));
            ("mlp_ratio", PFloat (GraphDIT.mlp_ratio (GraphDIT.config self)));
            ("dropout", PFloat (GraphDIT.dropout (GraphDIT.config self)));
            ("drop_condition", PFloat (GraphDIT.drop_condition (GraphDIT.config self)));
            ("X_dim", PInt (Z.of_nat (GraphDIT.X_dim (GraphDIT.config self))));
            ("E_dim", PInt (Z.of_nat (GraphDIT.E_dim (GraphDIT.config self))));
            ("y_dim", PInt (GraphDIT.y_dim (GraphDIT.config self)));
            ("task_type", PList (map PStr (GraphDIT.task_type (GraphDIT.config self)))) ]).
Proof. reflexivity. Qed.

Lemma default_lookup (h : gmap string pyval) (own : list (string * pyval)) :
  traverse (fun '(k, dflt) =>
              match dict_get (PDict h) k dflt with
              | Ok v => Ok (k, v)
              | Raise e => Raise e
              end) own
  = Ok (map (fun '(k, dflt) => (k, default dflt (h !! k))) own).
Proof.
  induction own as [|[k dflt] own IH]; [reflexivity |].
  rewrite traverse_cons, IH. reflexivity.
Qed.

Lemma list_to_map_defaults (h : gmap string pyval) (own : list (string * pyval)) k :
  (list_to_map (map (fun '(k, dflt) => (k, default dflt (h !! k))) own)
     : gmap string pyval) !! k
  = (fun dflt => default dflt (h !! k)) <$> (list_to_map own : gmap string pyval) !! k.
Proof.
  induction own as [|[k0 dflt] own IH];
    [cbn [map]; now rewrite list_to_map_nil, !lookup_empty |].
  cbn [map]. rewrite !list_to_map_cons, !lookup_insert.
  destruct (decide (k0 = k)) as [<- | Hne]; [reflexivity | exact IH].
Qed.

Lemma list_to_map_keys (kvs : list (string * pyval)) k :
  is_Some ((list_to_map kvs : gmap string pyval) !! k) -> k ∈ kvs.*1.
Proof.
  intros H. destruct (decide (k ∈ kvs.*1)) as [|Hk]; [assumption |].
  apply not_elem_of_list_to_map_1 in Hk. rewrite Hk in H. now destruct H.
Qed.

Lemma generator_params_listed :
  Forall (fun k => k ∈ GraphDITMethods._get_param_names) GraphDITMethods.params.
Proof. apply (bool_decide_unpack _). vm_compute. exact I. Qed.

Lemma encoder_params_listed :
  Forall (fun k => k ∈ ContextPredMethods._get_param_names)
    [ "num_layer"; "hidden_size"; "num_task"; "drop_ratio"; "norm_layer"; "readout";
      "encoder_type"; "mode"; "csize"; "neg_samples" ].
Proof. apply (bool_decide_unpack _). vm_compute. exact I. Qed.

End ModelParams.

(** X1. Round trip of the model parameters, in the generator and in the
    encoder: when a checkpoint stores under [hyperparameters] the dict that
    [_get_model_params()] returns, [_get_model_params(checkpoint)] returns
    that same dict. *)
Theorem model_params_round_trip
    (Bg : GraphDIT.Backend) (Be : ContextPred.Backend)
    (g : GraphDIT.Generator (GraphDIT.Net Bg) (GraphDIT.TM Bg))
    (e : ContextPred.Encoder (ContextPred.Net Be))
    (own_g own_e ckpt_g ckpt_e : gmap string pyval) :
  GraphDIT._get_model_params Bg g None = Ok own_g ->
  ContextPred._get_model_params Be e None = Ok own_e ->
  ckpt_g !! "hyperparameters" = Some (PDict own_g) ->
  ckpt_e !! "hyperparameters" = Some (PDict own_e) ->
  GraphDIT._get_model_params Bg g (Some ckpt_g) = Ok own_g
  /\ ContextPred._get_model_params Be e (Some ckpt_e) = Ok own_e.
Proof.
  intros Hg He Hcg Hce. split.
  - rewrite generator_own_params in Hg. injection Hg as <-.
    unfold GraphDIT._get_model_params. rewrite Hcg. reflexivity.
  - unfold ContextPred._get_model_params in He. injection He as <-.
    unfold ContextPred._get_model_params. rewrite Hce. reflexivity.
Qed.

Lemma model_params_round_trip_witness :
  GraphDIT._get_model_params Demo.generator_backend (Demo.fresh_generator None) None
  = Ok Cases.generator_params
  /\ ContextPred._get_model_params Demo.encoder_backend (Demo.fresh_encoder None) None
     = Ok Cases.encoder_params
  /\ Cases.generator_checkpoint !! "hyperparameters" = Some (PDict Cases.generator_params)
  /\ Cases.encoder_checkpoint !! "hyperparameters" = Some (PDict Cases.encoder_params)
  /\ GraphDIT._get_model_params Demo.generator_backend (Demo.fresh_generator None)
       (Some Cases.generator_checkpoint)
     = Ok Cases.generator_params
  /\ ContextPred._get_model_params Demo.encoder_backend (Demo.fresh_encoder None)
       (Some Cases.encoder_checkpoint)
     = Ok Cases.encoder_params.
Proof.
  assert (Hg : GraphDIT._get_model_params Demo.generator_backend
                 (Demo.fresh_generator None) None = Ok Cases.generator_params)
    by reflexivity.
  assert (He : ContextPred._get_model_params Demo.encoder_backend
                 (Demo.fresh_encoder None) None = Ok Cases.encoder_params)
    by reflexivity.
  assert (Hcg : Cases.generator_checkpoint !! "hyperparameters"
                = Some (PDict Cases.generator_params)) by (vm_compute; reflexivity).
  assert (Hce : Cases.encoder_checkpoint !! "hyperparameters"
                = Some (PDict Cases.encoder_params)) by (vm_compute; reflexivity).
  exact (conj Hg (conj He (conj Hcg (conj Hce
           (model_params_round_trip Demo.generator_backend Demo.encoder_backend
              (Demo.fresh_generator None) (Demo.fresh_encoder None)
              Cases.generator_params Cases.encoder_params
              Cases.generator_checkpoint Cases.encoder_checkpoint Hg He Hcg Hce))))).
Defined.

(** X2. [_get_model_params(checkpoint)] of the generator reads the eleven
    names of [params] from [checkpoint["hyperparameters"]] and from nowhere
    else.  When it returns, every name is a key of the hyperparameters and
    the result holds exactly their values at these names; otherwise it
    raises [KeyError] for the first name, in the order of [params], that the
    hyperparameters lack.  The attributes of the estimator are never a
    fallback. *)
Theorem generator_params_from_checkpoint
    (B : GraphDIT.Backend)
    (self : GraphDIT.Generator (GraphDIT.Net B) (GraphDIT.TM B))
    (ckpt h : gmap string pyval) :
  ckpt !! "hyperparameters" = Some (PDict h) ->
  match GraphDIT._get_model_params B self (Some ckpt) with
  | Ok m =>
      Forall (fun k => is_Some (h !! k)) GraphDITMethods.params
      /\ forall k, m !! k = if bool_decide (k ∈ GraphDITMethods.params)
                            then h !! k else None
  | Raise e =>
      exists pre k post,
        GraphDITMethods.params = pre ++ k :: post
        /\ e = KeyError k /\ h !! k = None
        /\ Forall (fun k' => is_Some (h !! k')) pre
  end.
Proof.
  intros Hh. unfold GraphDIT._get_model_params. rewrite Hh.
  fold GraphDITMethods.params. cbn [subscript].
  destruct (traverse _ GraphDITMethods.params) as [kvs|e] eqn:Hcollect.
  - split.
    + exact (collect_present _ _ _ Hcollect).
    + intros k. rewrite (collect_lookup _ _ _ Hcollect k).
      destruct (bool_decide _); [|reflexivity].
      unfold getitem. now destruct (h !! k).
  - apply collect_raise in Hcollect as (pre & k & post & Hsplit & Hk & Hpre).
    exists pre, k, post. split; [exact Hsplit |].
    unfold getitem in Hk. destruct (h !! k) eqn:Hlook; [discriminate |].
    split; [congruence |]. split; [reflexivity |].
    eapply Forall_impl; [exact Hpre |]. intros k'. cbn. unfold getitem.
    destruct (h !! k'); [eauto | discriminate].
Qed.

Lemma generator_params_from_checkpoint_witness :
  Demo.checkpoint1 !! "hyperparameters" = Some (PDict Cases.hyperparameters1)
  /\ GraphDIT._get_model_params Demo.generator_backend (Demo.fresh_generator None)
       (Some Demo.checkpoint1)
     = Raise (KeyError "hidden_size")
  /\ match GraphDIT._get_model_params Demo.generator_backend (Demo.fresh_generator None)
             (Some Demo.checkpoint1) with
     | Ok m =>
         Forall (fun k => is_Some (Cases.hyperparameters1 !! k)) GraphDITMethods.params
         /\ forall k, m !! k = if bool_decide (k ∈ GraphDITMethods.params)
                               then Cases.hyperparameters1 !! k else None
     | Raise e =>
         exists pre k post,
           GraphDITMethods.params = pre ++ k :: post
           /\ e = KeyError k /\ Cases.hyperparameters1 !! k = None
           /\ Forall (fun k' => is_Some (Cases.hyperparameters1 !! k')) pre
     end.
Proof.
  assert (H : Demo.checkpoint1 !! "hyperparameters" = Some (PDict Cases.hyperparameters1))
    by (vm_compute; reflexivity).
  split; [exact H |]. split; [reflexivity |].
  exact (generator_params_from_checkpoint Demo.generator_backend
           (Demo.fresh_generator None) Demo.checkpoint1 Cases.hyperparameters1 H).
Defined.

(** X3. [_get_model_params(checkpoint)] of the encoder never fails on a
    checkpoint whose [hyperparameters] is a dict: at each of its ten names
    it returns the checkpoint's value when the name is a key, and the
    estimator's own attribute otherwise. *)
Theorem encoder_params_from_checkpoint
    (B : ContextPred.Backend) (self : ContextPred.Encoder (ContextPred.Net B))
    (ckpt h own : gmap string pyval) :
  ckpt !! "hyperparameters" = Some (PDict h) ->
  ContextPred._get_model_params B self None = Ok own ->
  exists m,
    ContextPred._get_model_params B self (Some ckpt) = Ok m
    /\ forall k, m !! k = (fun dflt => default dflt (h !! k)) <$> own !! k.
Proof.
  intros Hh Hown. unfold ContextPred._get_model_params in *. rewrite Hh.
  injection Hown as <-. rewrite default_lookup.
  eexists. split; [reflexivity |]. intros k. apply list_to_map_defaults.
Qed.

Lemma encoder_params_from_checkpoint_witness :
  Cases.deeper_checkpoint !! "hyperparameters" = Some (PDict Cases.deeper_hyperparameters)
  /\ ContextPred._get_model_params Demo.encoder_backend (Demo.fresh_encoder None) None
     = Ok Cases.encoder_params
  /\ ContextPred._get_model_params Demo.encoder_backend (Demo.fresh_encoder None)
       (Some Cases.deeper_checkpoint)
     = Ok (<["num_layer" := PInt 5]> Cases.encoder_params)
  /\ exists m,
       ContextPred._get_model_params Demo.encoder_backend (Demo.fresh_encoder None)
         (Some Cases.deeper_checkpoint) = Ok m
       /\ forall k, m !! k = (fun dflt => default dflt (Cases.deeper_hyperparameters !! k))
                               <$> Cases.encoder_params !! k.
Proof.
  assert (H : Cases.deeper_checkpoint !! "hyperparameters"
              = Some (PDict Cases.deeper_hyperparameters)) by (vm_compute; reflexivity).
  assert (Hown : ContextPred._get_model_params Demo.encoder_backend
                   (Demo.fresh_encoder None) None = Ok Cases.encoder_params)
    by reflexivity.
  split; [exact H |]. split; [exact Hown |]. split; [reflexivity |].
  exact (encoder_params_from_checkpoint Demo.encoder_backend (Demo.fresh_encoder None)
           Cases.deeper_checkpoint Cases.deeper_hyperparameters Cases.encoder_params
           H Hown).
Defined.

(** X4. Every key of a dict returned by [_get_model_params], with or
    without a checkpoint, is one of the names listed by
    [_get_param_names()], in the generator and in the encoder. *)
Theorem model_params_are_parameter_names
    (Bg : GraphDIT.Backend) (Be : ContextPred.Backend)
    (g : GraphDIT.Generator (GraphDIT.Net Bg) (GraphDIT.TM Bg))
    (e : ContextPred.Encoder (ContextPred.Net Be))
    (checkpoint_g checkpoint_e : option (gmap string pyval))
    (params_g params_e : gmap string pyval) :
  GraphDIT._get_model_params Bg g checkpoint_g = Ok params_g ->
  ContextPred._get_model_params Be e checkpoint_e = Ok params_e ->
  (forall k, is_Some (params_g !! k) -> k ∈ GraphDITMethods._get_param_names)
  /\ (forall k, is_Some (params_e !! k) -> k ∈ ContextPredMethods._get_param_names).
Proof.
  intros Hg He. split; intros k Hk.
  - assert (Hin : k ∈ GraphDITMethods.params).
    { unfold GraphDIT._get_model_params in Hg. fold GraphDITMethods.params in Hg.
      destruct checkpoint_g as [ckpt|].
      - destruct (ckpt !! "hyperparameters") as [h|]; [|discriminate].
        destruct (traverse _ GraphDITMethods.params) as [kvs|] eqn:Hc; [|discriminate].
        injection Hg as <-. rewrite (collect_lookup _ _ _ Hc) in Hk.
        destruct (bool_decide (k ∈ GraphDITMethods.params)) eqn:Hb;
          [now apply bool_decide_eq_true in Hb | now destruct Hk].
      - destruct (traverse _ GraphDITMethods.params) as [kvs|] eqn:Hc; [|discriminate].
        injection Hg as <-. rewrite (collect_lookup _ _ _ Hc) in Hk.
        destruct (bool_decide (k ∈ GraphDITMethods.params)) eqn:Hb;
          [now apply bool_decide_eq_true in Hb | now destruct Hk]. }
    pose proof generator_params_listed as Hall. rewrite Forall_forall in Hall. auto.
  - assert (Hin : k ∈ [ "num_layer"; "hidden_size"; "num_task"; "drop_ratio";
                        "norm_layer"; "readout"; "encoder_type"; "mode"; "csize";
                        "neg_samples" ]).
    { unfold ContextPred._get_model_params in He.
      destruct checkpoint_e as [ckpt|].
      - destruct (ckpt !! "hyperparameters") as [h|]; [|discriminate].
        destruct h as [| | | | | |h| | |]; try discriminate.
        rewrite default_lookup in He.
        match type of He with Ok ?m = _ => set (m0 := m) in He end.
        injection He as <-. subst m0.
        rewrite list_to_map_defaults in Hk. apply fmap_is_Some in Hk.
        apply list_to_map_keys in Hk. exact Hk.
      - match type of He with Ok ?m = _ => set (m0 := m) in He end.
        injection He as <-. subst m0. apply list_to_map_keys in Hk. exact Hk. }
    pose proof encoder_params_listed as Hall. rewrite Forall_forall in Hall. auto.
Qed.

Lemma model_params_are_parameter_names_witness :
  GraphDIT._get_model_params Demo.generator_backend (Demo.fresh_generator None) None
  = Ok Cases.generator_params
  /\ ContextPred._get_model_params Demo.encoder_backend (Demo.fresh_encoder None) None
     = Ok Cases.encoder_params
  /\ (forall k, is_Some (Cases.generator_params !! k) ->
                k ∈ GraphDITMethods._get_param_names)
  /\ (forall k, is_Some (Cases.encoder_params !! k) ->
                k ∈ ContextPredMethods._get_param_names).
Proof.
  assert (Hg : GraphDIT._get_model_params Demo.generator_backend
                 (Demo.fresh_generator None) None = Ok Cases.generator_params)
    by reflexivity.
  assert (He : ContextPred._get_model_params Demo.encoder_backend
                 (Demo.fresh_encoder None) None = Ok Cases.encoder_params)
    by reflexivity.
  exact (conj Hg (conj He
           (model_params_are_parameter_names Demo.generator_backend Demo.encoder_backend
              (Demo.fresh_generator None) (Demo.fresh_encoder None) None None
              Cases.generator_params Cases.encoder_params Hg He))).
Defined.

(** ** The diffusion set-up: [_get_diffusion_params] and [setup_diffusion_params] *)

Section DiffusionSetup.
Context (B : GraphDIT.Backend).


(** What [_get_diffusion_params] returns on a checkpoint. *)
Lemma get_diffusion_params_dict
    (self self' : GraphDIT.Generator (GraphDIT.Net B) (GraphDIT.TM B)) d p :
  GraphDIT._get_diffusion_params B self (GraphDIT.InputDict d) = Ok (self', p) ->
  exists h info t m,
    d !! "hyperparameters" = Some (PDict h)
    /\ h !! "dataset_info" = Some (PDict info)
    /\ h !! "timesteps" = Some t
    /\ h !! "max_node" = Some m
    /\ self' = GraphDIT.mkGenerator (GraphDIT.config self) (GraphDIT.timesteps self)
                 (GraphDIT.max_node self) info (GraphDIT.model self)
                 (GraphDIT.transition_model self) (GraphDIT.limit_dist self)
                 (GraphDIT.noise_schedule self) (GraphDIT.atom_decoder self)
                 (GraphDIT.fitting_loss self) (GraphDIT.fitting_epoch self)
                 (GraphDIT.is_fitted_ self)
    /\ p !! "timesteps" = Some t
    /\ p !! "max_node" = Some m
    /\ Forall (fun k => is_Some (info !! k) /\ p !! k = info !! k)
         [ "active_index"; "x_margins"; "e_margins"; "xe_conditions";
           "atom_decoder"; "node_dist" ].
Proof.
  unfold GraphDIT._get_diffusion_params, subscript, getitem. intros H.
  destruct (d !! "hyperparameters") as [[| | | | | |h| | |]|] eqn:Hh;
    try discriminate.
  destruct (h !! "dataset_info") as [info|] eqn:Hinfo;
    destruct (h !! "timesteps") as [t|] eqn:Ht;
    destruct (h !! "max_node") as [m|] eqn:Hm;
    try discriminate; try (destruct info; discriminate).
  destruct info as [| | | | | |info| | |]; try discriminate.
  fold (getitem info) in H.
  destruct (traverse _ _) as [kvs|e] eqn:Hcollect; [|discriminate].
  injection H as <- <-.
  exists h, info, t, m. repeat (split; [reflexivity || assumption |]).
  split; [now rewrite lookup_insert_eq |].
  split; [rewrite lookup_insert_ne by discriminate; now rewrite lookup_insert_eq |].
  pose proof (collect_present _ _ _ Hcollect) as Hpresent.
  pose proof (collect_lookup _ _ _ Hcollect) as Hlook.
  rewrite Forall_forall in Hpresent |- *. intros k Hk.
  split; [now apply Hpresent |].
  assert (k <> "timesteps" /\ k <> "max_node") as [Hk1 Hk2].
  { revert Hk. rewrite !elem_of_cons, elem_of_nil.
    intros [->|[->|[->|[->|[->|[->| []]]]]]]; split; discriminate. }
  rewrite !lookup_insert_ne by congruence.
  rewrite Hlook. rewrite bool_decide_eq_true_2 by exact Hk.
  unfold getitem. now destruct (info !! k).
Qed.

(** The values [setup_diffusion_params] works with, on a checkpoint. *)
Lemma setup_dict (self self' : GraphDIT.Generator (GraphDIT.Net B) (GraphDIT.TM B))
    d :
  GraphDIT.setup_diffusion_params B self (GraphDIT.InputDict d) = Ok self' ->
  exists h info T N active_index mx me xe xe' ex',
    d !! "hyperparameters" = Some (PDict h)
    /\ h !! "dataset_info" = Some (PDict info)
    /\ h !! "timesteps" = Some (PInt T)
    /\ h !! "max_node" = Some (PInt N)
    /\ Forall (fun k => is_Some (info !! k))
         [ "active_index"; "x_margins"; "e_margins"; "xe_conditions";
           "atom_decoder"; "node_dist" ]
    /\ info !! "active_index" = Some active_index
    /\ info !! "x_margins" = Some mx
    /\ info !! "e_margins" = Some me
    /\ info !! "xe_conditions" = Some xe
    /\ GraphDIT.conditions B xe active_index = Ok (xe', ex')
    /\ exists x_limit e_limit,
         GraphDIT.normalized mx = Ok x_limit
         /\ GraphDIT.normalized me = Ok e_limit
         /\ self' = GraphDIT.mkGenerator (GraphDIT.config self) T N info
                      (GraphDIT.model self)
                      (Some (GraphDIT.MarginalTransition B x_limit e_limit xe' ex'
                               (GraphDIT.y_dim (GraphDIT.config self)) N))
                      (Some (GraphDIT.mkLimitDist x_limit e_limit)) (Some T)
                      (GraphDIT.atom_decoder self) (GraphDIT.fitting_loss self)
                      (GraphDIT.fitting_epoch self) (GraphDIT.is_fitted_ self).
Proof.
  unfold GraphDIT.setup_diffusion_params, mbind, result_bind, mret, result_ret.
  intros H.
  destruct (GraphDIT._get_diffusion_params B self (GraphDIT.InputDict d))
    as [[s1 p]|] eqn:Hp; [|discriminate].
  apply get_diffusion_params_dict in Hp
    as (h & info & t & m & Hh & Hinfo & Ht & Hm & -> & Hpt & Hpm & Hstats).
  pose proof Hstats as Hall. rewrite Forall_forall in Hall.
  assert (Hin : forall k, k ∈ [ "active_index"; "x_margins"; "e_margins";
                                "xe_conditions"; "atom_decoder"; "node_dist" ] ->
                          p !! k = info !! k) by (intros k Hk; now apply Hall).
  unfold getitem in H. rewrite Hpt, Hpm in H.
  rewrite !Hin in H by (rewrite !elem_of_cons; tauto).
  destruct t as [| |T| | | | | | |]; try discriminate. cbn [GraphDIT.as_int] in H.
  destruct m as [| |N| | | | | | |]; try discriminate. cbn [GraphDIT.as_int] in H.
  destruct (info !! "active_index") as [active_index|] eqn:Hai; [|discriminate].
  destruct (info !! "x_margins") as [mx|] eqn:Hmx; [|discriminate].
  destruct (GraphDIT.normalized mx) as [x_limit|] eqn:Hxl; [|discriminate].
  destruct (info !! "e_margins") as [me|] eqn:Hme; [|discriminate].
  destruct (GraphDIT.normalized me) as [e_limit|] eqn:Hel; [|discriminate].
  destruct (info !! "xe_conditions") as [xe|] eqn:Hxe; [|discriminate].
  destruct (GraphDIT.conditions B xe active_index) as [[xe' ex']|] eqn:Hcond;
    [|discriminate].
  injection H as <-.
  exists h, info, T, N, active_index, mx, me, xe, xe', ex'.
  repeat (split; [reflexivity || assumption |]).
  split; [eapply Forall_impl; [exact Hstats | now intros k [? _]] |].
  repeat (split; [reflexivity || assumption |]).
  exists x_limit, e_limit. auto.
Qed.

End DiffusionSetup.

(** X5. On a list of SMILES [_get_diffusion_params] fills [dataset_info]
    with [None]s, so [setup_diffusion_params] raises [AttributeError] at
    [x_margins.sum()]; hence [fit] on a list never trains: it stops there as
    soon as the network has been built. *)
Theorem fit_on_smiles_list_stops_in_setup
    (B : GraphDIT.Backend)
    (self : GraphDIT.Generator (GraphDIT.Net B) (GraphDIT.TM B))
    (smiles : list string) (y : option (list (list Q))) (w : World) :
  GraphDIT.setup_diffusion_params B self (GraphDIT.InputList smiles)
  = Raise (AttributeError "sum")
  /\ GraphDIT.fit B self (GraphDIT.InputList smiles) y w
     = match GraphDIT.initialize_model B self (w_rng w) with
       | (Ok _, g) => (Raise (AttributeError "sum"), mkWorld g (w_log w))
       | (Raise e, g) => (Raise e, mkWorld g (w_log w))
       end.
Proof.
  split; [reflexivity |].
  unfold GraphDIT.fit, GraphDIT.fit_prepare, mbind, M_bind, bind, with_rng.
  destruct (GraphDIT.initialize_model B self (w_rng w)) as [[net|e] g]; reflexivity.
Qed.

(** X6. A call of [setup_diffusion_params] on a checkpoint that returns has
    taken [timesteps], [max_node] and [dataset_info] from the checkpoint's
    hyperparameters (the values given to the constructor are overwritten),
    has built the noise schedule for these [timesteps], the transition model
    and the limit distribution, and has left the configuration, the network,
    [atom_decoder] and the training history as they were. *)
Theorem setup_takes_checkpoint_values
    (B : GraphDIT.Backend)
    (self self' : GraphDIT.Generator (GraphDIT.Net B) (GraphDIT.TM B))
    (d : gmap string pyval) :
  GraphDIT.setup_diffusion_params B self (GraphDIT.InputDict d) = Ok self' ->
  exists h,
    d !! "hyperparameters" = Some (PDict h)
    /\ h !! "timesteps" = Some (PInt (GraphDIT.timesteps self'))
    /\ h !! "max_node" = Some (PInt (GraphDIT.max_node self'))
    /\ h !! "dataset_info" = Some (PDict (GraphDIT.dataset_info self'))
    /\ GraphDIT.noise_schedule self' = Some (GraphDIT.timesteps self')
    /\ is_Some (GraphDIT.transition_model self')
    /\ is_Some (GraphDIT.limit_dist self')
    /\ GraphDIT.config self' = GraphDIT.config self
    /\ GraphDIT.model self' = GraphDIT.model self
    /\ GraphDIT.atom_decoder self' = GraphDIT.atom_decoder self
    /\ GraphDIT.fitting_loss self' = GraphDIT.fitting_loss self
    /\ GraphDIT.fitting_epoch self' = GraphDIT.fitting_epoch self
    /\ GraphDIT.is_fitted_ self' = GraphDIT.is_fitted_ self.
Proof.
  intros H. apply setup_dict in H
    as (h & info & T & N & ai & mx & me & xe & xe' & ex' & Hh & Hinfo & HT & HN & _
        & _ & _ & _ & _ & _ & x_limit & e_limit & _ & _ & ->).
  exists h. cbn. repeat (split; [assumption || reflexivity || eauto |]). reflexivity.
Qed.

Lemma setup_takes_checkpoint_values_witness :
  GraphDIT.setup_diffusion_params Demo.generator_backend (Demo.fresh_generator None)
    (GraphDIT.InputDict Demo.checkpoint1)
  = Ok Demo.generator_after_setup
  /\ GraphDIT.timesteps (Demo.fresh_generator None) = 500%Z
  /\ GraphDIT.timesteps Demo.generator_after_setup = 2%Z
  /\ exists h,
       Demo.checkpoint1 !! "hyperparameters" = Some (PDict h)
       /\ h !! "timesteps" = Some (PInt (GraphDIT.timesteps Demo.generator_after_setup))
       /\ h !! "max_node" = Some (PInt (GraphDIT.max_node Demo.generator_after_setup))
       /\ h !! "dataset_info"
          = Some (PDict (GraphDIT.dataset_info Demo.generator_after_setup))
       /\ GraphDIT.noise_schedule Demo.generator_after_setup
          = Some (GraphDIT.timesteps Demo.generator_after_setup)
       /\ is_Some (GraphDIT.transition_model Demo.generator_after_setup)
       /\ is_Some (GraphDIT.limit_dist Demo.generator_after_setup)
       /\ GraphDIT.config Demo.generator_after_setup
          = GraphDIT.config (Demo.fresh_generator None)
       /\ GraphDIT.model Demo.generator_after_setup
          = GraphDIT.model (Demo.fresh_generator None)
       /\ GraphDIT.atom_decoder Demo.generator_after_setup
          = GraphDIT.atom_decoder (Demo.fresh_generator None)
       /\ GraphDIT.fitting_loss Demo.generator_after_setup
          = GraphDIT.fitting_loss (Demo.fresh_generator None)
       /\ GraphDIT.fitting_epoch Demo.generator_after_setup
          = GraphDIT.fitting_epoch (Demo.fresh_generator None)
       /\ GraphDIT.is_fitted_ Demo.generator_after_setup
          = GraphDIT.is_fitted_ (Demo.fresh_generator None).
Proof.
  assert (H : GraphDIT.setup_diffusion_params Demo.generator_backend
                (Demo.fresh_generator None) (GraphDIT.InputDict Demo.checkpoint1)
              = Ok Demo.generator_after_setup) by (vm_compute; reflexivity).
  split; [exact H |]. split; [reflexivity |]. split; [reflexivity |].
  exact (setup_takes_checkpoint_values Demo.generator_backend (Demo.fresh_generator None)
           Demo.generator_after_setup Demo.checkpoint1 H).
Defined.



(** X8. [setup_diffusion_params] needs all six statistics in the
    checkpoint's [dataset_info], also [atom_decoder] and [node_dist], which
    it does not use itself: when one is missing it raises [KeyError] for the
    first missing one, in the order in which [_get_diffusion_params] reads
    them. *)
Theorem setup_needs_every_statistic
    (B : GraphDIT.Backend)
    (self : GraphDIT.Generator (GraphDIT.Net B) (GraphDIT.TM B))
    (d h info : gmap string pyval) (k : string) :
  d !! "hyperparameters" = Some (PDict h) ->
  h !! "dataset_info" = Some (PDict info) ->
  is_Some (h !! "timesteps") ->
  is_Some (h !! "max_node") ->
  k ∈ [ "active_index"; "x_margins"; "e_margins"; "xe_conditions";
        "atom_decoder"; "node_dist" ] ->
  info !! k = None ->
  exists pre k' post,
    [ "active_index"; "x_margins"; "e_margins"; "xe_conditions";
      "atom_decoder"; "node_dist" ] = pre ++ k' :: post
    /\ Forall (fun k'' => is_Some (info !! k'')) pre
    /\ info !! k' = None
    /\ GraphDIT.setup_diffusion_params B self (GraphDIT.InputDict d)
       = Raise (KeyError k').
Proof.
  intros Hh Hinfo [t Ht] [m Hm] Hk Hnone.
  assert (Hp : GraphDIT._get_diffusion_params B self (GraphDIT.InputDict d)
               = match traverse (fun k => match getitem info k with
                                          | Ok v => Ok (k, v)
                                          | Raise e => Raise e
                                          end)
                         [ "active_index"; "x_margins"; "e_margins"; "xe_conditions";
                           "atom_decoder"; "node_dist" ] with
                 | Raise e => Raise e
                 | Ok kvs =>
                     Ok (GraphDIT.mkGenerator (GraphDIT.config self)
                           (GraphDIT.timesteps self) (GraphDIT.max_node self) info
                           (GraphDIT.model self) (GraphDIT.transition_model self)
                           (GraphDIT.limit_dist self) (GraphDIT.noise_schedule self)
                           (GraphDIT.atom_decoder self) (GraphDIT.fitting_loss self)
                           (GraphDIT.fitting_epoch self) (GraphDIT.is_fitted_ self),
                         <["timesteps" := t]> (<["max_node" := m]> (list_to_map kvs)))
                 end).
  { unfold GraphDIT._get_diffusion_params, subscript, getitem.
    rewrite Hh, Hinfo, Ht, Hm. reflexivity. }
  unfold GraphDIT.setup_diffusion_params. rewrite Hp. clear Hp.
  destruct (traverse _ _) as [kvs|e] eqn:Hcollect.
  - apply collect_present in Hcollect. rewrite Forall_forall in Hcollect.
    destruct (Hcollect k Hk) as [v Hv]. congruence.
  - apply collect_raise in Hcollect as (pre & k' & post & Hsplit & Hk' & Hpre).
    unfold getitem in Hk'. destruct (info !! k') eqn:Hlook; [discriminate |].
    injection Hk' as <-.
    exists pre, k', post. split; [exact Hsplit |]. split.
    + eapply Forall_impl; [exact Hpre |]. intros k''. cbn. unfold getitem.
      destruct (info !! k''); [eauto | discriminate].
    + split; [exact Hlook | reflexivity].
Qed.

Lemma setup_needs_every_statistic_witness :
  Cases.checkpoint_without_node_dist !! "hyperparameters"
  = Some (PDict Cases.hyperparameters_without_node_dist)
  /\ Cases.hyperparameters_without_node_dist !! "dataset_info"
     = Some (PDict Cases.dataset_info_without_node_dist)
  /\ Cases.dataset_info_without_node_dist !! "node_dist" = None
  /\ exists pre k' post,
       [ "active_index"; "x_margins"; "e_margins"; "xe_conditions";
         "atom_decoder"; "node_dist" ] = pre ++ k' :: post
       /\ Forall (fun k'' => is_Some (Cases.dataset_info_without_node_dist !! k'')) pre
       /\ Cases.dataset_info_without_node_dist !! k' = None
       /\ GraphDIT.setup_diffusion_params Demo.generator_backend
            (Demo.fresh_generator None)
            (GraphDIT.InputDict Cases.checkpoint_without_node_dist)
          = Raise (KeyError k').
Proof.
  assert (Hh : Cases.checkpoint_without_node_dist !! "hyperparameters"
               = Some (PDict Cases.hyperparameters_without_node_dist))
    by (vm_compute; reflexivity).
  assert (Hinfo : Cases.hyperparameters_without_node_dist !! "dataset_info"
                  = Some (PDict Cases.dataset_info_without_node_dist))
    by (vm_compute; reflexivity).
  assert (Ht : is_Some (Cases.hyperparameters_without_node_dist !! "timesteps"))
    by (exists (PInt 2); vm_compute; reflexivity).
  assert (Hm : is_Some (Cases.hyperparameters_without_node_dist !! "max_node"))
    by (exists (PInt 2); vm_compute; reflexivity).
  assert (Hk : "node_dist" ∈ [ "active_index"; "x_margins"; "e_margins";
                               "xe_conditions"; "atom_decoder"; "node_dist" ])
    by (apply (bool_decide_unpack _); vm_compute; exact I).
  assert (Hnone : Cases.dataset_info_without_node_dist !! "node_dist" = None)
    by (vm_compute; reflexivity).
  exact (conj Hh (conj Hinfo (conj Hnone
           (setup_needs_every_statistic Demo.generator_backend (Demo.fresh_generator None)
              Cases.checkpoint_without_node_dist Cases.hyperparameters_without_node_dist
              Cases.dataset_info_without_node_dist "node_dist" Hh Hinfo Ht Hm Hk Hnone)))).
Defined.

(** ** [_setup_optimizers] *)

Section Optimizers.

Lemma clip_groups (lr wd v : Q) :
  let group : gmap string pyval :=
    setdefault "norm_type" (PFloat 2)
      (setdefault "max_norm" (PFloat v)
         {[ "lr" := PFloat lr; "weight_decay" := PFloat wd ]}) in
  group !! "lr" = Some (PFloat lr)
  /\ group !! "weight_decay" = Some (PFloat wd)
  /\ group !! "max_norm" = Some (PFloat v)
  /\ group !! "norm_type" = Some (PFloat 2).
Proof. cbv zeta. repeat split; vm_compute; reflexivity. Qed.

Lemma plain_groups (lr wd : Q) :
  let group : gmap string pyval :=
    {[ "lr" := PFloat lr; "weight_decay" := PFloat wd ]} in
  group !! "lr" = Some (PFloat lr)
  /\ group !! "weight_decay" = Some (PFloat wd)
  /\ group !! "max_norm" = None
  /\ group !! "norm_type" = None.
Proof. cbv zeta. repeat split; vm_compute; reflexivity. Qed.

End Optimizers.

(** X9. [_setup_optimizers], in the generator and in the encoder, on an
    estimator that has a network: it returns without touching the random
    generator or the log; every parameter group carries the learning rate
    and the weight decay; [max_norm] and [norm_type = 2.0] are set in every
    group exactly when [grad_clip_value] is not [None]; and a scheduler is
    returned exactly when [use_lr_scheduler] is set, built with
    [scheduler_factor] and [scheduler_patience]. *)
Theorem setup_optimizers_groups
    (Bg : GraphDIT.Backend) (Be : ContextPred.Backend)
    (g : GraphDIT.Generator (GraphDIT.Net Bg) (GraphDIT.TM Bg))
    (e : ContextPred.Encoder (ContextPred.Net Be)) (wg we : World) :
  is_Some (GraphDIT.model g) ->
  is_Some (ContextPred.model e) ->
  (exists optimizer scheduler,
      GraphDIT._setup_optimizers Bg g wg = (Ok (optimizer, scheduler), wg)
      /\ Forall (fun group =>
                   group !! "lr"
                   = Some (PFloat (GraphDIT.learning_rate (GraphDIT.config g)))
                   /\ group !! "weight_decay"
                      = Some (PFloat (GraphDIT.weight_decay (GraphDIT.config g)))
                   /\ group !! "max_norm"
                      = PFloat <$> GraphDIT.grad_clip_value (GraphDIT.config g)
                   /\ group !! "norm_type"
                      = (fun _ => PFloat 2) <$> GraphDIT.grad_clip_value (GraphDIT.config g))
           (param_groups optimizer)
      /\ scheduler
         = if GraphDIT.use_lr_scheduler (GraphDIT.config g)
           then Some (mkScheduler (GraphDIT.scheduler_factor (GraphDIT.config g))
                        (GraphDIT.scheduler_patience (GraphDIT.config g)))
           else None)
  /\ (exists optimizer scheduler,
         ContextPred._setup_optimizers Be e we = (Ok (optimizer, scheduler), we)
         /\ Forall (fun group =>
                      group !! "lr"
                      = Some (PFloat (ContextPred.learning_rate (ContextPred.config e)))
                      /\ group !! "weight_decay"
                         = Some (PFloat (ContextPred.weight_decay (ContextPred.config e)))
                      /\ group !! "max_norm"
                         = PFloat <$> ContextPred.grad_clip_value (ContextPred.config e)
                      /\ group !! "norm_type"
                         = (fun _ => PFloat 2)
                             <$> ContextPred.grad_clip_value (ContextPred.config e))
              (param_groups optimizer)
         /\ scheduler
            = if ContextPred.use_lr_scheduler (ContextPred.config e)
              then Some (mkScheduler (ContextPred.scheduler_factor (ContextPred.config e))
                           (ContextPred.scheduler_patience (ContextPred.config e)))
              else None).
Proof.
  intros [net_g Hg] [net_e He]. split.
  - unfold GraphDIT._setup_optimizers. rewrite Hg. do 2 eexists.
    split; [reflexivity |]. split; [|reflexivity]. cbn [param_groups].
    destruct (GraphDIT.grad_clip_value (GraphDIT.config g)) as [v|];
      cbn [map fmap option_fmap option_map]; (constructor; [|constructor]).
    + apply clip_groups.
    + apply plain_groups.
  - unfold ContextPred._setup_optimizers. rewrite He. do 2 eexists.
    split; [reflexivity |]. split; [|reflexivity]. cbn [param_groups].
    destruct (ContextPred.grad_clip_value (ContextPred.config e)) as [v|];
      cbn [map fmap option_fmap option_map]; (constructor; [|constructor]).
    + apply clip_groups.
    + apply plain_groups.
Qed.

Lemma setup_optimizers_groups_witness :
  is_Some (GraphDIT.model Demo.clipping_generator)
  /\ is_Some (ContextPred.model Demo.prepared_encoder)
  /\ (exists optimizer scheduler,
         GraphDIT._setup_optimizers Demo.generator_backend Demo.clipping_generator Demo.w0
         = (Ok (optimizer, scheduler), Demo.w0)
         /\ Forall (fun group =>
                      group !! "lr"
                      = Some (PFloat (GraphDIT.learning_rate
                                        (GraphDIT.config Demo.clipping_generator)))
                      /\ group !! "weight_decay"
                         = Some (PFloat (GraphDIT.weight_decay
                                           (GraphDIT.config Demo.clipping_generator)))
                      /\ group !! "max_norm"
                         = PFloat <$> GraphDIT.grad_clip_value
                                        (GraphDIT.config Demo.clipping_generator)
                      /\ group !! "norm_type"
                         = (fun _ => PFloat 2)
                             <$> GraphDIT.grad_clip_value
                                   (GraphDIT.config Demo.clipping_generator))
              (param_groups optimizer)
         /\ scheduler
            = if GraphDIT.use_lr_scheduler (GraphDIT.config Demo.clipping_generator)
              then Some (mkScheduler
                           (GraphDIT.scheduler_factor
                              (GraphDIT.config Demo.clipping_generator))
                           (GraphDIT.scheduler_patience
                              (GraphDIT.config Demo.clipping_generator)))
              else None)
  /\ (exists optimizer scheduler,
         ContextPred._setup_optimizers Demo.encoder_backend Demo.prepared_encoder Demo.w0
         = (Ok (optimizer, scheduler), Demo.w0)
         /\ Forall (fun group =>
                      group !! "lr"
                      = Some (PFloat (ContextPred.learning_rate
                                        (ContextPred.config Demo.prepared_encoder)))
                      /\ group !! "weight_decay"
                         = Some (PFloat (ContextPred.weight_decay
                                           (ContextPred.config Demo.prepared_encoder)))
                      /\ group !! "max_norm"
                         = PFloat <$> ContextPred.grad_clip_value
                                        (ContextPred.config Demo.prepared_encoder)
                      /\ group !! "norm_type"
                         = (fun _ => PFloat 2)
                             <$> ContextPred.grad_clip_value
                                   (ContextPred.config Demo.prepared_encoder))
              (param_groups optimizer)
         /\ scheduler
            = if ContextPred.use_lr_scheduler (ContextPred.config Demo.prepared_encoder)
              then Some (mkScheduler
                           (ContextPred.scheduler_factor
                              (ContextPred.config Demo.prepared_encoder))
                           (ContextPred.scheduler_patience
                              (ContextPred.config Demo.prepared_encoder)))
              else None).
Proof.
  assert (Hg : is_Some (GraphDIT.model Demo.clipping_generator))
    by (exists tt; reflexivity).
  assert (He : is_Some (ContextPred.model Demo.prepared_encoder))
    by (exists tt; reflexivity).
  exact (conj Hg (conj He
           (setup_optimizers_groups Demo.generator_backend Demo.encoder_backend
              Demo.clipping_generator Demo.prepared_encoder Demo.w0 Demo.w0 Hg He))).
Defined.

(** ** [_convert_to_pytorch_data] *)

Section Conversion.
Context (B : GraphDIT.Backend).

Lemma convert_step_property (y : option (list (list Q))) i smiles g :
  match y with
  | Some ys => property ← GraphDIT.item ys i; GraphDIT.to_graph B smiles (Some property)
  | None => GraphDIT.to_graph B smiles None
  end = Ok g ->
  GraphDIT.to_graph B smiles (ys ← y; ys !! i) = Ok g
  /\ forall ys, y = Some ys -> (i < length ys)%nat.
Proof.
  destruct y as [ys|]; cbn [mbind option_bind].
  - unfold GraphDIT.item. destruct (ys !! i) as [p|] eqn:Hp; [|discriminate].
    cbn [mbind result_bind]. intros H. split; [exact H |].
    intros ys' [= <-]. eapply lookup_lt_Some, Hp.
  - intros H. split; [exact H | discriminate].
Qed.

End Conversion.

(** X10. When [_convert_to_pytorch_data(X, y)] of the generator returns, it
    returns one graph per input, in order; graph [i] is the featurizer's
    result on [X[i]] with the property [y[i]] (with [None] when [y] is
    [None]); and [y], when given, has at least as many entries as [X]. *)
Theorem convert_matches_inputs
    (B : GraphDIT.Backend) (X : list string) (y : option (list (list Q)))
    (graphs : list (GraphDIT.Graph B)) :
  GraphDIT._convert_to_pytorch_data B X y = Ok graphs ->
  length graphs = length X
  /\ (forall ys, y = Some ys -> (length X <= length ys)%nat)
  /\ forall i smiles,
       X !! i = Some smiles ->
       exists g, graphs !! i = Some g
                 /\ GraphDIT.to_graph B smiles (ys ← y; ys !! i) = Ok g.
Proof.
  unfold GraphDIT._convert_to_pytorch_data. intros H.
  pose proof (traverse_length _ _ _ H) as Hlen. rewrite length_imap in Hlen.
  apply traverse_ok in H.
  assert (Hall : forall i smiles,
             X !! i = Some smiles ->
             exists g, graphs !! i = Some g
                       /\ GraphDIT.to_graph B smiles (ys ← y; ys !! i) = Ok g
                       /\ forall ys, y = Some ys -> (i < length ys)%nat).
  { intros i smiles Hi.
    assert (Hpair : imap pair X !! i = Some (i, smiles))
      by (rewrite list_lookup_imap, Hi; reflexivity).
    destruct (Forall2_lookup_l _ _ _ _ _ H Hpair) as (g & Hg & Hstep).
    apply convert_step_property in Hstep as [Hgraph Hbound]. eauto. }
  split; [exact Hlen |]. split.
  - intros ys ->. destruct (decide (length X = 0)%nat) as [-> | Hne]; [lia |].
    destruct (lookup_lt_is_Some_2 X (length X - 1)) as [smiles Hs]; [lia |].
    destruct (Hall _ _ Hs) as (g & _ & _ & Hb). specialize (Hb ys eq_refl). lia.
  - intros i smiles Hi. destruct (Hall _ _ Hi) as (g & Hg & Hgraph & _). eauto.
Qed.

Lemma convert_matches_inputs_witness :
  GraphDIT._convert_to_pytorch_data Demo.generator_backend ["C"; "CC"]
    (Some [[1%Q]; [2%Q]])
  = Ok [tt; tt]
  /\ length [tt; tt] = length ["C"; "CC"]
  /\ (forall ys, Some [[1%Q]; [2%Q]] = Some ys -> (length ["C"; "CC"] <= length ys)%nat)
  /\ forall i smiles,
       ["C"; "CC"] !! i = Some smiles ->
       exists g, [tt; tt] !! i = Some g
                 /\ GraphDIT.to_graph Demo.generator_backend smiles
                      (ys ← Some [[1%Q]; [2%Q]]; ys !! i) = Ok g.
Proof.
  assert (H : GraphDIT._convert_to_pytorch_data Demo.generator_backend ["C"; "CC"]
                (Some [[1%Q]; [2%Q]]) = Ok [tt; tt]) by (vm_compute; reflexivity).
  exact (conj H (convert_matches_inputs Demo.generator_backend ["C"; "CC"]
                   (Some [[1%Q]; [2%Q]]) [tt; tt] H)).
Defined.

(** X11. When [y] has fewer entries than [X] and the featurizer succeeds on
    the inputs that have a property, [_convert_to_pytorch_data] raises
    [IndexError] at [y[idx]]. *)
Theorem convert_short_labels_raise
    (B : GraphDIT.Backend) (X : list string) (ys : list (list Q)) :
  (length ys < length X)%nat ->
  (forall i smiles property,
      X !! i = Some smiles -> ys !! i = Some property ->
      is_ok (GraphDIT.to_graph B smiles (Some property)) = true) ->
  GraphDIT._convert_to_pytorch_data B X (Some ys) = Raise IndexError.
Proof.
  intros Hshort Hgraphs. unfold GraphDIT._convert_to_pytorch_data.
  destruct (lookup_lt_is_Some_2 X (length ys) Hshort) as [smiles Hs].
  assert (Hpair : imap pair X !! length ys = Some (length ys, smiles))
    by (rewrite list_lookup_imap, Hs; reflexivity).
  apply traverse_raise.
  exists (take (length ys) (imap pair X)), (length ys, smiles),
         (drop (S (length ys)) (imap pair X)).
  split; [symmetry; now apply take_drop_middle |]. split.
  - unfold GraphDIT.item. now rewrite lookup_ge_None_2 by lia.
  - apply Forall_forall. intros [i s] Hin.
    apply elem_of_take in Hin as (j & Hj & Hlt).
    rewrite list_lookup_imap in Hj.
    destruct (X !! j) as [s'|] eqn:Hs'; [|discriminate]. injection Hj as <- <-.
    destruct (lookup_lt_is_Some_2 ys j Hlt) as [p Hp].
    unfold GraphDIT.item. rewrite Hp. cbn [mbind result_bind]. eauto.
Qed.

Lemma convert_short_labels_raise_witness :
  (length [[1%Q]] < length ["C"; "CC"])%nat
  /\ GraphDIT._convert_to_pytorch_data Demo.generator_backend ["C"; "CC"] (Some [[1%Q]])
     = Raise IndexError.
Proof.
  assert (H : (length [[1%Q]] < length ["C"; "CC"])%nat) by (cbn; lia).
  assert (Hgraphs : forall i smiles property,
             ["C"; "CC"] !! i = Some smiles -> [[1%Q]] !! i = Some property ->
             is_ok (GraphDIT.to_graph Demo.generator_backend smiles (Some property))
             = true) by reflexivity.
  exact (conj H (convert_short_labels_raise Demo.generator_backend ["C"; "CC"] [[1%Q]]
                   H Hgraphs)).
Defined.

Section DataObjects.

Lemma from_numpy_ok v v' :
  ContextPredMethods.from_numpy v = Ok v' -> v' = v /\ exists t, v = PTensor t.
Proof. destruct v; try discriminate. intros [= <-]. eauto. Qed.

Lemma from_numpy_raise v e : ContextPredMethods.from_numpy v = Raise e -> e = TypeError.
Proof. destruct v; cbn; congruence. Qed.

(** The keys of a dict built by successive assignments. *)
Lemma assigned_key (m : gmap string pyval) k0 v k :
  is_Some (<[k0 := v]> m !! k) -> k = k0 \/ is_Some (m !! k).
Proof.
  rewrite lookup_insert. destruct (decide (k0 = k)); [now left | now right].
Qed.

End DataObjects.

(** X12. The [Data] object the generator builds from a featurizer's dict
    (lines 147-156): when the dict holds arrays under [node_feat],
    [edge_index] and [y], the object carries them as [x], [edge_index] and
    [y] and nothing else, in particular no [edge_attr]; a missing key is a
    [KeyError], a value that is not an array a [TypeError]. *)
Theorem generator_data_attributes (graph : gmap string pyval) :
  match GraphDITMethods.to_data graph with
  | Ok g =>
      (exists x edge_index y,
          graph !! "node_feat" = Some (PTensor x)
          /\ graph !! "edge_index" = Some (PTensor edge_index)
          /\ graph !! "y" = Some (PTensor y)
          /\ g !! "x" = Some (PTensor x)
          /\ g !! "edge_index" = Some (PTensor edge_index)
          /\ g !! "y" = Some (PTensor y))
      /\ g !! "edge_attr" = None
      /\ forall k, is_Some (g !! k) -> k ∈ [ "x"; "edge_index"; "y" ]
  | Raise e =>
      e = TypeError
      \/ exists k, k ∈ [ "node_feat"; "edge_index"; "y" ]
                   /\ graph !! k = None /\ e = KeyError k
  end.
Proof.
  unfold GraphDITMethods.to_data, getitem.
  rewrite !lookup_delete_ne by discriminate.
  destruct (graph !! "node_feat") as [nf|] eqn:Hnf; cbn [mbind result_bind];
    [|right; exists "node_feat"; rewrite !elem_of_cons; auto 10].
  destruct (ContextPredMethods.from_numpy nf) as [x|e] eqn:Hf1; cbn [mbind result_bind];
    [|left; eapply from_numpy_raise, Hf1].
  apply from_numpy_ok in Hf1 as [-> [tx ->]].
  destruct (graph !! "edge_index") as [ei|] eqn:Hei; cbn [mbind result_bind];
    [|right; exists "edge_index"; rewrite !elem_of_cons; auto 10].
  destruct (ContextPredMethods.from_numpy ei) as [ei'|e] eqn:Hf2; cbn [mbind result_bind];
    [|left; eapply from_numpy_raise, Hf2].
  apply from_numpy_ok in Hf2 as [-> [te ->]].
  destruct (graph !! "y") as [y|] eqn:Hy; cbn [mbind result_bind];
    [|right; exists "y"; rewrite !elem_of_cons; auto 10].
  destruct (ContextPredMethods.from_numpy y) as [y'|e] eqn:Hf3;
    cbn [mbind result_bind mret result_ret];
    [|left; eapply from_numpy_raise, Hf3].
  apply from_numpy_ok in Hf3 as [-> [ty ->]].
  split; [exists tx, te, ty; repeat (split; [reflexivity |]); reflexivity |].
  split; [reflexivity |].
  intros k Hk. rewrite !elem_of_cons.
  repeat (apply assigned_key in Hk as [-> | Hk]; [tauto |]).
  rewrite lookup_empty in Hk. now destruct Hk.
Qed.

(** X13. The [Data] object the encoder builds from a featurizer's dict
    (lines 157-170): it carries [num_nodes] and [edge_index], carries
    [edge_attr] exactly when [edge_feat] is not [None], and [x] exactly when
    [node_feat] is not [None]; the four keys must all be present, with
    [None] allowed for the two features only: a missing key is a
    [KeyError], a value that is not an array a [TypeError]. *)
Theorem encoder_data_attributes (graph : gmap string pyval) :
  match ContextPredMethods.to_data graph with
  | Ok g =>
      is_Some (graph !! "num_nodes")
      /\ g !! "num_nodes" = graph !! "num_nodes"
      /\ (exists t, graph !! "edge_index" = Some (PTensor t)
                    /\ g !! "edge_index" = Some (PTensor t))
      /\ (exists v, graph !! "edge_feat" = Some v
                    /\ g !! "edge_attr"
                       = if ContextPredMethods.is_not_none v then Some v else None)
      /\ (exists v, graph !! "node_feat" = Some v
                    /\ g !! "x"
                       = if ContextPredMethods.is_not_none v then Some v else None)
      /\ forall k, is_Some (g !! k) ->
                   k ∈ [ "num_nodes"; "edge_index"; "edge_attr"; "x" ]
  | Raise e =>
      e = TypeError
      \/ exists k, k ∈ [ "num_nodes"; "edge_index"; "edge_feat"; "node_feat" ]
                   /\ graph !! k = None /\ e = KeyError k
  end.
Proof.
  unfold ContextPredMethods.to_data, getitem.
  rewrite !lookup_delete_ne by discriminate.
  destruct (graph !! "num_nodes") as [n|] eqn:Hn; cbn [mbind result_bind mret result_ret];
    [|right; exists "num_nodes"; rewrite !elem_of_cons; auto 10].
  destruct (graph !! "edge_index") as [ei|] eqn:Hei; cbn [mbind result_bind mret result_ret];
    [|right; exists "edge_index"; rewrite !elem_of_cons; auto 10].
  destruct (ContextPredMethods.from_numpy ei) as [ei'|e] eqn:Hfn;
    cbn [mbind result_bind mret result_ret];
    [|left; eapply from_numpy_raise, Hfn].
  apply from_numpy_ok in Hfn as [-> [t ->]].
  destruct (graph !! "edge_feat") as [ef|] eqn:Hef; cbn [mbind result_bind mret result_ret];
    [|right; exists "edge_feat"; rewrite !elem_of_cons; auto 10].
  assert (Hbase : forall k,
             is_Some ((<["edge_index" := PTensor t]> (<["num_nodes" := n]> ∅)
                       : gmap string pyval) !! k) ->
             k ∈ [ "num_nodes"; "edge_index"; "edge_attr"; "x" ]).
  { intros k Hk. rewrite !elem_of_cons.
    repeat (apply assigned_key in Hk as [-> | Hk]; [tauto |]).
    rewrite lookup_empty in Hk. now destruct Hk. }
  destruct (ContextPredMethods.is_not_none ef) eqn:Hnn1;
    cbn [mbind result_bind mret result_ret].
  - destruct (ContextPredMethods.from_numpy ef) as [ea|e] eqn:Hf2;
      cbn [mbind result_bind mret result_ret]; [|left; eapply from_numpy_raise, Hf2].
    apply from_numpy_ok in Hf2 as [-> [t2 ->]].
    rewrite !lookup_delete_ne by discriminate.
    destruct (graph !! "node_feat") as [nf|] eqn:Hnf; cbn [mbind result_bind mret result_ret];
      [|right; exists "node_feat"; rewrite !elem_of_cons; auto 10].
    destruct (ContextPredMethods.is_not_none nf) eqn:Hnn2;
      cbn [mbind result_bind mret result_ret].
    + destruct (ContextPredMethods.from_numpy nf) as [x|e] eqn:Hf3;
        cbn [mbind result_bind mret result_ret]; [|left; eapply from_numpy_raise, Hf3].
      apply from_numpy_ok in Hf3 as [-> [t3 ->]].
      split; [eauto |]. split; [reflexivity |].
      split; [exists t; split; reflexivity |].
      split; [eexists; split; reflexivity |].
      split; [eexists; split; reflexivity |].
      intros k Hk.
      apply assigned_key in Hk as [-> | Hk]; [rewrite !elem_of_cons; tauto |].
      apply assigned_key in Hk as [-> | Hk]; [rewrite !elem_of_cons; tauto |].
      now apply Hbase.
    + split; [eauto |]. split; [reflexivity |].
      split; [exists t; split; reflexivity |].
      split; [eexists; split; reflexivity |].
      split; [exists nf; split; [reflexivity | now rewrite Hnn2] |].
      intros k Hk.
      apply assigned_key in Hk as [-> | Hk]; [rewrite !elem_of_cons; tauto |].
      now apply Hbase.
  - rewrite !lookup_delete_ne by discriminate.
    destruct (graph !! "node_feat") as [nf|] eqn:Hnf; cbn [mbind result_bind mret result_ret];
      [|right; exists "node_feat"; rewrite !elem_of_cons; auto 10].
    destruct (ContextPredMethods.is_not_none nf) eqn:Hnn2;
      cbn [mbind result_bind mret result_ret].
    + destruct (ContextPredMethods.from_numpy nf) as [x|e] eqn:Hf3;
        cbn [mbind result_bind mret result_ret]; [|left; eapply from_numpy_raise, Hf3].
      apply from_numpy_ok in Hf3 as [-> [t3 ->]].
      split; [eauto |]. split; [reflexivity |].
      split; [exists t; split; reflexivity |].
      split; [exists ef; split; [reflexivity | now rewrite Hnn1] |].
      split; [eexists; split; reflexivity |].
      intros k Hk.
      apply assigned_key in Hk as [-> | Hk]; [rewrite !elem_of_cons; tauto |].
      now apply Hbase.
    + split; [eauto |]. split; [reflexivity |].
      split; [exists t; split; reflexivity |].
      split; [exists ef; split; [reflexivity | now rewrite Hnn1] |].
      split; [exists nf; split; [reflexivity | now rewrite Hnn2] |].
      exact Hbase.
Qed.

(** ** [_train_epoch] *)

Section TrainingEpoch.

(** A loop whose body appends one entry to a list: one entry per pass. *)
Lemma for_each_count {A S H} (hist : S -> list H) (body : S -> A -> M S) :
  (forall acc x w acc' w',
      body acc x w = (Ok acc', w') -> exists h, hist acc' = hist acc ++ [h]) ->
  forall xs acc w acc' w',
    for_each xs body acc w = (Ok acc', w') ->
    length (hist acc') = (length (hist acc) + length xs)%nat.
Proof.
  intros Hbody xs. induction xs as [|x xs IH]; intros acc w acc' w' Hrun.
  - cbn in Hrun. inversion Hrun; subst. cbn. lia.
  - cbn [for_each] in Hrun. inv_bind_as Hrun acc1 w1 Hstep.
    rewrite (IH _ _ _ _ Hrun). destruct (Hbody _ _ _ _ _ Hstep) as [h ->].
    rewrite length_app. cbn. lia.
Qed.

Lemma generator_step_effect (B : GraphDIT.Backend)
    (self : GraphDIT.Generator (GraphDIT.Net B) (GraphDIT.TM B)) active_index
    (st st' : GraphDIT.Net B * Optimizer (GraphDIT.OptState B) * list npfloat)
    batched_data w w' :
  GraphDIT.train_step B self active_index st batched_data w = (Ok st', w') ->
  w_log w' = w_log w ++ [EvZeroGrad; EvComputeLoss; EvBackward; EvOptimizerStep]
  /\ exists h, snd st' = snd st ++ [h].
Proof.
  unfold GraphDIT.train_step. destruct st as [[net optimizer] losses]. intros H.
  inv_bind_as H u1 w1 H1. apply emit_inv in H1.
  inv_bind_as H dense w2 H2. apply lift_inv in H2 as [_ ->].
  destruct dense as [[[X E] y] node_mask].
  inv_bind_as H noisy_data w3 H3. apply apply_noise_log in H3.
  inv_bind_as H u4 w4 H4. apply emit_inv in H4.
  inv_bind_as H loss w5 H5. apply with_rng_log in H5.
  inv_bind_as H u6 w6 H6. apply emit_inv in H6.
  inv_bind_as H u7 w7 H7. apply emit_inv in H7.
  destruct (GraphDIT.optimizer_step B _ optimizer) as [net'' optimizer'].
  inversion H; subst. split; [|cbn; eauto].
  rewrite H7, H6, H5, H4, H3, H1. rewrite <- !app_assoc. reflexivity.
Qed.

Lemma encoder_step_appends (B : ContextPred.Backend)
    (self : ContextPred.Encoder (ContextPred.Net B))
    (st st' : ContextPred.Net B * Optimizer (ContextPred.OptState B) * list npfloat)
    batch w w' :
  ContextPred.train_step B self st batch w = (Ok st', w') ->
  exists h, snd st' = snd st ++ [h].
Proof.
  unfold ContextPred.train_step. destruct st as [[net optimizer] losses]. intros H.
  inv_bind_as H u1 w1 H1. inv_bind_as H u2 w2 H2. inv_bind_as H loss w3 H3.
  inv_bind_as H u4 w4 H4. inv_bind_as H net' w5 H5. inv_bind_as H u6 w6 H6.
  destruct (ContextPred.optimizer_step B net' optimizer) as [net'' optimizer'].
  inversion H; subst. cbn. eauto.
Qed.

Lemma generator_train_epoch_log (B : GraphDIT.Backend)
    (self : GraphDIT.Generator (GraphDIT.Net B) (GraphDIT.TM B))
    loader opt epoch w r w' :
  GraphDIT._train_epoch B self loader opt epoch w = (Ok r, w') ->
  w_log w' = w_log w
             ++ concat (repeat [EvZeroGrad; EvComputeLoss; EvBackward; EvOptimizerStep]
                          (length (fst (loader (w_rng w))))).
Proof.
  unfold GraphDIT._train_epoch. intros H.
  inv_bind_as H net w1 H1. apply attribute_inv in H1 as [_ ->].
  inv_bind_as H active_index w2 H2. apply lift_inv in H2 as [_ ->].
  inv_bind_as H batches w3 H3.
  unfold with_rng in H3. destruct (loader (w_rng w)) as [bs g1] eqn:Hl.
  inversion H3; subst batches w3. clear H3. cbn [fst].
  apply for_each_log with (events := [EvZeroGrad; EvComputeLoss; EvBackward;
                                      EvOptimizerStep]) in H; [exact H |].
  intros acc x w0 acc' w0' Hstep. now apply generator_step_effect in Hstep.
Qed.

Lemma encoder_train_epoch_log (B : ContextPred.Backend)
    (self : ContextPred.Encoder (ContextPred.Net B)) loader opt w r w' :
  ContextPred._train_epoch B self loader opt w = (Ok r, w') ->
  w_log w' = w_log w
             ++ concat (repeat
                          ([EvZeroGrad; EvComputeLoss; EvBackward]
                           ++ match ContextPred.grad_clip_value (ContextPred.config self) with
                              | Some v => [EvClipGradNorm v]
                              | None => []
                              end
                           ++ [EvOptimizerStep])
                          (length (fst (loader (w_rng w))))).
Proof.
  unfold ContextPred._train_epoch. intros H.
  destruct (ContextPred.model self) as [net|]; [|discriminate].
  inv_bind_as H batches w3 H3.
  unfold with_rng in H3. destruct (loader (w_rng w)) as [bs g1] eqn:Hl.
  inversion H3; subst batches w3. clear H3. cbn [fst].
  apply for_each_log with (events := [EvZeroGrad; EvComputeLoss; EvBackward]
                                     ++ match ContextPred.grad_clip_value
                                                (ContextPred.config self) with
                                        | Some v => [EvClipGradNorm v]
                                        | None => []
                                        end
                                     ++ [EvOptimizerStep]) in H; [exact H |].
  intros acc x w0 acc' w0' Hstep. now apply encoder_step_log in Hstep.
Qed.

Lemma generator_train_epoch_count (B : GraphDIT.Backend)
    (self : GraphDIT.Generator (GraphDIT.Net B) (GraphDIT.TM B))
    loader opt epoch w net opt' losses w' :
  GraphDIT._train_epoch B self loader opt epoch w = (Ok (net, opt', losses), w') ->
  length losses = length (fst (loader (w_rng w))).
Proof.
  unfold GraphDIT._train_epoch. intros H.
  inv_bind_as H net0 w1 H1. apply attribute_inv in H1 as [_ ->].
  inv_bind_as H active_index w2 H2. apply lift_inv in H2 as [_ ->].
  inv_bind_as H batches w3 H3.
  unfold with_rng in H3. destruct (loader (w_rng w)) as [bs g1] eqn:Hl.
  inversion H3; subst batches w3. clear H3. cbn [fst].
  apply (for_each_count (fun st : GraphDIT.Net B * Optimizer (GraphDIT.OptState B)
                                  * list npfloat => snd st)) in H; [exact H |].
  intros acc x w0 acc' w0' Hstep. now apply generator_step_effect in Hstep.
Qed.

Lemma encoder_train_epoch_count (B : ContextPred.Backend)
    (self : ContextPred.Encoder (ContextPred.Net B)) loader opt w net opt' losses w' :
  ContextPred._train_epoch B self loader opt w = (Ok (net, opt', losses), w') ->
  length losses = length (fst (loader (w_rng w))).
Proof.
  unfold ContextPred._train_epoch. intros H.
  destruct (ContextPred.model self) as [net0|]; [|discriminate].
  inv_bind_as H batches w3 H3.
  unfold with_rng in H3. destruct (loader (w_rng w)) as [bs g1] eqn:Hl.
  inversion H3; subst batches w3. clear H3. cbn [fst].
  apply (for_each_count (fun st : ContextPred.Net B * Optimizer (ContextPred.OptState B)
                                  * list npfloat => snd st)) in H; [exact H |].
  intros acc x w0 acc' w0' Hstep. now apply encoder_step_appends in Hstep.
Qed.

End TrainingEpoch.

(** X14. A call of [_train_epoch] that returns, in the generator and in the
    encoder, has made one pass over the loader and returns one loss per
    batch; the calls logged are, once per batch and in this order,
    [zero_grad], [compute_loss], [backward], (in the encoder, when
    [grad_clip_value] is not [None], [clip_grad_norm_]) and
    [optimizer.step]. *)
Theorem train_epoch_one_loss_per_batch
    (Bg : GraphDIT.Backend) (Be : ContextPred.Backend)
    (g : GraphDIT.Generator (GraphDIT.Net Bg) (GraphDIT.TM Bg))
    (e : ContextPred.Encoder (ContextPred.Net Be))
    (loader_g : Rng -> list (GraphDIT.Batch Bg) * Rng)
    (loader_e : Rng -> list (ContextPred.Batch Be) * Rng)
    (opt_g opt_g' : Optimizer (GraphDIT.OptState Bg))
    (opt_e opt_e' : Optimizer (ContextPred.OptState Be))
    (epoch : Z) (net_g : GraphDIT.Net Bg) (net_e : ContextPred.Net Be)
    (losses_g losses_e : list npfloat) (wg wg' we we' : World) :
  GraphDIT._train_epoch Bg g loader_g opt_g epoch wg
  = (Ok (net_g, opt_g', losses_g), wg') ->
  ContextPred._train_epoch Be e loader_e opt_e we
  = (Ok (net_e, opt_e', losses_e), we') ->
  length losses_g = length (fst (loader_g (w_rng wg)))
  /\ w_log wg' = w_log wg
                 ++ concat (repeat [EvZeroGrad; EvComputeLoss; EvBackward; EvOptimizerStep]
                              (length losses_g))
  /\ length losses_e = length (fst (loader_e (w_rng we)))
  /\ w_log we' = w_log we
                 ++ concat (repeat
                              ([EvZeroGrad; EvComputeLoss; EvBackward]
                               ++ match ContextPred.grad_clip_value (ContextPred.config e) with
                                  | Some v => [EvClipGradNorm v]
                                  | None => []
                                  end
                               ++ [EvOptimizerStep])
                              (length losses_e)).
Proof.
  intros Hg He.
  pose proof (generator_train_epoch_count _ _ _ _ _ _ _ _ _ _ Hg) as Hg1.
  pose proof (generator_train_epoch_log _ _ _ _ _ _ _ _ Hg) as Hg2.
  pose proof (encoder_train_epoch_count _ _ _ _ _ _ _ _ _ He) as He1.
  pose proof (encoder_train_epoch_log _ _ _ _ _ _ _ He) as He2.
  rewrite Hg1, He1. auto.
Qed.

Lemma train_epoch_one_loss_per_batch_witness :
  fst (GraphDIT._train_epoch Demo.generator_backend Demo.prepared_generator
         Demo.two_batches Demo.generator_optimizer 0 Demo.w0)
  = Ok (tt, Demo.generator_optimizer, [Finite 1; Finite 3])
  /\ fst (ContextPred._train_epoch Demo.encoder_backend Demo.prepared_encoder
            Demo.two_batches Demo.encoder_optimizer Demo.w0)
     = Ok (tt, Demo.encoder_optimizer, [Finite 0; Finite 1])
  /\ length [Finite 1; Finite 3] = length (fst (Demo.two_batches (w_rng Demo.w0)))
  /\ w_log (snd (GraphDIT._train_epoch Demo.generator_backend Demo.prepared_generator
                   Demo.two_batches Demo.generator_optimizer 0 Demo.w0))
     = w_log Demo.w0
       ++ concat (repeat [EvZeroGrad; EvComputeLoss; EvBackward; EvOptimizerStep]
                    (length [Finite 1; Finite 3]))
  /\ length [Finite 0; Finite 1] = length (fst (Demo.two_batches (w_rng Demo.w0)))
  /\ w_log (snd (ContextPred._train_epoch Demo.encoder_backend Demo.prepared_encoder
                   Demo.two_batches Demo.encoder_optimizer Demo.w0))
     = w_log Demo.w0
       ++ concat (repeat
                    ([EvZeroGrad; EvComputeLoss; EvBackward]
                     ++ match ContextPred.grad_clip_value
                                (ContextPred.config Demo.prepared_encoder) with
                        | Some v => [EvClipGradNorm v]
                        | None => []
                        end
                     ++ [EvOptimizerStep])
                    (length [Finite 0; Finite 1])).
Proof.
  assert (Hg : GraphDIT._train_epoch Demo.generator_backend Demo.prepared_generator
                 Demo.two_batches Demo.generator_optimizer 0 Demo.w0
               = (Ok (tt, Demo.generator_optimizer, [Finite 1; Finite 3]),
                  snd (GraphDIT._train_epoch Demo.generator_backend
                         Demo.prepared_generator Demo.two_batches
                         Demo.generator_optimizer 0 Demo.w0)))
    by (vm_compute; reflexivity).
  assert (He : ContextPred._train_epoch Demo.encoder_backend Demo.prepared_encoder
                 Demo.two_batches Demo.encoder_optimizer Demo.w0
               = (Ok (tt, Demo.encoder_optimizer, [Finite 0; Finite 1]),
                  snd (ContextPred._train_epoch Demo.encoder_backend
                         Demo.prepared_encoder Demo.two_batches
                         Demo.encoder_optimizer Demo.w0)))
    by (vm_compute; reflexivity).
  exact (conj (f_equal fst Hg) (conj (f_equal fst He)
           (train_epoch_one_loss_per_batch Demo.generator_backend Demo.encoder_backend
              Demo.prepared_generator Demo.prepared_encoder Demo.two_batches
              Demo.two_batches Demo.generator_optimizer Demo.generator_optimizer
              Demo.encoder_optimizer Demo.encoder_optimizer 0 tt tt
              [Finite 1; Finite 3] [Finite 0; Finite 1] Demo.w0 _ Demo.w0 _ Hg He))).
Defined.

(** ** [fit] *)

Section FitLoop.

(** A loop whose body records the element it has just handled: after the
    loop the record holds the last element, or what it held before when the
    list is empty. *)
Lemma for_each_last {A S} (body : S -> A -> M S) (proj : S -> option A) :
  (forall acc x w acc' w', body acc x w = (Ok acc', w') -> proj acc' = Some x) ->
  forall xs acc w acc' w',
    for_each xs body acc w = (Ok acc', w') ->
    proj acc' = match last xs with Some x => Some x | None => proj acc end.
Proof.
  intros Hbody xs. induction xs as [|x xs IH]; intros acc w acc' w' Hrun.
  - cbn in Hrun. now inversion Hrun.
  - cbn [for_each] in Hrun. apply bind_inv_ok in Hrun as (acc1 & w1 & Hstep & Hrun).
    rewrite (IH _ _ _ _ Hrun). apply Hbody in Hstep.
    destruct xs as [|x' xs]; [exact Hstep |].
    change (last (x :: x' :: xs)) with (last (x' :: xs)).
    destruct (last (x' :: xs)) eqn:Hl; [reflexivity |].
    apply last_None in Hl. discriminate.
Qed.

Lemma range_empty (lo hi : Z) : (hi <= lo)%Z -> range lo hi = [].
Proof.
  intros H. unfold range. replace (Z.to_nat (hi - lo)) with 0%nat by lia. reflexivity.
Qed.

Lemma last_range (n : Z) : (1 <= n)%Z -> last (range 0 n) = Some (n - 1)%Z.
Proof.
  intros H. unfold range. rewrite Z.sub_0_r.
  destruct (Z.to_nat n) as [|k] eqn:Hk; [lia |].
  rewrite seq_S, map_app. cbn [map Nat.add]. rewrite last_snoc. f_equal. lia.
Qed.

Lemma range_nonempty (n : Z) : (1 <= n)%Z -> range 0 n <> [].
Proof.
  intros H Hnil. apply (f_equal length) in Hnil.
  rewrite range_length in Hnil. cbn in Hnil. lia.
Qed.

Lemma encoder_fit_epoch_state (B : ContextPred.Backend) loader sch
    (st : ContextPred.Encoder (ContextPred.Net B)
          * Optimizer (ContextPred.OptState B) * option Z) epoch w
    (st' : ContextPred.Encoder (ContextPred.Net B)
           * Optimizer (ContextPred.OptState B) * option Z) w' :
  ContextPred.fit_epoch B loader sch st epoch w = (Ok st', w') ->
  snd st' = Some epoch
  /\ ContextPred.config (fst (fst st')) = ContextPred.config (fst (fst st))
  /\ is_Some (ContextPred.model (fst (fst st')))
  /\ ContextPred.fitting_epoch (fst (fst st')) = ContextPred.fitting_epoch (fst (fst st))
  /\ ContextPred.is_fitted_ (fst (fst st')) = ContextPred.is_fitted_ (fst (fst st)).
Proof.
  destruct st as [[self opt] o]. unfold ContextPred.fit_epoch. intros H.
  inv_bind_as H r w1 H1. destruct r as [[net opt'] losses].
  inv_bind_as H opt'' w2 H2. inversion H; subst. cbn. eauto 10.
Qed.

Lemma generator_fit_epoch_state (B : GraphDIT.Backend) loader sch
    (st : GraphDIT.Generator (GraphDIT.Net B) (GraphDIT.TM B)
          * Optimizer (GraphDIT.OptState B) * option Z) epoch w
    (st' : GraphDIT.Generator (GraphDIT.Net B) (GraphDIT.TM B)
           * Optimizer (GraphDIT.OptState B) * option Z) w' :
  GraphDIT.fit_epoch B loader sch st epoch w = (Ok st', w') ->
  snd st' = Some epoch
  /\ GraphDIT.config (fst (fst st')) = GraphDIT.config (fst (fst st))
  /\ is_Some (GraphDIT.model (fst (fst st')))
  /\ GraphDIT.timesteps (fst (fst st')) = GraphDIT.timesteps (fst (fst st))
  /\ GraphDIT.max_node (fst (fst st')) = GraphDIT.max_node (fst (fst st))
  /\ GraphDIT.dataset_info (fst (fst st')) = GraphDIT.dataset_info (fst (fst st)).
Proof.
  destruct st as [[self opt] o]. unfold GraphDIT.fit_epoch. intros H.
  inv_bind_as H r w1 H1. destruct r as [[net opt'] losses].
  inv_bind_as H opt'' w2 H2. inversion H; subst. cbn. eauto 10.
Qed.

Lemma generator_fit_loop_state (B : GraphDIT.Backend) loader sch xs
    (st st' : GraphDIT.Generator (GraphDIT.Net B) (GraphDIT.TM B)
              * Optimizer (GraphDIT.OptState B) * option Z) w w' :
  for_each xs (GraphDIT.fit_epoch B loader sch) st w = (Ok st', w') ->
  GraphDIT.config (fst (fst st')) = GraphDIT.config (fst (fst st))
  /\ (xs = [] \/ is_Some (GraphDIT.model (fst (fst st')))).
Proof.
  revert st st' w w'. induction xs as [|x xs IH] using rev_ind; intros st st' w w' Hrun.
  - cbn in Hrun. inversion Hrun; subst. auto.
  - rewrite for_each_app in Hrun.
    destruct (for_each xs _ st w) as [[st1|] w1] eqn:Hpre; [|discriminate].
    cbn [for_each] in Hrun. inv_bind_as Hrun st2 w2 Hstep.
    inversion Hrun; subst st2 w2.
    apply generator_fit_epoch_state in Hstep as (_ & Hc & Hm & _).
    destruct (IH _ _ _ _ Hpre) as [Hc1 _].
    split; [congruence | now right].
Qed.

Lemma encoder_fit_loop_state (B : ContextPred.Backend) loader sch xs
    (st st' : ContextPred.Encoder (ContextPred.Net B)
              * Optimizer (ContextPred.OptState B) * option Z) w w' :
  for_each xs (ContextPred.fit_epoch B loader sch) st w = (Ok st', w') ->
  ContextPred.config (fst (fst st')) = ContextPred.config (fst (fst st))
  /\ (xs = [] \/ is_Some (ContextPred.model (fst (fst st')))).
Proof.
  revert st st' w w'. induction xs as [|x xs IH] using rev_ind; intros st st' w w' Hrun.
  - cbn in Hrun. inversion Hrun; subst. auto.
  - rewrite for_each_app in Hrun.
    destruct (for_each xs _ st w) as [[st1|] w1] eqn:Hpre; [|discriminate].
    cbn [for_each] in Hrun. inv_bind_as Hrun st2 w2 Hstep.
    inversion Hrun; subst st2 w2.
    apply encoder_fit_epoch_state in Hstep as (_ & Hc & Hm & _).
    destruct (IH _ _ _ _ Hpre) as [Hc1 _].
    split; [congruence | now right].
Qed.

End FitLoop.

(** X15. With [epochs <= 0] the loop of [fit] never binds [epoch]: once the
    preparation (network, set-up, optimizer, data) has succeeded, [fit]
    raises [UnboundLocalError] at [self.fitting_epoch = epoch], in the
    generator and in the encoder, and [is_fitted_] is never set. *)
Theorem fit_without_epochs_raises
    (Bg : GraphDIT.Backend) (Be : ContextPred.Backend)
    (g : GraphDIT.Generator (GraphDIT.Net Bg) (GraphDIT.TM Bg))
    (X_g : GraphDIT.TrainInput) (y_g : option (list (list Q)))
    (e : ContextPred.Encoder (ContextPred.Net Be)) (X_e : list string)
    (wg wg0 we we0 : World)
    (prepared_g : GraphDIT.Generator (GraphDIT.Net Bg) (GraphDIT.TM Bg)
                  * Optimizer (GraphDIT.OptState Bg) * option Scheduler
                  * (Rng -> list (GraphDIT.Batch Bg) * Rng))
    (prepared_e : ContextPred.Encoder (ContextPred.Net Be)
                  * Optimizer (ContextPred.OptState Be) * option Scheduler
                  * (Rng -> list (ContextPred.Batch Be) * Rng)) :
  (GraphDIT.epochs (GraphDIT.config g) <= 0)%Z ->
  (ContextPred.epochs (ContextPred.config e) <= 0)%Z ->
  GraphDIT.fit_prepare Bg g X_g y_g wg = (Ok prepared_g, wg0) ->
  ContextPred.fit_prepare Be e X_e we = (Ok prepared_e, we0) ->
  GraphDIT.fit Bg g X_g y_g wg = (Raise (UnboundLocalError "epoch"), wg0)
  /\ ContextPred.fit Be e X_e we = (Raise (UnboundLocalError "epoch"), we0).
Proof.
  intros Hg He Hpg Hpe. split.
  - destruct prepared_g as [[[g0 opt] sch] loader].
    destruct (generator_prepare_inv _ _ _ _ _ _ _ _ _ _ Hpg) as [_ Hcfg].
    unfold GraphDIT.fit. erewrite bind_ok by exact Hpg. cbn beta iota.
    rewrite Hcfg, range_empty by lia. reflexivity.
  - destruct prepared_e as [[[e0 opt] sch] loader].
    destruct (encoder_prepare_inv _ _ _ _ _ _ _ _ _ Hpe) as [_ Hcfg].
    unfold ContextPred.fit. erewrite bind_ok by exact Hpe. cbn beta iota.
    rewrite Hcfg, range_empty by lia. reflexivity.
Qed.

Lemma fit_without_epochs_raises_witness :
  (GraphDIT.epochs (GraphDIT.config Cases.generator_without_epochs) <= 0)%Z
  /\ (ContextPred.epochs (ContextPred.config Cases.encoder_without_epochs) <= 0)%Z
  /\ GraphDIT.fit_prepare Demo.generator_backend Cases.generator_without_epochs
       (GraphDIT.InputDict Demo.checkpoint1) None Demo.w0
     = (Ok (Cases.prepared_generator_without_epochs, Demo.generator_optimizer, None,
            Demo.two_batches), Demo.w0)
  /\ ContextPred.fit_prepare Demo.encoder_backend Cases.encoder_without_epochs
       ["C"; "CC"] Demo.w0
     = (Ok (Cases.prepared_encoder_without_epochs, Demo.encoder_optimizer, None,
            Demo.two_batches), Demo.w0)
  /\ GraphDIT.fit Demo.generator_backend Cases.generator_without_epochs
       (GraphDIT.InputDict Demo.checkpoint1) None Demo.w0
     = (Raise (UnboundLocalError "epoch"), Demo.w0)
  /\ ContextPred.fit Demo.encoder_backend Cases.encoder_without_epochs
       ["C"; "CC"] Demo.w0
     = (Raise (UnboundLocalError "epoch"), Demo.w0).
Proof.
  assert (Hg : (GraphDIT.epochs (GraphDIT.config Cases.generator_without_epochs) <= 0)%Z)
    by (cbn; lia).
  assert (He : (ContextPred.epochs (ContextPred.config Cases.encoder_without_epochs)
                <= 0)%Z) by (cbn; lia).
  assert (Hpg : GraphDIT.fit_prepare Demo.generator_backend Cases.generator_without_epochs
                  (GraphDIT.InputDict Demo.checkpoint1) None Demo.w0
                = (Ok (Cases.prepared_generator_without_epochs, Demo.generator_optimizer,
                       None, Demo.two_batches), Demo.w0))
    by (vm_compute; reflexivity).
  assert (Hpe : ContextPred.fit_prepare Demo.encoder_backend Cases.encoder_without_epochs
                  ["C"; "CC"] Demo.w0
                = (Ok (Cases.prepared_encoder_without_epochs, Demo.encoder_optimizer,
                       None, Demo.two_batches), Demo.w0))
    by (vm_compute; reflexivity).
  exact (conj Hg (conj He (conj Hpg (conj Hpe
           (fit_without_epochs_raises Demo.generator_backend Demo.encoder_backend
              Cases.generator_without_epochs (GraphDIT.InputDict Demo.checkpoint1) None
              Cases.encoder_without_epochs ["C"; "CC"] Demo.w0 Demo.w0 Demo.w0 Demo.w0
              _ _ Hg He Hpg Hpe))))).
Defined.

(** X16. After a call of [fit] that returns, in the generator and in the
    encoder: [epochs] was at least 1, [fitting_epoch] is [epochs - 1],
    [is_fitted_] is [True], the estimator has a network, and its
    configuration is unchanged. *)
Theorem fit_final_state
    (Bg : GraphDIT.Backend) (Be : ContextPred.Backend)
    (g g' : GraphDIT.Generator (GraphDIT.Net Bg) (GraphDIT.TM Bg))
    (X_g : GraphDIT.TrainInput) (y_g : option (list (list Q)))
    (e e' : ContextPred.Encoder (ContextPred.Net Be)) (X_e : list string)
    (wg wg' we we' : World) :
  GraphDIT.fit Bg g X_g y_g wg = (Ok g', wg') ->
  ContextPred.fit Be e X_e we = (Ok e', we') ->
  ((1 <= GraphDIT.epochs (GraphDIT.config g))%Z
   /\ GraphDIT.fitting_epoch g' = (GraphDIT.epochs (GraphDIT.config g) - 1)%Z
   /\ GraphDIT.is_fitted_ g' = true
   /\ is_Some (GraphDIT.model g')
   /\ GraphDIT.config g' = GraphDIT.config g)
  /\ ((1 <= ContextPred.epochs (ContextPred.config e))%Z
      /\ ContextPred.fitting_epoch e' = (ContextPred.epochs (ContextPred.config e) - 1)%Z
      /\ ContextPred.is_fitted_ e' = true
      /\ is_Some (ContextPred.model e')
      /\ ContextPred.config e' = ContextPred.config e).
Proof.
  intros Hg He. split.
  - unfold GraphDIT.fit in Hg. inv_bind_as Hg p w1 Hprep.
    destruct p as [[[g0 opt] sch] loader].
    destruct (generator_prepare_inv _ _ _ _ _ _ _ _ _ _ Hprep) as [_ Hcfg].
    inv_bind_as Hg st w2 Hloop. destruct st as [[g1 opt1] last1].
    destruct last1 as [epoch|]; [|discriminate]. inversion Hg; subst g' wg'. clear Hg.
    rewrite Hcfg in Hloop.
    pose proof (for_each_last (GraphDIT.fit_epoch Bg loader sch) snd
                  (fun acc x w acc' w' H =>
                     proj1 (generator_fit_epoch_state Bg loader sch acc x w acc' w' H))
                  _ _ _ _ _ Hloop) as Hlast.
    cbn [snd] in Hlast.
    assert (Hepochs : (1 <= GraphDIT.epochs (GraphDIT.config g))%Z).
    { destruct (Z_le_gt_dec 1 (GraphDIT.epochs (GraphDIT.config g))) as [|Hlt];
        [assumption |].
      rewrite range_empty in Hlast by lia. discriminate. }
    rewrite last_range in Hlast by exact Hepochs. injection Hlast as ->.
    destruct (generator_fit_loop_state _ _ _ _ _ _ _ _ Hloop) as [Hc Hm].
    cbn [fst] in Hc, Hm. cbn.
    split; [exact Hepochs |]. split; [reflexivity |]. split; [reflexivity |].
    split; [|congruence].
    destruct Hm as [Hnil | Hm]; [now apply range_nonempty in Hnil | exact Hm].
  - unfold ContextPred.fit in He. inv_bind_as He p w1 Hprep.
    destruct p as [[[e0 opt] sch] loader].
    destruct (encoder_prepare_inv _ _ _ _ _ _ _ _ _ Hprep) as [_ Hcfg].
    inv_bind_as He st w2 Hloop. destruct st as [[e1 opt1] last1].
    destruct last1 as [epoch|]; [|discriminate]. inversion He; subst e' we'. clear He.
    rewrite Hcfg in Hloop.
    pose proof (for_each_last (ContextPred.fit_epoch Be loader sch) snd
                  (fun acc x w acc' w' H =>
                     proj1 (encoder_fit_epoch_state Be loader sch acc x w acc' w' H))
                  _ _ _ _ _ Hloop) as Hlast.
    cbn [snd] in Hlast.
    assert (Hepochs : (1 <= ContextPred.epochs (ContextPred.config e))%Z).
    { destruct (Z_le_gt_dec 1 (ContextPred.epochs (ContextPred.config e))) as [|Hlt];
        [assumption |].
      rewrite range_empty in Hlast by lia. discriminate. }
    rewrite last_range in Hlast by exact Hepochs. injection Hlast as ->.
    destruct (encoder_fit_loop_state _ _ _ _ _ _ _ _ Hloop) as [Hc Hm].
    cbn [fst] in Hc, Hm. cbn.
    split; [exact Hepochs |]. split; [reflexivity |]. split; [reflexivity |].
    split; [|congruence].
    destruct Hm as [Hnil | Hm]; [now apply range_nonempty in Hnil | exact Hm].
Qed.

Lemma fit_final_state_witness :
  fst (GraphDIT.fit Demo.generator_backend (Demo.fresh_generator None)
         (GraphDIT.InputDict Demo.checkpoint1) None Demo.w0)
  = Ok Demo.fitted_generator
  /\ fst (ContextPred.fit Demo.encoder_backend (Demo.fresh_encoder None)
            ["C"; "CC"] Demo.w0)
     = Ok Demo.fitted_encoder
  /\ ((1 <= GraphDIT.epochs (GraphDIT.config (Demo.fresh_generator None)))%Z
      /\ GraphDIT.fitting_epoch Demo.fitted_generator
         = (GraphDIT.epochs (GraphDIT.config (Demo.fresh_generator None)) - 1)%Z
      /\ GraphDIT.is_fitted_ Demo.fitted_generator = true
      /\ is_Some (GraphDIT.model Demo.fitted_generator)
      /\ GraphDIT.config Demo.fitted_generator
         = GraphDIT.config (Demo.fresh_generator None))
  /\ ((1 <= ContextPred.epochs (ContextPred.config (Demo.fresh_encoder None)))%Z
      /\ ContextPred.fitting_epoch Demo.fitted_encoder
         = (ContextPred.epochs (ContextPred.config (Demo.fresh_encoder None)) - 1)%Z
      /\ ContextPred.is_fitted_ Demo.fitted_encoder = true
      /\ is_Some (ContextPred.model Demo.fitted_encoder)
      /\ ContextPred.config Demo.fitted_encoder
         = ContextPred.config (Demo.fresh_encoder None)).
Proof.
  assert (Hg : GraphDIT.fit Demo.generator_backend (Demo.fresh_generator None)
                 (GraphDIT.InputDict Demo.checkpoint1) None Demo.w0
               = (Ok Demo.fitted_generator,
                  snd (GraphDIT.fit Demo.generator_backend (Demo.fresh_generator None)
                         (GraphDIT.InputDict Demo.checkpoint1) None Demo.w0)))
    by (vm_compute; reflexivity).
  assert (He : ContextPred.fit Demo.encoder_backend (Demo.fresh_encoder None)
                 ["C"; "CC"] Demo.w0
               = (Ok Demo.fitted_encoder,
                  snd (ContextPred.fit Demo.encoder_backend (Demo.fresh_encoder None)
                         ["C"; "CC"] Demo.w0)))
    by (vm_compute; reflexivity).
  destruct (fit_final_state Demo.generator_backend Demo.encoder_backend
              (Demo.fresh_generator None) Demo.fitted_generator
              (GraphDIT.InputDict Demo.checkpoint1) None
              (Demo.fresh_encoder None) Demo.fitted_encoder ["C"; "CC"]
              Demo.w0 _ Demo.w0 _ Hg He) as [Hfg Hfe].
  exact (conj (f_equal fst Hg) (conj (f_equal fst He) (conj Hfg Hfe))).
Defined.

Section SchedulerSteps.

(** The calls of the training steps are no calls of the scheduler. *)
Lemma no_scheduler_step_in_batches (events : list event) (n : nat) :
  List.filter (fun ev => match ev with EvSchedulerStep => true | _ => false end) events = [] ->
  List.filter (fun ev => match ev with EvSchedulerStep => true | _ => false end)
    (concat (repeat events n)) = [].
Proof.
  intros H. induction n as [|n IH]; [reflexivity |].
  cbn [repeat concat]. now rewrite List.filter_app, H, IH.
Qed.

(** A loop whose every pass logs [c] calls of the scheduler, among other
    calls, logs [c] of them per element. *)
Lemma for_each_scheduler_steps {A S} (body : S -> A -> M S) (c : nat) :
  (forall acc x w acc' w',
      body acc x w = (Ok acc', w') ->
      exists events,
        w_log w' = w_log w ++ events
        /\ length (List.filter (fun ev => match ev with EvSchedulerStep => true | _ => false end)
                     events) = c) ->
  forall xs acc w acc' w',
    for_each xs body acc w = (Ok acc', w') ->
    exists events,
      w_log w' = w_log w ++ events
      /\ length (List.filter (fun ev => match ev with EvSchedulerStep => true | _ => false end)
                   events) = (length xs * c)%nat.
Proof.
  intros Hbody xs. induction xs as [|x xs IH]; intros acc w acc' w' Hrun.
  - cbn in Hrun. inversion Hrun; subst. exists []. now rewrite app_nil_r.
  - cbn [for_each] in Hrun. inv_bind_as Hrun acc1 w1 Hstep.
    destruct (Hbody _ _ _ _ _ Hstep) as (ev1 & Hlog1 & Hc1).
    destruct (IH _ _ _ _ Hrun) as (ev2 & Hlog2 & Hc2).
    exists (ev1 ++ ev2). split.
    + now rewrite Hlog2, Hlog1, app_assoc.
    + rewrite List.filter_app, length_app, Hc1, Hc2. cbn [length]. lia.
Qed.

Lemma generator_fit_epoch_scheduler (B : GraphDIT.Backend) loader sch
    (st : GraphDIT.Generator (GraphDIT.Net B) (GraphDIT.TM B)
          * Optimizer (GraphDIT.OptState B) * option Z) epoch w
    (st' : GraphDIT.Generator (GraphDIT.Net B) (GraphDIT.TM B)
           * Optimizer (GraphDIT.OptState B) * option Z) w' :
  GraphDIT.fit_epoch B loader sch st epoch w = (Ok st', w') ->
  exists events,
    w_log w' = w_log w ++ events
    /\ length (List.filter (fun ev => match ev with EvSchedulerStep => true | _ => false end)
                 events)
       = match sch with Some _ => 1%nat | None => 0%nat end.
Proof.
  destruct st as [[self opt] o]. unfold GraphDIT.fit_epoch. intros H.
  inv_bind_as H r w1 H1. destruct r as [[net opt'] losses].
  apply generator_train_epoch_log in H1.
  destruct sch as [s|].
  - inv_bind_as H opt'' w2 H2. inv_bind_as H2 u w3 H3. apply emit_inv in H3.
    inversion H2; subst. inversion H; subst.
    eexists. split; [rewrite H3, H1, <- app_assoc; reflexivity |].
    rewrite List.filter_app, no_scheduler_step_in_batches by reflexivity. reflexivity.
  - inv_bind_as H opt'' w2 H2. inversion H2; subst. inversion H; subst.
    eexists. split; [rewrite H1; reflexivity |].
    now rewrite no_scheduler_step_in_batches.
Qed.

Lemma encoder_fit_epoch_scheduler (B : ContextPred.Backend) loader sch
    (st : ContextPred.Encoder (ContextPred.Net B)
          * Optimizer (ContextPred.OptState B) * option Z) epoch w
    (st' : ContextPred.Encoder (ContextPred.Net B)
           * Optimizer (ContextPred.OptState B) * option Z) w' :
  ContextPred.fit_epoch B loader sch st epoch w = (Ok st', w') ->
  exists events,
    w_log w' = w_log w ++ events
    /\ length (List.filter (fun ev => match ev with EvSchedulerStep => true | _ => false end)
                 events)
       = match sch with Some _ => 1%nat | None => 0%nat end.
Proof.
  destruct st as [[self opt] o]. unfold ContextPred.fit_epoch. intros H.
  inv_bind_as H r w1 H1. destruct r as [[net opt'] losses].
  apply encoder_train_epoch_log in H1.
  assert (Hnone : List.filter (fun ev => match ev with EvSchedulerStep => true | _ => false end)
                    ([EvZeroGrad; EvComputeLoss; EvBackward]
                     ++ match ContextPred.grad_clip_value (ContextPred.config self) with
                        | Some v => [EvClipGradNorm v]
                        | None => []
                        end
                     ++ [EvOptimizerStep]) = [])
    by (now destruct (ContextPred.grad_clip_value (ContextPred.config self))).
  destruct sch as [s|].
  - inv_bind_as H opt'' w2 H2. inv_bind_as H2 u w3 H3. apply emit_inv in H3.
    inversion H2; subst. inversion H; subst.
    eexists. split; [rewrite H3, H1, <- app_assoc; reflexivity |].
    rewrite List.filter_app, no_scheduler_step_in_batches by exact Hnone. reflexivity.
  - inv_bind_as H opt'' w2 H2. inversion H2; subst. inversion H; subst.
    eexists. split; [rewrite H1; reflexivity |].
    now rewrite no_scheduler_step_in_batches.
Qed.

(** The preparation of [fit] makes no logged call, and hands on the
    scheduler of [_setup_optimizers]. *)
Lemma generator_prepare_scheduler (B : GraphDIT.Backend)
    (self self0 : GraphDIT.Generator (GraphDIT.Net B) (GraphDIT.TM B))
    X y w opt sch loader w0 :
  GraphDIT.fit_prepare B self X y w = (Ok (self0, opt, sch, loader), w0) ->
  w_log w0 = w_log w
  /\ (is_Some sch <-> GraphDIT.use_lr_scheduler (GraphDIT.config self) = true).
Proof.
  unfold GraphDIT.fit_prepare. intros H.
  inv_bind_as H net w1 H1. apply with_rng_log in H1.
  inv_bind_as H self1 w2 H2. apply lift_inv in H2 as [H2 ->].
  apply setup_attributes in H2 as (_ & _ & _ & Hcfg). cbn in Hcfg.
  inv_bind_as H os w3 H3. destruct os as [o sc].
  unfold GraphDIT._setup_optimizers in H3.
  inv_bind_as H3 net' w3' H3'. apply attribute_inv in H3' as [_ ->].
  inversion H3; subst o sc w3. clear H3.
  inv_bind_as H Xy w4 H4. apply lift_inv in H4 as [_ ->]. destruct Xy as [X' y'].
  inv_bind_as H ds w5 H5. apply lift_inv in H5 as [_ ->].
  inv_bind_as H ld w6 H6. apply lift_inv in H6 as [_ ->].
  inversion H; subst. split; [exact H1 |].
  rewrite Hcfg. destruct (GraphDIT.use_lr_scheduler (GraphDIT.config self)).
  - split; [reflexivity | eauto].
  - split; [intros [? ?]; discriminate | discriminate].
Qed.

Lemma encoder_prepare_scheduler (B : ContextPred.Backend)
    (self self0 : ContextPred.Encoder (ContextPred.Net B)) X w opt sch loader w0 :
  ContextPred.fit_prepare B self X w = (Ok (self0, opt, sch, loader), w0) ->
  w_log w0 = w_log w
  /\ (is_Some sch <-> ContextPred.use_lr_scheduler (ContextPred.config self) = true).
Proof.
  unfold ContextPred.fit_prepare. intros H.
  inv_bind_as H net w1 H1. apply with_rng_log in H1.
  inv_bind_as H os w3 H3. destruct os as [o sc].
  unfold ContextPred._setup_optimizers in H3. cbn [ContextPred.model] in H3.
  inversion H3; subst o sc w3. clear H3.
  inv_bind_as H Xy w4 H4. apply lift_inv in H4 as [_ ->].
  inv_bind_as H ds w5 H5. apply lift_inv in H5 as [_ ->].
  inv_bind_as H ld w6 H6. apply lift_inv in H6 as [_ ->].
  inversion H; subst. split; [exact H1 |]. cbn [ContextPred.config].
  destruct (ContextPred.use_lr_scheduler (ContextPred.config self)).
  - split; [reflexivity | eauto].
  - split; [intros [? ?]; discriminate | discriminate].
Qed.

End SchedulerSteps.

(** X25. During a call of [fit] that returns, in the generator and in the
    encoder, [scheduler.step] is called exactly once per epoch when
    [use_lr_scheduler] is set, and never otherwise. *)
Theorem fit_steps_scheduler_once_per_epoch
    (Bg : GraphDIT.Backend) (Be : ContextPred.Backend)
    (g g' : GraphDIT.Generator (GraphDIT.Net Bg) (GraphDIT.TM Bg))
    (X_g : GraphDIT.TrainInput) (y_g : option (list (list Q)))
    (e e' : ContextPred.Encoder (ContextPred.Net Be)) (X_e : list string)
    (wg wg' we we' : World) :
  GraphDIT.fit Bg g X_g y_g wg = (Ok g', wg') ->
  ContextPred.fit Be e X_e we = (Ok e', we') ->
  (exists events,
      w_log wg' = w_log wg ++ events
      /\ length (List.filter (fun ev => match ev with EvSchedulerStep => true | _ => false end)
                   events)
         = if GraphDIT.use_lr_scheduler (GraphDIT.config g)
           then Z.to_nat (GraphDIT.epochs (GraphDIT.config g)) else 0%nat)
  /\ (exists events,
         w_log we' = w_log we ++ events
         /\ length (List.filter (fun ev => match ev with EvSchedulerStep => true | _ => false end)
                      events)
            = if ContextPred.use_lr_scheduler (ContextPred.config e)
              then Z.to_nat (ContextPred.epochs (ContextPred.config e)) else 0%nat).
Proof.
  intros Hg He. split.
  - unfold GraphDIT.fit in Hg. inv_bind_as Hg p w1 Hprep.
    destruct p as [[[g0 opt] sch] loader].
    destruct (generator_prepare_inv _ _ _ _ _ _ _ _ _ _ Hprep) as [_ Hcfg].
    destruct (generator_prepare_scheduler _ _ _ _ _ _ _ _ _ _ Hprep) as [Hlog Hsch].
    inv_bind_as Hg st w2 Hloop. destruct st as [[g1 opt1] last1].
    destruct last1 as [epoch|]; [|discriminate]. inversion Hg; subst g' wg'. clear Hg.
    rewrite Hcfg in Hloop.
    destruct (for_each_scheduler_steps (GraphDIT.fit_epoch Bg loader sch)
                (match sch with Some _ => 1%nat | None => 0%nat end)
                (generator_fit_epoch_scheduler Bg loader sch) _ _ _ _ _ Hloop)
      as (events & Hev & Hcount).
    exists events. split; [now rewrite Hev, Hlog |].
    rewrite Hcount, range_length, Z.sub_0_r.
    destruct (GraphDIT.use_lr_scheduler (GraphDIT.config g)), sch as [s|]; try lia.
    + destruct Hsch as [_ Hsch]. destruct (Hsch eq_refl); discriminate.
    + destruct Hsch as [Hsch _]. assert (false = true) by eauto. discriminate.
  - unfold ContextPred.fit in He. inv_bind_as He p w1 Hprep.
    destruct p as [[[e0 opt] sch] loader].
    destruct (encoder_prepare_inv _ _ _ _ _ _ _ _ _ Hprep) as [_ Hcfg].
    destruct (encoder_prepare_scheduler _ _ _ _ _ _ _ _ _ Hprep) as [Hlog Hsch].
    inv_bind_as He st w2 Hloop. destruct st as [[e1 opt1] last1].
    destruct last1 as [epoch|]; [|discriminate]. inversion He; subst e' we'. clear He.
    rewrite Hcfg in Hloop.
    destruct (for_each_scheduler_steps (ContextPred.fit_epoch Be loader sch)
                (match sch with Some _ => 1%nat | None => 0%nat end)
                (encoder_fit_epoch_scheduler Be loader sch) _ _ _ _ _ Hloop)
      as (events & Hev & Hcount).
    exists events. split; [now rewrite Hev, Hlog |].
    rewrite Hcount, range_length, Z.sub_0_r.
    destruct (ContextPred.use_lr_scheduler (ContextPred.config e)), sch as [s|]; try lia.
    + destruct Hsch as [_ Hsch]. destruct (Hsch eq_refl); discriminate.
    + destruct Hsch as [Hsch _]. assert (false = true) by eauto. discriminate.
Qed.

Lemma fit_steps_scheduler_once_per_epoch_witness :
  fst (GraphDIT.fit Demo.generator_backend Cases.scheduled_generator
         (GraphDIT.InputDict Demo.checkpoint1) None Demo.w0)
  = Ok Cases.fitted_scheduled_generator
  /\ fst (ContextPred.fit Demo.encoder_backend Cases.scheduled_encoder
            ["C"; "CC"] Demo.w0)
     = Ok Cases.fitted_scheduled_encoder
  /\ w_log (snd (ContextPred.fit Demo.encoder_backend Cases.scheduled_encoder
                   ["C"; "CC"] Demo.w0))
     = [ EvZeroGrad; EvComputeLoss; EvBackward; EvOptimizerStep;
         EvZeroGrad; EvComputeLoss; EvBackward; EvOptimizerStep; EvSchedulerStep;
         EvZeroGrad; EvComputeLoss; EvBackward; EvOptimizerStep;
         EvZeroGrad; EvComputeLoss; EvBackward; EvOptimizerStep; EvSchedulerStep ]
  /\ (exists events,
         w_log (snd (GraphDIT.fit Demo.generator_backend Cases.scheduled_generator
                       (GraphDIT.InputDict Demo.checkpoint1) None Demo.w0))
         = w_log Demo.w0 ++ events
         /\ length (List.filter
                      (fun ev => match ev with EvSchedulerStep => true | _ => false end)
                      events)
            = if GraphDIT.use_lr_scheduler (GraphDIT.config Cases.scheduled_generator)
              then Z.to_nat (GraphDIT.epochs (GraphDIT.config Cases.scheduled_generator))
              else 0%nat)
  /\ (exists events,
         w_log (snd (ContextPred.fit Demo.encoder_backend Cases.scheduled_encoder
                       ["C"; "CC"] Demo.w0))
         = w_log Demo.w0 ++ events
         /\ length (List.filter
                      (fun ev => match ev with EvSchedulerStep => true | _ => false end)
                      events)
            = if ContextPred.use_lr_scheduler (ContextPred.config Cases.scheduled_encoder)
              then Z.to_nat (ContextPred.epochs
                               (ContextPred.config Cases.scheduled_encoder))
              else 0%nat).
Proof.
  assert (Hg : GraphDIT.fit Demo.generator_backend Cases.scheduled_generator
                 (GraphDIT.InputDict Demo.checkpoint1) None Demo.w0
               = (Ok Cases.fitted_scheduled_generator,
                  snd (GraphDIT.fit Demo.generator_backend Cases.scheduled_generator
                         (GraphDIT.InputDict Demo.checkpoint1) None Demo.w0)))
    by (vm_compute; reflexivity).
  assert (He : ContextPred.fit Demo.encoder_backend Cases.scheduled_encoder
                 ["C"; "CC"] Demo.w0
               = (Ok Cases.fitted_scheduled_encoder,
                  snd (ContextPred.fit Demo.encoder_backend Cases.scheduled_encoder
                         ["C"; "CC"] Demo.w0)))
    by (vm_compute; reflexivity).
  split; [exact (f_equal fst Hg) |]. split; [exact (f_equal fst He) |].
  split; [vm_compute; reflexivity |].
  exact (fit_steps_scheduler_once_per_epoch Demo.generator_backend Demo.encoder_backend
           Cases.scheduled_generator Cases.fitted_scheduled_generator
           (GraphDIT.InputDict Demo.checkpoint1) None
           Cases.scheduled_encoder Cases.fitted_scheduled_encoder ["C"; "CC"]
           Demo.w0 _ Demo.w0 _ Hg He).
Defined.

(** ** The reverse-step probabilities: [get_prob] *)

Section Distributions.
Local Open Scope Q_scope.




End Distributions.



(** ** [generate] *)

Section NodeMasks.

(** [arange(n) < c]: true on the first [c] positions, false on the rest. *)
Lemma arange_below (c : Z) (n : nat) :
  map (fun i => (0 + Z.of_nat i <? c)%Z) (seq 0 n)
  = repeat true (Z.to_nat c `min` n) ++ repeat false (n - Z.to_nat c).
Proof.
  induction n as [|n IH]; [now rewrite Nat.min_0_r |].
  rewrite seq_S, map_app, IH. cbn [map Nat.add].
  destruct (0 + Z.of_nat n <? c)%Z eqn:Hlt.
  - apply Z.ltb_lt in Hlt.
    replace (Z.to_nat c `min` n)%nat with n by lia.
    replace (Z.to_nat c `min` S n)%nat with (S n) by lia.
    replace (n - Z.to_nat c)%nat with 0%nat by lia.
    replace (S n - Z.to_nat c)%nat with 0%nat by lia.
    cbn [repeat]. rewrite !app_nil_r. now rewrite repeat_cons.
  - apply Z.ltb_ge in Hlt.
    replace (Z.to_nat c `min` S n)%nat with (Z.to_nat c `min` n)%nat by lia.
    replace (S n - Z.to_nat c)%nat with (S (n - Z.to_nat c)) by lia.
    rewrite <- app_assoc. f_equal. cbn [repeat]. now rewrite repeat_cons.
Qed.

End NodeMasks.

(** X18. The node mask of [generate] (lines 391-396) for node counts given
    one per graph: row [b] is true on the first [num_node[b]] positions and
    false on the rest, with [max_node] positions in all.  A count above
    [max_node] is not an error: the row is all true; a count of zero or
    less gives a row that is all false. *)
Theorem node_mask_rows (max_node : Z) (num_node : list Z) :
  GraphDIT.node_mask_of max_node (GraphDIT.unsqueeze num_node)
  = if (max_node <? 0)%Z
    then Raise (RuntimeError "arange: upper bound inconsistent with step sign")
    else Ok (map (fun c => repeat true (Z.to_nat c `min` Z.to_nat max_node)
                           ++ repeat false (Z.to_nat max_node - Z.to_nat c))
               num_node).
Proof.
  unfold GraphDIT.node_mask_of. destruct (max_node <? 0)%Z; [reflexivity |].
  unfold range. rewrite Z.sub_0_r.
  induction num_node as [|c cs IH]; [reflexivity |].
  cbn [GraphDIT.unsqueeze map]. rewrite traverse_cons.
  unfold GraphDIT.unsqueeze in IH. rewrite IH. now rewrite map_map, arange_below.
Qed.

(** X19. [generate] on an estimator on which [setup_diffusion_params] was
    never called ([dataset_info] has no [node_dist], there is no
    [limit_dist]): without [num_node] it raises [KeyError] at
    [self.dataset_info["node_dist"]]; with [num_node], once the arguments
    are converted, it raises the [ValueError] of the missing limit
    distribution. *)
Theorem generate_on_fresh_estimator
    (B : GraphDIT.Backend) (globals : gmap string pyval)
    (self : GraphDIT.Generator (GraphDIT.Net B) (GraphDIT.TM B))
    (labels : list Q + list (list Q)) (num_node : list Z + list (list Z))
    (w w1 : World) (prepared : list (list Q) * list (list Z) * NodeMask) :
  GraphDIT.dataset_info self !! "node_dist" = None ->
  GraphDIT.limit_dist self = None ->
  GraphDIT.generate_prepare B self labels (Some num_node) w = (Ok prepared, w1) ->
  GraphDIT.generate B globals self labels None w = (Raise (KeyError "node_dist"), w)
  /\ GraphDIT.generate B globals self labels (Some num_node) w
     = (Raise (ValueError
          "Limit distribution not found. Please call setup_diffusion_params first."),
        w1).
Proof.
  intros Hdist Hlimit Hprep. split.
  - unfold GraphDIT.generate, GraphDIT.generate_prepare.
    unfold getitem. rewrite Hdist. reflexivity.
  - unfold GraphDIT.generate. erewrite bind_ok by exact Hprep.
    destruct prepared as [[y nn] node_mask]. cbn beta iota.
    unfold GraphDIT.generate_noise. rewrite Hlimit. reflexivity.
Qed.

Lemma generate_on_fresh_estimator_witness :
  GraphDIT.dataset_info (Demo.fresh_generator None) !! "node_dist" = None
  /\ GraphDIT.limit_dist (Demo.fresh_generator None) = None
  /\ GraphDIT.generate_prepare Demo.generator_backend (Demo.fresh_generator None)
       (inl [(1 # 2)%Q]) (Some (inl [1%Z])) Demo.w0
     = (Ok (Demo.y1, [[1%Z]], Cases.mask_one_of_fifty), Demo.w0)
  /\ GraphDIT.generate Demo.generator_backend GraphDIT.module_globals
       (Demo.fresh_generator None) (inl [(1 # 2)%Q]) None Demo.w0
     = (Raise (KeyError "node_dist"), Demo.w0)
  /\ GraphDIT.generate Demo.generator_backend GraphDIT.module_globals
       (Demo.fresh_generator None) (inl [(1 # 2)%Q]) (Some (inl [1%Z])) Demo.w0
     = (Raise (ValueError
          "Limit distribution not found. Please call setup_diffusion_params first."),
        Demo.w0).
Proof.
  assert (Hd : GraphDIT.dataset_info (Demo.fresh_generator None) !! "node_dist" = None)
    by (vm_compute; reflexivity).
  assert (Hl : GraphDIT.limit_dist (Demo.fresh_generator None) = None) by reflexivity.
  assert (Hp : GraphDIT.generate_prepare Demo.generator_backend (Demo.fresh_generator None)
                 (inl [(1 # 2)%Q]) (Some (inl [1%Z])) Demo.w0
               = (Ok (Demo.y1, [[1%Z]], Cases.mask_one_of_fifty), Demo.w0))
    by (vm_compute; reflexivity).
  exact (conj Hd (conj Hl (conj Hp
           (generate_on_fresh_estimator Demo.generator_backend GraphDIT.module_globals
              (Demo.fresh_generator None) (inl [(1 # 2)%Q]) (inl [1%Z]) Demo.w0 Demo.w0
              _ Hd Hl Hp)))).
Defined.

(** X20. [generate] with a [num_node] whose number of rows differs from
    the number of rows of [labels] fails the assertion of line 390, before
    anything is sampled. *)
Theorem generate_batch_mismatch
    (B : GraphDIT.Backend) (globals : gmap string pyval)
    (self : GraphDIT.Generator (GraphDIT.Net B) (GraphDIT.TM B))
    (labels : list Q + list (list Q)) (num_node : list Z + list (list Z))
    (w : World) :
  match num_node with inl v => length v | inr m => length m end
  <> match labels with inl v => length v | inr m => length m end ->
  GraphDIT.generate B globals self labels (Some num_node) w = (Raise AssertionError, w).
Proof.
  intros Hne. unfold GraphDIT.generate, GraphDIT.generate_prepare.
  assert (Hlen : (length (match num_node with
                          | inl v => GraphDIT.unsqueeze v
                          | inr m => m
                          end)
                  =? length (match labels with
                             | inl v => GraphDIT.unsqueeze v
                             | inr m => m
                             end))%nat = false).
  { apply Nat.eqb_neq. unfold GraphDIT.unsqueeze.
    destruct num_node, labels; rewrite ?length_map; exact Hne. }
  destruct num_node as [v | m]; unfold mbind, M_bind, bind, mret, M_ret, ret;
    rewrite Hlen; reflexivity.
Qed.

Lemma generate_batch_mismatch_witness :
  length [1%Z; 2%Z] <> length [(1 # 2)%Q]
  /\ GraphDIT.generate Demo.generator_backend GraphDIT.module_globals
       Demo.ready_generator (inl [(1 # 2)%Q]) (Some (inl [1%Z; 2%Z])) Demo.w0
     = (Raise AssertionError, Demo.w0).
Proof.
  assert (H : match (inl [1%Z; 2%Z] : list Z + list (list Z)) with
              | inl v => length v
              | inr m => length m
              end
              <> match (inl [(1 # 2)%Q] : list Q + list (list Q)) with
                 | inl v => length v
                 | inr m => length m
                 end) by (cbn; lia).
  exact (conj H (generate_batch_mismatch Demo.generator_backend GraphDIT.module_globals
                   Demo.ready_generator (inl [(1 # 2)%Q]) (inl [1%Z; 2%Z]) Demo.w0 H)).
Defined.

(** X21. With [timesteps <= 0] the sampling loop of [generate] never runs:
    once the arguments are converted and the initial noise is drawn,
    [generate] raises [UnboundLocalError] at [sampled_s.mask(..)], whatever
    the module name space binds. *)
Theorem generate_without_timesteps
    (B : GraphDIT.Backend) (globals : gmap string pyval)
    (self : GraphDIT.Generator (GraphDIT.Net B) (GraphDIT.TM B))
    (labels : list Q + list (list Q)) (num_node : option (list Z + list (list Z)))
    (w w1 w2 : World) (y : list (list Q)) (nn : list (list Z)) (node_mask : NodeMask)
    (X : XT) (E : ET) :
  (GraphDIT.timesteps self <= 0)%Z ->
  GraphDIT.generate_prepare B self labels num_node w = (Ok (y, nn, node_mask), w1) ->
  GraphDIT.generate_noise B self node_mask w1 = (Ok (X, E), w2) ->
  GraphDIT.generate B globals self labels num_node w
  = (Raise (UnboundLocalError "sampled_s"), w2).
Proof.
  intros HT Hprep Hnoise. unfold GraphDIT.generate.
  erewrite bind_ok by exact Hprep. cbn beta iota.
  erewrite bind_ok by exact Hnoise. cbn beta iota.
  unfold GraphDIT.generate_loop. rewrite range_empty by lia. reflexivity.
Qed.

Lemma generate_without_timesteps_witness :
  (GraphDIT.timesteps Cases.generator_without_timesteps <= 0)%Z
  /\ GraphDIT.generate_prepare Demo.generator_backend Cases.generator_without_timesteps
       (inl [(1 # 2)%Q]) (Some (inl [2%Z])) Demo.w0
     = (Ok (Demo.y1, [[2%Z]], Demo.mask1), Demo.w0)
  /\ GraphDIT.generate_noise Demo.generator_backend Cases.generator_without_timesteps
       Demo.mask1 Demo.w0
     = (Ok (Demo.X1, Demo.E1), Demo.w0)
  /\ GraphDIT.generate Demo.generator_backend Demo.patched_globals
       Cases.generator_without_timesteps (inl [(1 # 2)%Q]) (Some (inl [2%Z])) Demo.w0
     = (Raise (UnboundLocalError "sampled_s"), Demo.w0).
Proof.
  assert (HT : (GraphDIT.timesteps Cases.generator_without_timesteps <= 0)%Z)
    by (cbn; lia).
  assert (Hp : GraphDIT.generate_prepare Demo.generator_backend
                 Cases.generator_without_timesteps (inl [(1 # 2)%Q]) (Some (inl [2%Z]))
                 Demo.w0
               = (Ok (Demo.y1, [[2%Z]], Demo.mask1), Demo.w0))
    by (vm_compute; reflexivity).
  assert (Hn : GraphDIT.generate_noise Demo.generator_backend
                 Cases.generator_without_timesteps Demo.mask1 Demo.w0
               = (Ok (Demo.X1, Demo.E1), Demo.w0))
    by (vm_compute; reflexivity).
  exact (conj HT (conj Hp (conj Hn
           (generate_without_timesteps Demo.generator_backend Demo.patched_globals
              Cases.generator_without_timesteps (inl [(1 # 2)%Q]) (Some (inl [2%Z]))
              Demo.w0 Demo.w0 Demo.w0 Demo.y1 [[2%Z]] Demo.mask1 Demo.X1 Demo.E1
              HT Hp Hn)))).
Defined.

(** ** The encoder: [__post_init__] and [encode] *)

Section Construction.

Lemma contains_elem_of (x : string) (l : list string) :
  ContextPredMethods.contains x l = true <-> x ∈ l.
Proof.
  unfold ContextPredMethods.contains. rewrite existsb_exists. split.
  - intros (y & Hy & Heq). apply String.eqb_eq in Heq as ->.
    now apply list_elem_of_In.
  - intros H. exists x. split; [now apply list_elem_of_In | apply String.eqb_refl].
Qed.

End Construction.

(** X22. [__post_init__] of the encoder, after the base class's
    [__post_init__] has returned, accepts exactly the configurations whose
    [encoder_type] is one of [ALLOWABLE_ENCODER_MODELS] and whose [readout]
    is one of [ALLOWABLE_ENCODER_READOUTS]; the encoder type is checked
    first, so an invalid one is the error reported whatever [readout] is;
    and an exception of the base class is passed on. *)
Theorem post_init_accepts (c : ContextPred.Config) (e : exn) :
  (ContextPredMethods.__post_init__ (Ok tt) c = Ok tt
   <-> ContextPred.encoder_type c ∈ ContextPredMethods.ALLOWABLE_ENCODER_MODELS
       /\ ContextPred.readout c ∈ ContextPredMethods.ALLOWABLE_ENCODER_READOUTS)
  /\ (ContextPred.encoder_type c ∉ ContextPredMethods.ALLOWABLE_ENCODER_MODELS ->
      ContextPredMethods.__post_init__ (Ok tt) c
      = Raise (ContextPredMethods.invalid "encoder_model" (ContextPred.encoder_type c)
                 ContextPredMethods.ALLOWABLE_ENCODER_MODELS))
  /\ (ContextPred.encoder_type c ∈ ContextPredMethods.ALLOWABLE_ENCODER_MODELS ->
      ContextPred.readout c ∉ ContextPredMethods.ALLOWABLE_ENCODER_READOUTS ->
      ContextPredMethods.__post_init__ (Ok tt) c
      = Raise (ContextPredMethods.invalid "encoder_readout" (ContextPred.readout c)
                 ContextPredMethods.ALLOWABLE_ENCODER_READOUTS))
  /\ ContextPredMethods.__post_init__ (Raise e) c = Raise e.
Proof.
  unfold ContextPredMethods.__post_init__. cbn [mbind result_bind].
  pose proof (contains_elem_of (ContextPred.encoder_type c)
                ContextPredMethods.ALLOWABLE_ENCODER_MODELS) as Htype.
  pose proof (contains_elem_of (ContextPred.readout c)
                ContextPredMethods.ALLOWABLE_ENCODER_READOUTS) as Hreadout.
  destruct (ContextPredMethods.contains (ContextPred.encoder_type c) _);
    destruct (ContextPredMethods.contains (ContextPred.readout c) _);
    cbn [negb]; repeat split; try discriminate; try reflexivity;
    intuition (discriminate || congruence).
Qed.

Section Encoding.

Lemma result_bind_ok {A B} (m : result A) (k : A -> result B) b :
  m ≫= k = Ok b -> exists a, m = Ok a /\ k a = Ok b.
Proof. destruct m as [a|e]; [eauto | discriminate]. Qed.

Lemma torch_cat_ok tensors rows :
  ContextPredMethods.torch_cat tensors = Ok rows ->
  tensors <> [] /\ rows = concat tensors
  /\ Forall (fun r => length r = length (hd [] rows)) rows.
Proof.
  unfold ContextPredMethods.torch_cat. destruct tensors as [|t ts]; [discriminate |].
  destruct (forallb _ _) eqn:Hall; [|discriminate]. intros [= <-].
  split; [discriminate |]. split; [reflexivity |].
  apply Forall_forall. intros r Hr. rewrite forallb_forall in Hall.
  apply Nat.eqb_eq, Hall. now apply list_elem_of_In.
Qed.

End Encoding.

(** X23. A call of [encode] that returns: the estimator has a network, now
    in evaluation mode, and is otherwise unchanged; the loader yielded at
    least one batch; the result is the concatenation, in the order of the
    loader, of the network's graph encodings of the batches, rows of one
    width; it is a tensor exactly when [return_type] is ["pt"] and an array
    for every other string. *)
Theorem encode_result
    (B : ContextPred.Backend) (I : ContextPredMethods.Inference B)
    (self self' : ContextPred.Encoder (ContextPred.Net B))
    (X : list string) (return_type : string) (out : ContextPredMethods.Encodings) :
  ContextPredMethods.encode B I self X return_type = Ok (self', out) ->
  exists mols dataset loader net encodings,
    ContextPredMethods.validate_smiles I X = Ok mols
    /\ traverse (ContextPred.to_graph B) mols = Ok dataset
    /\ ContextPredMethods.ordered_loader I dataset
         (ContextPred.batch_size (ContextPred.config self)) = Ok loader
    /\ ContextPred.model self = Some net
    /\ loader <> []
    /\ Forall2 (fun batch t =>
                  ContextPredMethods.graph_encoding I
                    (ContextPredMethods.eval_mode I net) batch = Ok t)
         loader encodings
    /\ Forall (fun r => length r = length (hd [] (concat encodings))) (concat encodings)
    /\ out = (if String.eqb return_type "pt"
              then ContextPredMethods.AsTensor (concat encodings)
              else ContextPredMethods.AsArray (concat encodings))
    /\ self' = ContextPred.mkEncoder (ContextPred.config self)
                 (Some (ContextPredMethods.eval_mode I net))
                 (ContextPred.fitting_loss self) (ContextPred.fitting_epoch self)
                 (ContextPred.is_fitted_ self).
Proof.
  unfold ContextPredMethods.encode. intros H.
  apply result_bind_ok in H as (u & _ & H).
  apply result_bind_ok in H as (mols & Hmols & H).
  apply result_bind_ok in H as (dataset & Hdata & H).
  apply result_bind_ok in H as (loader & Hloader & H).
  destruct (ContextPred.model self) as [net|]; [|discriminate].
  apply result_bind_ok in H as (encodings & Henc & H).
  apply result_bind_ok in H as (rows & Hcat & H).
  apply torch_cat_ok in Hcat as (Hne & -> & Hwidth).
  injection H as <- <-.
  exists mols, dataset, loader, net, encodings.
  repeat (split; [assumption || reflexivity |]).
  split.
  { intros ->. cbn in Henc. injection Henc as <-. now apply Hne. }
  split; [now apply traverse_ok |].
  split; [exact Hwidth |]. split; reflexivity.
Qed.

Lemma encode_result_witness :
  ContextPredMethods.encode Demo.encoder_backend Cases.encoder_inference
    Demo.fitted_encoder ["C"; "CC"] "np"
  = Ok (Demo.fitted_encoder, ContextPredMethods.AsArray [[1%Q; 0%Q]; [1%Q; 0%Q]])
  /\ exists mols dataset loader net encodings,
       ContextPredMethods.validate_smiles Cases.encoder_inference ["C"; "CC"] = Ok mols
       /\ traverse (ContextPred.to_graph Demo.encoder_backend) mols = Ok dataset
       /\ ContextPredMethods.ordered_loader Cases.encoder_inference dataset
            (ContextPred.batch_size (ContextPred.config Demo.fitted_encoder)) = Ok loader
       /\ ContextPred.model Demo.fitted_encoder = Some net
       /\ loader <> []
       /\ Forall2 (fun batch t =>
                     ContextPredMethods.graph_encoding Cases.encoder_inference
                       (ContextPredMethods.eval_mode Cases.encoder_inference net) batch
                     = Ok t)
            loader encodings
       /\ Forall (fun r => length r = length (hd [] (concat encodings)))
            (concat encodings)
       /\ ContextPredMethods.AsArray [[1%Q; 0%Q]; [1%Q; 0%Q]]
          = (if String.eqb "np" "pt"
             then ContextPredMethods.AsTensor (concat encodings)
             else ContextPredMethods.AsArray (concat encodings))
       /\ Demo.fitted_encoder
          = ContextPred.mkEncoder (ContextPred.config Demo.fitted_encoder)
              (Some (ContextPredMethods.eval_mode Cases.encoder_inference net))
              (ContextPred.fitting_loss Demo.fitted_encoder)
              (ContextPred.fitting_epoch Demo.fitted_encoder)
              (ContextPred.is_fitted_ Demo.fitted_encoder).
Proof.
  assert (H : ContextPredMethods.encode Demo.encoder_backend Cases.encoder_inference
                Demo.fitted_encoder ["C"; "CC"] "np"
              = Ok (Demo.fitted_encoder,
                    ContextPredMethods.AsArray [[1%Q; 0%Q]; [1%Q; 0%Q]]))
    by (vm_compute; reflexivity).
  exact (conj H (encode_result Demo.encoder_backend Cases.encoder_inference
                   Demo.fitted_encoder Demo.fitted_encoder ["C"; "CC"] "np" _ H)).
Defined.

(** X24. [encode] tests [self.model is None] only after the inputs are
    validated, converted and wrapped in a loader: then, without a network it
    raises [RuntimeError("Model not initialized")]; with a network and a
    loader that yields no batch (an empty input) it raises the
    [RuntimeError] of [torch.cat] on an empty list. *)
Theorem encode_needs_model_and_batches
    (B : ContextPred.Backend) (I : ContextPredMethods.Inference B)
    (self : ContextPred.Encoder (ContextPred.Net B))
    (X : list string) (return_type : string)
    (mols : list (ContextPred.Mol B)) (dataset : list (ContextPred.Graph B))
    (loader : list (ContextPred.Batch B)) :
  ContextPredMethods._check_is_fitted I self = Ok tt ->
  ContextPredMethods.validate_smiles I X = Ok mols ->
  traverse (ContextPred.to_graph B) mols = Ok dataset ->
  ContextPredMethods.ordered_loader I dataset
    (ContextPred.batch_size (ContextPred.config self)) = Ok loader ->
  (ContextPred.model self = None ->
   ContextPredMethods.encode B I self X return_type
   = Raise (RuntimeError "Model not initialized"))
  /\ (is_Some (ContextPred.model self) -> loader = [] ->
      ContextPredMethods.encode B I self X return_type
      = Raise (RuntimeError "torch.cat(): expected a non-empty list of Tensors")).
Proof.
  intros Hfit Hmols Hdata Hloader. unfold ContextPredMethods.encode.
  rewrite Hfit, Hmols. cbn [mbind result_bind]. rewrite Hdata. cbn [mbind result_bind].
  rewrite Hloader. cbn [mbind result_bind]. split.
  - intros ->. reflexivity.
  - intros [net ->] ->. reflexivity.
Qed.

Lemma encode_needs_model_and_batches_witness :
  ContextPredMethods._check_is_fitted Cases.encoder_inference
    Cases.fitted_encoder_without_model = Ok tt
  /\ ContextPredMethods.validate_smiles Cases.encoder_inference [] = Ok []
  /\ traverse (ContextPred.to_graph Demo.encoder_backend) [] = Ok []
  /\ ContextPredMethods.ordered_loader Cases.encoder_inference []
       (ContextPred.batch_size (ContextPred.config Cases.fitted_encoder_without_model))
     = Ok []
  /\ (ContextPred.model Cases.fitted_encoder_without_model = None ->
      ContextPredMethods.encode Demo.encoder_backend Cases.encoder_inference
        Cases.fitted_encoder_without_model [] "pt"
      = Raise (RuntimeError "Model not initialized"))
  /\ (is_Some (ContextPred.model Cases.fitted_encoder_without_model) ->
      ([] : list (ContextPred.Batch Demo.encoder_backend)) = [] ->
      ContextPredMethods.encode Demo.encoder_backend Cases.encoder_inference
        Cases.fitted_encoder_without_model [] "pt"
      = Raise (RuntimeError "torch.cat(): expected a non-empty list of Tensors")).
Proof.
  assert (H1 : ContextPredMethods._check_is_fitted Cases.encoder_inference
                 Cases.fitted_encoder_without_model = Ok tt) by reflexivity.
  assert (H2 : ContextPredMethods.validate_smiles Cases.encoder_inference [] = Ok [])
    by reflexivity.
  assert (H3 : traverse (ContextPred.to_graph Demo.encoder_backend) [] = Ok [])
    by reflexivity.
  assert (H4 : ContextPredMethods.ordered_loader Cases.encoder_inference []
                 (ContextPred.batch_size
                    (ContextPred.config Cases.fitted_encoder_without_model)) = Ok [])
    by reflexivity.
  exact (conj H1 (conj H2 (conj H3 (conj H4
           (encode_needs_model_and_batches Demo.encoder_backend Cases.encoder_inference
              Cases.fitted_encoder_without_model [] "pt" [] [] [] H1 H2 H3 H4))))).
Defined.
